(** * Quin-QuantAI: the conversational query/response pipeline

    A shallow embedding of the chat front end (ChatInterface,
    VisualizationPanel, DatasetUpload) and of the SQL pass-through route of
    the back end, with the properties their specification states.

    Conventions of the embedding.
    - A JavaScript string is a [string] holding the UTF-8 bytes of its text.
      Substring tests ([includes], [startsWith], [endsWith]) on well-formed
      text agree with the tests on UTF-16 code units.
    - A JavaScript number is a [spec_float] (IEEE 754 binary64 as the
      Standard Library describes it).
    - A React element is an [Html] tree; an expression [{c && <x/>}] whose
      condition is falsy contributes no child.
    - [async] functions are split at their [await]s: the part that runs
      synchronously, and the continuation that runs once the awaited promise
      has settled, each as a function on the component state.  The calls a
      handler makes to the outside (network, console, callbacks of the
      parent) are appended to an effect log carried in the state. *)

From Stdlib Require Import ZArith NArith String Ascii List Bool Lia.
From Stdlib Require Import SpecFloat DecimalString.
From Stdlib Require DecimalFacts DecimalPos DecimalN.
From Stdlib Require QArith Qabs Qpower Qfield Morphisms.
Import ListNotations.

Open Scope string_scope.
Open Scope list_scope.

(* ================================================================== *)
(** * The JavaScript built-ins the sources call *)
(* ================================================================== *)

Module JS.

(** ** Characters *)

Definition code (c : ascii) : N := N_of_ascii c.

Definition chr (n : N) : ascii := ascii_of_N n.

Definition LF : ascii := chr 10.

(** The one-byte members of WhiteSpace and LineTerminator:
    TAB, LF, VT, FF, CR and SP. *)
Definition ws1 (c : ascii) : bool :=
  let n := code c in
  ((9 <=? n) && (n <=? 13))%N || (n =? 32)%N.

(** The two-byte member: U+00A0 (C2 A0). *)
Definition ws2 (c1 c2 : ascii) : bool :=
  ((code c1 =? 194) && (code c2 =? 160))%N.

(** The three-byte members: U+1680 (E1 9A 80), U+2000..U+200A
    (E2 80 80 .. E2 80 8A), U+2028 and U+2029 (E2 80 A8, E2 80 A9), U+202F
    (E2 80 AF), U+205F (E2 81 9F), U+3000 (E3 80 80), U+FEFF (EF BB BF). *)
Definition ws3 (c1 c2 c3 : ascii) : bool :=
  let a := code c1 in
  let b := code c2 in
  let c := code c3 in
  (((a =? 225) && (b =? 154) && (c =? 128))
   || ((a =? 226) && (b =? 128)
       && (((128 <=? c) && (c <=? 138)) || (c =? 168) || (c =? 169) || (c =? 175)))
   || ((a =? 226) && (b =? 129) && (c =? 159))
   || ((a =? 227) && (b =? 128) && (c =? 128))
   || ((a =? 239) && (b =? 187) && (c =? 191)))%N.

(** ** String.prototype functions *)

(** [toLowerCase] on the ASCII letters.  The sources only ever test its
    result with [includes] against ASCII needles.  Outside ASCII only U+212A
    (to k) and U+0130 (to i followed by U+0307) lower-case to anything in
    ASCII, and no needle of the sources has a k, or an i in last place: the
    tests get the answers of the full mapping. *)
Definition lower (c : ascii) : ascii :=
  let n := code c in
  if ((65 <=? n) && (n <=? 90))%N then chr (n + 32) else c.

Fixpoint toLowerCase (s : string) : string :=
  match s with
  | EmptyString => EmptyString
  | String c r => String (lower c) (toLowerCase r)
  end.

Definition startsWith (s p : string) : bool := prefix p s.

Fixpoint includes (s needle : string) : bool :=
  prefix needle s
  || match s with
     | EmptyString => false
     | String _ r => includes r needle
     end.

Fixpoint rev (s : string) : string :=
  match s with
  | EmptyString => EmptyString
  | String c r => rev r ++ String c EmptyString
  end.

Definition endsWith (s suffix : string) : bool := prefix (rev suffix) (rev s).

(** Leading white space off; [w2] and [w3] receive the bytes in reading
    order, so that the same loop serves the reversed string. *)
Fixpoint strip (w2 : ascii -> ascii -> bool) (w3 : ascii -> ascii -> ascii -> bool)
    (s : string) : string :=
  match s with
  | EmptyString => s
  | String c1 r1 =>
      if ws1 c1 then strip w2 w3 r1 else
      match r1 with
      | EmptyString => s
      | String c2 r2 =>
          if w2 c1 c2 then strip w2 w3 r2 else
          match r2 with
          | EmptyString => s
          | String c3 r3 => if w3 c1 c2 c3 then strip w2 w3 r3 else s
          end
      end
  end.

Definition trimStart (s : string) : string := strip ws2 ws3 s.

Definition trimEnd (s : string) : string :=
  rev (strip (fun a b => ws2 b a) (fun a b c => ws3 c b a) (rev s)).

Definition trim (s : string) : string := trimEnd (trimStart s).

(** [s.substring(1)]; the source applies it to strings whose first
    character is the one-byte asterisk. *)
Definition substring1 (s : string) : string :=
  match s with
  | EmptyString => EmptyString
  | String _ r => r
  end.

(** [s.split('\n')]: always at least one piece. *)
Fixpoint split_lines (s : string) : list string :=
  match s with
  | EmptyString => [EmptyString]
  | String c r =>
      if (code c =? 10)%N then EmptyString :: split_lines r
      else match split_lines r with
           | [] => [String c EmptyString]
           | l :: ls => String c l :: ls
           end
  end.

(** [lines.join('\n')]. *)
Definition join_lines (ls : list string) : string :=
  String.concat (String LF EmptyString) ls.

(** [s.replace(/_/g, ' ')]. *)
Fixpoint replace_underscores (s : string) : string :=
  match s with
  | EmptyString => EmptyString
  | String c r =>
      String (if (code c =? 95)%N then chr 32 else c) (replace_underscores r)
  end.

(** Truthiness of a string: the empty string is falsy. *)
Definition nonempty (s : string) : bool :=
  match s with
  | EmptyString => false
  | String _ _ => true
  end.

(** Truthiness of an optional string property: [undefined] and [''] are
    falsy. *)
Definition truthy (o : option string) : bool :=
  match o with
  | Some s => nonempty s
  | None => false
  end.

(** [a || b] on optional strings. *)
Definition or_else (a b : option string) : option string :=
  if truthy a then a else b.

(** Decimal digits of a natural number ([Number.prototype.toString] on a
    non-negative integer). *)
Definition digits (n : N) : string := NilZero.string_of_uint (N.to_uint n).

(** ** Values *)

(** What reading a property of a row can give: a value as [JSON.parse]
    delivers it, or a built-in function that the row inherits.  An array
    or plain object is kept by the string its [ToPrimitive] conversion gives
    (['[object Object]'], or the joined elements of an array): [String],
    [Number] and [new Date] see nothing else of it.  A built-in function is
    kept by its name. *)
Inductive Value : Type :=
| VUndefined
| VNull
| VBoolean (b : bool)
| VNumber (x : spec_float)
| VString (s : string)
| VObject (prim : string)
| VFunction (name : string).

Inductive TypeTag : Type :=
| TUndefined | TObject | TBoolean | TNumber | TString | TFunction.

Definition typeof (v : Value) : TypeTag :=
  match v with
  | VUndefined => TUndefined
  | VNull => TObject
  | VBoolean _ => TBoolean
  | VNumber _ => TNumber
  | VString _ => TString
  | VObject _ => TObject
  | VFunction _ => TFunction
  end.

Definition is_number (v : Value) : bool :=
  match v with VNumber _ => true | _ => false end.

(** [value === null || value === undefined]. *)
Definition nullish (v : Value) : bool :=
  match v with VNull | VUndefined => true | _ => false end.

(** [!v]: the values that are falsy. *)
Definition falsy (v : Value) : bool :=
  match v with
  | VUndefined | VNull | VBoolean false | VString EmptyString => true
  | VNumber (S754_zero _) | VNumber S754_nan => true
  | _ => false
  end.

(** ** StringToNumber: which strings convert to NaN *)

Definition is_digit (c : ascii) : bool :=
  ((48 <=? code c) && (code c <=? 57))%N.

Definition is_hex (c : ascii) : bool :=
  let n := code c in
  (is_digit c || ((65 <=? n) && (n <=? 70)) || ((97 <=? n) && (n <=? 102)))%N.

Definition is_oct (c : ascii) : bool :=
  ((48 <=? code c) && (code c <=? 55))%N.

Definition is_bin (c : ascii) : bool :=
  ((code c =? 48) || (code c =? 49))%N.

Fixpoint skip (p : ascii -> bool) (s : string) : string :=
  match s with
  | EmptyString => s
  | String c r => if p c then skip p r else s
  end.

Definition starts (p : ascii -> bool) (s : string) : bool :=
  match s with
  | EmptyString => false
  | String c _ => p c
  end.

(** One or more characters, all of class [p]. *)
Definition all1 (p : ascii -> bool) (s : string) : bool :=
  starts p s && negb (nonempty (skip p s)).

Definition is_sign (c : ascii) : bool := ((code c =? 43) || (code c =? 45))%N.

Definition unsign (s : string) : string :=
  match s with
  | String c r => if is_sign c then r else s
  | EmptyString => s
  end.

(** What may follow the mantissa: nothing, or ExponentPart. *)
Definition exponent_opt (s : string) : bool :=
  match s with
  | EmptyString => true
  | String c r =>
      ((code c =? 101) || (code c =? 69))%N && all1 is_digit (unsign r)
  end.

Definition StrUnsignedDecimalLiteral (s : string) : bool :=
  if (s =? "Infinity")%string then true
  else if starts is_digit s then
    match skip is_digit s with
    | String "."%char r => exponent_opt (skip is_digit r)
    | r => exponent_opt r
    end
  else
    match s with
    | String "."%char r => starts is_digit r && exponent_opt (skip is_digit r)
    | _ => false
    end.

Definition NonDecimalIntegerLiteral (s : string) : bool :=
  match s with
  | String "0"%char (String c r) =>
      let n := code c in
      if ((n =? 120) || (n =? 88))%N then all1 is_hex r
      else if ((n =? 111) || (n =? 79))%N then all1 is_oct r
      else if ((n =? 98) || (n =? 66))%N then all1 is_bin r
      else false
  | _ => false
  end.

Definition StrNumericLiteral (s : string) : bool :=
  NonDecimalIntegerLiteral s || StrUnsignedDecimalLiteral (unsign s).

(** [isNaN(Number(s))] for a string: the text, white space trimmed, is
    neither empty nor a StrNumericLiteral. *)
Definition string_is_NaN (s : string) : bool :=
  let t := trim s in
  nonempty t && negb (StrNumericLiteral t).

Definition number_is_NaN (x : spec_float) : bool :=
  match x with S754_nan => true | _ => false end.

(** [isNaN(Number(v))]. *)
Definition isNaN_Number (v : Value) : bool :=
  match v with
  | VUndefined => true
  | VNull => false
  | VBoolean _ => false
  | VNumber x => number_is_NaN x
  | VString s => string_is_NaN s
  | VObject prim => string_is_NaN prim
  | VFunction _ => true
  end.

(** ** What the host decides *)

(** [Number.prototype.toString], [Date.prototype.toLocaleString] (host
    locale and time zone) and the text [Function.prototype.toString] gives
    for a built-in function of a given name are left to the host. *)
Class Host : Type := {
  Number_toString : spec_float -> string;
  Date_toLocaleString : Value -> string;
  Function_toString : string -> string
}.

(** [String(v)]. *)
Definition String_ `{Host} (v : Value) : string :=
  match v with
  | VUndefined => "undefined"
  | VNull => "null"
  | VBoolean true => "true"
  | VBoolean false => "false"
  | VNumber x => Number_toString x
  | VString s => s
  | VObject prim => prim
  | VFunction name => Function_toString name
  end.

(** ** Objects as ordered property lists *)

(** A row record: its own enumerable properties in [Object.keys] order. *)
Definition Row : Type := list (string * Value).

Definition Object_keys (r : Row) : list string := map fst r.

(** The methods of [Object.prototype]. *)
Definition Object_prototype_methods : list string :=
  ["hasOwnProperty"; "isPrototypeOf"; "propertyIsEnumerable"; "toLocaleString";
   "toString"; "valueOf"; "__defineGetter__"; "__defineSetter__";
   "__lookupGetter__"; "__lookupSetter__"].

(** What a row, a plain object, inherits under a name: the function
    [Object] as [constructor], [Object.prototype] itself through the accessor
    [__proto__], a method of [Object.prototype], or nothing. *)
Definition inherited (k : string) : Value :=
  if (k =? "constructor")%string then VFunction "Object"
  else if (k =? "__proto__")%string then VObject "[object Object]"
  else if existsb (String.eqb k) Object_prototype_methods then VFunction k
  else VUndefined.

(** [row[column]]: the row's own property, else what it inherits, which is
    [undefined] for most names. *)
Fixpoint get (r : Row) (k : string) : Value :=
  match r with
  | [] => inherited k
  | (k', v) :: r' => if (k' =? k)%string then v else get r' k
  end.

End JS.

(* ================================================================== *)
(** * Intl: [toLocaleString('en-US', ...)] with two fraction digits *)
(* ================================================================== *)

(** The two calls of [Number.prototype.toLocaleString] in the sources, for
    the locale en-US, as the engines compute them: the number is taken by
    its shortest decimal, the decimal with the fewest digits that reads back
    as the same binary64 (the digits [Number.prototype.toString] prints),
    and this decimal is rounded to hundredths, ties away from zero; the
    integer digits are grouped by three with commas; a minus sign stands
    before every negative value, zero included, and the dollar sign after
    the minus sign. *)
Module Intl.

(** ** The shortest decimal of a binary64 *)

(** A decimal number: [coefficient * 10 ^ exponent]. *)
Record Decimal : Type := { coefficient : Z; exponent : Z }.

(** The reals that round to the binary64 [m * 2^e] lie between the
    midpoints to its two neighbours.  In units of [2^(e-2)] the number is
    [4 * m], the upper midpoint [4 * m + 2], and the lower midpoint
    [4 * m - 2], or [4 * m - 1] where the significand is the least of its
    binade and the neighbour below is half as far.  The midpoints
    themselves round to the number when its significand is even. *)
Definition lower4 (m : positive) (e : Z) : Z :=
  if (Pos.eqb m (2 ^ 52) && (-1074 <? e)%Z)%bool
  then (4 * Z.pos m - 1)%Z else (4 * Z.pos m - 2)%Z.

Definition upper4 (m : positive) : Z := (4 * Z.pos m + 2)%Z.

(** The least decimal exponent the search needs: at [10 ^ base e] the
    number itself is a whole multiple. *)
Definition base (e : Z) : Z := Z.min (e - 2) 0.

(** [2^(e-2)] in units of [10 ^ base e]. *)
Definition unit (e : Z) : Z := (2 ^ (e - 2 - base e) * 5 ^ (- base e))%Z.

Definition within (closed : bool) (lo hi t : Z) : bool :=
  if closed then ((lo <=? t) && (t <=? hi))%Z else ((lo <? t) && (t <? hi))%Z.

(** The multiple of [10^j] that reads back as [v], if there is one: of the
    two multiples around [v], the one in the interval; the nearer one when
    both are, the even one on a tie. *)
Definition candidate (closed : bool) (lo v hi : Z) (j : nat) : option Z :=
  let T := (10 ^ Z.of_nat j)%Z in
  let below := (v / T)%Z in
  let above := (below + 1)%Z in
  let r := (v mod T)%Z in
  match ((0 <? below)%Z && within closed lo hi (below * T))%bool,
        within closed lo hi (above * T) with
  | true, true =>
      Some (if (2 * r <? T)%Z then below
            else if (T <? 2 * r)%Z then above
            else if Z.even below then below else above)
  | true, false => Some below
  | false, true => Some above
  | false, false => None
  end.

(** The greatest power of ten, from [10^j] downwards, with a multiple that
    reads back; at [10^0] the number itself does. *)
Fixpoint search (closed : bool) (lo v hi : Z) (j : nat) : Z * nat :=
  match j with
  | O => (v, O)
  | S j' =>
      match candidate closed lo v hi j with
      | Some c => (c, j)
      | None => search closed lo v hi j'
      end
  end.

(** The search starts at a power of ten above the interval. *)
Definition shortest (m : positive) (e : Z) : Decimal :=
  let u := unit e in
  let hi := (upper4 m * u)%Z in
  let (c, j) := search (Z.even (Z.pos m)) (lower4 m e * u)%Z (4 * Z.pos m * u)%Z hi
                  (Z.to_nat (Z.log2 hi / 3 + 1)) in
  {| coefficient := c; exponent := (base e + Z.of_nat j)%Z |}.

(** ** Two fraction digits *)

(** The decimal in hundredths, ties away from zero (rounding mode
    halfExpand, the default). *)
Definition hundredths (d : Decimal) : N :=
  match (exponent d + 2)%Z with
  | Zneg p => Z.to_N ((2 * coefficient d + 10 ^ Z.pos p) / (2 * 10 ^ Z.pos p))%Z
  | k => Z.to_N (coefficient d * 10 ^ k)%Z
  end.

(** The last three digits of a group, zeros included. *)
Definition last3 (r : N) : string :=
  (if (r <? 10)%N then "00" else if (r <? 100)%N then "0" else "") ++ JS.digits r.

(** Integer digits in groups of three, from the right. *)
Fixpoint group3 (fuel : nat) (n : N) : string :=
  match fuel with
  | O => JS.digits n
  | S fuel' =>
      if (n <? 1000)%N then JS.digits n
      else group3 fuel' (n / 1000) ++ "," ++ last3 (n mod 1000)
  end.

Definition grouped (n : N) : string := group3 (N.to_nat (N.log2 n)) n.

Definition two_digits (n : N) : string :=
  (if (n <? 10)%N then "0" else "") ++ JS.digits n.

Definition fixed2 (h : N) : string :=
  grouped (h / 100) ++ "." ++ two_digits (h mod 100).

Definition magnitude (x : spec_float) : string :=
  match x with
  | S754_nan => "NaN"
  | S754_infinity _ => "∞"
  | S754_zero _ => fixed2 0
  | S754_finite _ m e => fixed2 (hundredths (shortest m e))
  end.

Definition negative (x : spec_float) : bool :=
  match x with
  | S754_nan => false
  | S754_infinity s | S754_zero s | S754_finite s _ _ => s
  end.

Definition minus (x : spec_float) : string :=
  if negative x then "-" else "".

(** [{ minimumFractionDigits: 2, maximumFractionDigits: 2 }]. *)
Definition decimal (x : spec_float) : string := minus x ++ magnitude x.

(** [{ style: 'currency', currency: 'USD', minimumFractionDigits: 2,
    maximumFractionDigits: 2 }]. *)
Definition currency_USD (x : spec_float) : string :=
  minus x ++ "$" ++ magnitude x.

End Intl.

(** [Number.prototype.toString()] as ECMA-262 gives it (Number::toString,
    radix 10), for the hosts that run the examples. *)
Module NumberPrototype.

Fixpoint zeros (n : nat) : string :=
  match n with
  | O => ""
  | S n' => String "0" (zeros n')
  end.

(** The digits of the shortest decimal, [k] of them, with the decimal point
    after the [n]-th; the exponent form outside of [1e-6 <= x < 1e21]. *)
Definition toString (x : spec_float) : string :=
  match x with
  | S754_nan => "NaN"
  | S754_zero _ => "0"
  | S754_infinity s => (if s then "-" else "") ++ "Infinity"
  | S754_finite s m e =>
      let d := Intl.shortest m e in
      let ds := JS.digits (Z.to_N (Intl.coefficient d)) in
      let k := String.length ds in
      let n := (Z.of_nat k + Intl.exponent d)%Z in
      (if s then "-" else "")
      ++ (if ((Z.of_nat k <=? n) && (n <=? 21))%Z then
            ds ++ zeros (Z.to_nat n - k)
          else if ((0 <? n) && (n <=? 21))%Z then
            substring 0 (Z.to_nat n) ds ++ "."
            ++ substring (Z.to_nat n) (k - Z.to_nat n) ds
          else if ((-6 <? n) && (n <=? 0))%Z then
            "0." ++ zeros (Z.to_nat (- n)) ++ ds
          else
            (if (k =? 1)%nat then ds
             else substring 0 1 ds ++ "." ++ substring 1 (k - 1) ds)
            ++ "e" ++ (if (n - 1 <? 0)%Z then "-" else "+")
            ++ JS.digits (Z.to_N (Z.abs (n - 1))))
  end.

End NumberPrototype.

(** What an awaited promise settles to. *)
Inductive Settled (A : Type) : Type :=
| Fulfilled (a : A)
| Rejected (reason : string).

Arguments Fulfilled {A} a.
Arguments Rejected {A} reason.

(* ================================================================== *)
(** * React elements *)
(* ================================================================== *)

(** The callbacks an element can carry. *)
Inductive Handler : Type :=
| OnUploadClick
| OnVisualizeData (data : list JS.Row).

(** An element with its tag, [className], [onClick] and children, or a text
    node.  [key] attributes and the geometry of the icons are left out. *)
#[warnings="-register-all"]
Inductive Html : Type :=
| Text (s : string)
| El (tag className : string) (onClick : option Handler) (children : list Html).

Definition div (className : string) (children : list Html) : Html :=
  El "div" className None children.

Definition svg (className : string) : Html :=
  El "svg" className None [El "path" "" None []].

(** Does a node satisfying [p] occur in the tree? *)
Fixpoint occurs (p : Html -> bool) (h : Html) : bool :=
  p h
  || match h with
     | Text _ => false
     | El _ _ _ children =>
         (fix any (l : list Html) : bool :=
            match l with
            | [] => false
            | c :: l' => occurs p c || any l'
            end) children
     end.

Definition occurs_in (p : Html -> bool) (l : list Html) : bool :=
  existsb (occurs p) l.

Definition has_tag (t : string) (h : Html) : bool :=
  match h with
  | Text _ => false
  | El tag _ _ _ => (tag =? t)%string
  end.

(** The SQL block is the only [<pre>]; the data table the only [<table>]. *)
Definition shows_sql (h : Html) : bool := occurs (has_tag "pre") h.

Definition shows_table (h : Html) : bool := occurs (has_tag "table") h.

(** The notice of an empty result: [<p className="text-gray-600">No data
    found.</p>]. *)
Definition is_no_data_notice (h : Html) : bool :=
  match h with
  | El tag cls None [Text s] =>
      (tag =? "p")%string && (cls =? "text-gray-600")%string
      && (s =? "No data found.")%string
  | _ => false
  end.

Definition shows_no_data_notice (h : Html) : bool := occurs is_no_data_notice h.

(** A test that no text node passes, and no element with one of the given
    tags unless it has the class of the notice. *)
Definition quiet (p : Html -> bool) (tags : list string) : Prop :=
  (forall s, p (Text s) = false)
  /\ (forall tag cls oc kids,
        In tag tags -> cls <> "text-gray-600"%string ->
        p (El tag cls oc kids) = false).

Definition content_tags : list string := ["div"; "p"; "ul"; "li"]%string.

Definition table_tags : list string :=
  ["div"; "table"; "thead"; "tr"; "th"; "tbody"; "td"; "span"; "button"]%string.

(** Every tag the chat renders. *)
Definition all_tags : list string :=
  ["div"; "p"; "ul"; "li"; "table"; "thead"; "tr"; "th"; "tbody"; "td"; "span";
   "button"; "h3"; "svg"; "path"; "pre"]%string.

(* ================================================================== *)
(** * ChatInterface *)
(* ================================================================== *)

Module ChatInterface.

Import JS.

(** ** types/chat.ts *)

Inductive Role : Type := user | assistant.

Definition Role_eqb (a b : Role) : bool :=
  match a, b with
  | user, user | assistant, assistant => true
  | _, _ => false
  end.

(** [Message]; the [visualization] property is neither written nor read by
    the component.  [timestamp] is the clock reading in milliseconds. *)
Record Message : Type := {
  id : string;
  content : string;
  role : Role;
  timestamp : Z;
  explanation : option string;
  summary : option string;
  query : option string;
  data : option (list Row);
  type : option string
}.

(** [ChatResponse] as it arrives: any property may be absent. *)
Record ChatResponse : Type := {
  resp_query : option string;
  resp_explanation : option string;
  resp_summary : option string;
  resp_data : option (list Row);
  resp_sql : option string;
  resp_type : option string
}.

(** One element of the [history] array of a chat request. *)
Record HistoryEntry : Type := {
  h_user : option string;
  h_assistant : option string
}.

(** ** Cell formatting *)

Definition is_date_column (columnName : string) : bool :=
  includes (toLowerCase columnName) "date"
  || includes (toLowerCase columnName) "time".

Definition is_currency_column (columnName : string) : bool :=
  includes (toLowerCase columnName) "amount"
  || includes (toLowerCase columnName) "price"
  || includes (toLowerCase columnName) "revenue"
  || includes (toLowerCase columnName) "total".

Definition formatValue `{Host} (value : Value) (columnName : string) : string :=
  if nullish value then "N/A"
  else if is_date_column columnName then Date_toLocaleString value
  else if is_currency_column columnName then
    match value with
    | VNumber x => Intl.currency_USD x
    | _ => String_ value
    end
  else
    match value with
    | VNumber x => Intl.decimal x
    | _ => String_ value
    end.

Definition getColumnType (columnName : string) (sampleValue : Value) : string :=
  if is_date_column columnName then "date"
  else if is_currency_column columnName then "currency"
  else if is_number sampleValue then "number"
  else "text".

(** ** renderDataTable *)

(** [{...acc, [col]: t}]. *)
Definition put (acc : list (string * string)) (col t : string) :
    list (string * string) :=
  (col, t) :: acc.

(** [columnTypes[column]]. *)
Fixpoint at_key (acc : list (string * string)) (col : string) : option string :=
  match acc with
  | [] => None
  | (k, t) :: acc' => if (k =? col)%string then Some t else at_key acc' col
  end.

Definition right_aligned (columnTypes : list (string * string)) (column : string) :
    bool :=
  match at_key columnTypes column with
  | Some t => (t =? "number")%string || (t =? "currency")%string
  | None => false
  end.

(** [data.map((row, i) => ...)]. *)
Fixpoint mapi {A B : Type} (f : A -> nat -> B) (i : nat) (l : list A) : list B :=
  match l with
  | [] => []
  | a :: l' => f a i :: mapi f (S i) l'
  end.

Definition renderDataTable `{Host} (data : list Row) : list Html :=
  match data with
  | [] => [El "p" "text-gray-600" None [Text "No data found."]]
  | row0 :: _ =>
      let columns := Object_keys row0 in
      let columnTypes :=
        fold_left (fun acc col => put acc col (getColumnType col (get row0 col)))
                  columns [] in
      [ div "w-full overflow-x-auto rounded-2xl bg-white/10 backdrop-blur-md border border-white/20 shadow-xl"
          [ div "inline-block min-w-full align-middle"
              [ div "overflow-hidden"
                  [ El "table" "min-w-full divide-y divide-gray-700" None
                      [ El "thead" "" None
                          [ El "tr" "bg-gray-800/30" None
                              (map (fun column =>
                                 El "th"
                                   ("px-6 py-3 text-left text-xs font-semibold text-gray-200 uppercase tracking-wider "
                                    ++ (if right_aligned columnTypes column
                                        then "text-right" else ""))
                                   None
                                   [Text (replace_underscores column)])
                               columns) ];
                        El "tbody" "divide-y divide-gray-700 bg-transparent" None
                          (mapi (fun row i =>
                             El "tr"
                               (if Nat.even i then "bg-transparent" else "bg-gray-800/10")
                               None
                               (map (fun column =>
                                  El "td"
                                    ("px-6 py-4 whitespace-nowrap text-sm "
                                     ++ (if right_aligned columnTypes column
                                         then "text-right font-mono text-gray-200"
                                         else "text-gray-200"))
                                    None
                                    [Text (formatValue (get row column) column)])
                                columns))
                           0 data) ] ] ];
            div "px-6 py-3 text-xs text-gray-400 bg-transparent flex justify-between items-center"
              [ El "span" "" None
                  [ Text "Showing "; Text (digits (N.of_nat (List.length data)));
                    Text " ";
                    Text (if (List.length data =? 1)%nat then "row" else "rows") ] ] ];
        div "w-full flex justify-end mt-4"
          [ El "button"
              "px-6 py-2 rounded-xl bg-white/10 backdrop-blur-md border border-white/20 text-white font-bold shadow-md transition-all duration-200 hover:bg-white/20 focus:outline-none focus:ring-0"
              (Some (OnVisualizeData data))
              [Text "Visualize Data"] ] ]
  end.

(** ** processMessageContent *)

Definition nonnil {A : Type} (l : list A) : bool :=
  match l with [] => false | _ :: _ => true end.

(** The three mutable variables of the loop. *)
Record Blocks : Type := {
  elements : list Html;
  currentListItems : list string;
  currentParagraphLines : list string
}.

Definition renderParagraph (paragraphLines : list string) (elements : list Html) :
    list Html :=
  if nonnil paragraphLines
  then elements ++ [El "p" "whitespace-pre-wrap" None [Text (join_lines paragraphLines)]]
  else elements.

Definition renderList (listItems : list string) (elements : list Html) : list Html :=
  if nonnil listItems
  then elements
       ++ [El "ul" "list-disc list-inside space-y-1 pl-4" None
             (map (fun item => El "li" "" None [Text (trim (substring1 (trimStart item)))])
                  listItems)]
  else elements.

(** The body of [lines.forEach]. *)
Definition each_line (b : Blocks) (line : string) : Blocks :=
  if startsWith (trim line) "*" then
    if nonnil (currentParagraphLines b) then
      {| elements := renderParagraph (currentParagraphLines b) (elements b);
         currentListItems := currentListItems b ++ [line];
         currentParagraphLines := [] |}
    else
      {| elements := elements b;
         currentListItems := currentListItems b ++ [line];
         currentParagraphLines := currentParagraphLines b |}
  else
    if nonnil (currentListItems b) then
      {| elements := renderList (currentListItems b) (elements b);
         currentListItems := [];
         currentParagraphLines := currentParagraphLines b ++ [line] |}
    else
      {| elements := elements b;
         currentListItems := currentListItems b;
         currentParagraphLines := currentParagraphLines b ++ [line] |}.

(** [null] when the text is falsy, else the fragment of the blocks. *)
Definition processMessageContent (text : option string) : option (list Html) :=
  match text with
  | None => None
  | Some t =>
      if nonempty t then
        let b := fold_left each_line (split_lines t)
                   {| elements := []; currentListItems := [];
                      currentParagraphLines := [] |} in
        Some (renderList (currentListItems b)
                (renderParagraph (currentParagraphLines b) (elements b)))
      else None
  end.

(** [{x}] as children: [null] renders nothing, a fragment its elements. *)
Definition child (x : option (list Html)) : list Html :=
  match x with
  | None => []
  | Some l => l
  end.

(** ** renderAssistantMessage *)

(** [message.type === t]. *)
Definition type_is (message : Message) (t : string) : bool :=
  match type message with
  | Some t' => (t' =? t)%string
  | None => false
  end.

Definition nonDataTypes : list string :=
  [ "knowledge_base"; "greeting"; "help"; "ai_info"; "operation";
    "general_knowledge"; "out_of_scope"; "error" ].

(** [message.type && nonDataTypes.includes(message.type)]. *)
Definition is_nonData (message : Message) : bool :=
  match type message with
  | Some t => nonempty t && existsb (String.eqb t) nonDataTypes
  | None => false
  end.

(** The guard of the SQL block. *)
Definition sql_guard (query : option string) : bool :=
  match query with
  | None => false
  | Some q =>
      nonempty q
      && includes (toLowerCase q) "select"
      && negb (includes (toLowerCase q) "'greeting'")
      && negb (includes (toLowerCase q) "'ai_info'")
      && negb (includes (toLowerCase q) "'help'")
      && negb (includes (toLowerCase q) "'out_of_scope'")
  end.

(** The block that shows a processed text. *)
Definition text_block (text : option string) : Html :=
  div "group relative"
    [ div "text-gray-800 bg-transparent rounded-lg p-4 transition-all duration-300 flex items-start"
        [ div "text-gray-200 flex-1 message-content"
            (child (processMessageContent text)) ] ].

Definition sql_block (q : string) : Html :=
  div "group relative"
    [ div "bg-transparent rounded-lg p-4 transition-all duration-300 flex items-start"
        [ div "flex-1"
            [ div "flex items-center gap-2 mb-2"
                [ svg "h-5 w-5 text-blue-400";
                  El "span" "font-medium text-gray-200" None [Text "SQL Query"] ];
              El "pre"
                "font-mono text-sm text-gray-200 overflow-x-auto whitespace-pre-wrap p-3 rounded-md"
                None [Text q] ] ] ].

Definition renderAssistantMessage `{Host} (message : Message) : Html :=
  if type_is message "dataset_summary" then
    div "space-y-4"
      [ div "bg-white/10 backdrop-blur-md border border-white/20 rounded-2xl p-6 shadow-xl"
          ([ El "h3" "text-lg font-bold text-purple-200 mb-2 flex items-center gap-2" None
               [ svg "w-6 h-6 text-purple-300"; Text "Dataset Summary" ] ]
           ++ match summary message with
              | Some s =>
                  if nonempty s
                  then [div "text-purple-100 font-semibold mb-2" [Text s]]
                  else []
              | None => []
              end
           ++ (if truthy (explanation message)
               then [ div "text-gray-100 whitespace-pre-line text-base leading-relaxed"
                        (child (processMessageContent (explanation message))) ]
               else [])) ]
  else if type_is message "no_dataset" then
    div "space-y-4"
      [ div "bg-white/10 backdrop-blur-md border border-red-400/30 rounded-2xl p-6 shadow-xl flex items-start gap-4"
          [ svg "w-8 h-8 text-red-300 flex-shrink-0";
            div ""
              [ El "h3" "text-lg font-bold text-red-200 mb-2" None
                  [Text "No Dataset Available"];
                div "text-red-100 text-base leading-relaxed mb-4"
                  [ Text match explanation message with
                         | Some e =>
                             if nonempty e then e
                             else "Please upload a dataset first, and then I'll be happy to help you analyze it!"
                         | None =>
                             "Please upload a dataset first, and then I'll be happy to help you analyze it!"
                         end ];
                El "button"
                  "mt-2 px-4 py-2 bg-gradient-to-r from-pink-500 to-purple-500 text-white rounded-lg shadow hover:from-pink-600 hover:to-purple-600 focus:outline-none focus:ring-2 focus:ring-pink-400 focus:ring-opacity-50 transition"
                  (Some OnUploadClick)
                  [Text "Upload Dataset"] ] ] ]
  else
    let mainText := or_else (summary message) (explanation message) in
    if is_nonData message then
      div "space-y-4"
        (if truthy (explanation message)
         then [text_block (explanation message)]
         else [])
    else
      div "space-y-4"
        ((if truthy mainText then [text_block mainText] else [])
         ++ match query message with
            | Some q => if sql_guard (query message) then [sql_block q] else []
            | None => []
            end
         ++ match data message with
            | Some d => if nonnil d then [div "mt-4" (renderDataTable d)] else []
            | None => []
            end).

(** ** handleSubmit *)

(** What a handler does to the outside. *)
Inductive Effect : Type :=
| SendMessage (message : string) (history : list HistoryEntry)
| QueryExecute (sql : string)
| MessagesChange (hasMessages : bool)
| ConsoleError (reason : string).

(** The state hooks the handler touches, and the log of its effects. *)
Record State : Type := {
  messages : list Message;
  input : string;
  isLoading : bool;
  effects : list Effect
}.

(** [l.slice(-n)]. *)
Definition slice_last {A : Type} (n : nat) (l : list A) : list A :=
  skipn (List.length l - n) l.

Definition history_entry (m : Message) : HistoryEntry :=
  {| h_user := if Role_eqb (role m) user then Some (content m) else None;
     h_assistant :=
       if Role_eqb (role m) assistant
       then or_else (or_else (summary m) (explanation m)) (Some (content m))
       else None |}.

Definition contributes (h : HistoryEntry) : bool :=
  truthy (h_user h) || truthy (h_assistant h).

(** [messages.slice(-10).map(...).filter(h => h.user || h.assistant)]. *)
Definition history (messages : list Message) : list HistoryEntry :=
  filter contributes (map history_entry (slice_last 10 messages)).

(** The clock readings of one message ([Date.now()] and [new Date()]) are
    taken as one; [now] is not negative. *)
Definition userMessage (now : N) (input : string) : Message :=
  {| id := digits now; content := trim input; role := user;
     timestamp := Z.of_N now;
     explanation := None; summary := None; query := None; data := None;
     type := None |}.

Definition assistantMessage (now : N) (response : ChatResponse) : Message :=
  {| id := digits (now + 1); content := ""; role := assistant;
     timestamp := Z.of_N now;
     explanation := resp_explanation response;
     summary := resp_summary response;
     query := resp_query response;
     data := resp_data response;
     type := resp_type response |}.

Definition errorMessage (now : N) : Message :=
  {| id := digits (now + 1);
     content := "Sorry, I encountered an error. Please try again.";
     role := assistant;
     timestamp := Z.of_N now;
     explanation := None; summary := None; query := None; data := None;
     type := None |}.

(** [setMessages(prev => [...prev, m])]. *)
Definition append_message (m : Message) (s : State) : State :=
  {| messages := messages s ++ [m]; input := input s;
     isLoading := isLoading s; effects := effects s |}.

Definition log (e : Effect) (s : State) : State :=
  {| messages := messages s; input := input s;
     isLoading := isLoading s; effects := effects s ++ [e] |}.

Definition setIsLoading (b : bool) (s : State) : State :=
  {| messages := messages s; input := input s;
     isLoading := b; effects := effects s |}.

Definition setInput (i : string) (s : State) : State :=
  {| messages := messages s; input := i;
     isLoading := isLoading s; effects := effects s |}.

(** Up to [await sendMessage(...)].  [None]: the handler returned at the
    guard.  The test on [typeof userMessage.content] in the source cannot
    fail, the content being [input.trim()]. *)
Definition handleSubmit_begin (now : N) (s : State) :
    State * option (string * list HistoryEntry) :=
  if negb (nonempty (trim (input s))) then (s, None)
  else
    let um := userMessage now (input s) in
    let h := history (messages s) in
    (log (SendMessage (content um) h)
       (log (MessagesChange true)
          (setIsLoading true (append_message um (setInput "" s)))),
     Some (content um, h)).

(** The [catch] block, then [finally]. *)
Definition handleSubmit_catch (now : N) (reason : string) (s : State) : State :=
  setIsLoading false (append_message (errorMessage now) (log (ConsoleError reason) s)).

(** From the settling of [sendMessage] up to [await onQueryExecute(...)], or
    to the end.  [Some sql]: the handler now awaits [onQueryExecute(sql)]. *)
Definition handleSubmit_response (now : N) (r : Settled ChatResponse) (s : State) :
    State * option string :=
  match r with
  | Rejected reason => (handleSubmit_catch now reason s, None)
  | Fulfilled response =>
      let s1 := append_message (assistantMessage now response) s in
      match resp_sql response with
      | Some sql =>
          if nonempty sql then (log (QueryExecute sql) s1, Some sql)
          else (setIsLoading false s1, None)
      | None => (setIsLoading false s1, None)
      end
  end.

(** From the settling of [onQueryExecute] to the end. *)
Definition handleSubmit_executed (now : N) (r : Settled unit) (s : State) : State :=
  match r with
  | Fulfilled _ => setIsLoading false s
  | Rejected reason => handleSubmit_catch now reason s
  end.

(** From the settling of [sendMessage] to the end of the handler;
    [onQueryExecute] is the property of the component. *)
Definition handleSubmit_resume (onQueryExecute : string -> Settled unit)
    (now : N) (r : Settled ChatResponse) (s : State) : State :=
  match handleSubmit_response now r s with
  | (s1, None) => s1
  | (s1, Some sql) => handleSubmit_executed now (onQueryExecute sql) s1
  end.

(** One submission run to its end with nothing in between: [sendMessage]
    gives what its promise settles to; [now] and [later] are the clock at
    the submission and at the answer. *)
Definition handleSubmit
    (sendMessage : string -> list HistoryEntry -> Settled ChatResponse)
    (onQueryExecute : string -> Settled unit)
    (now later : N) (s : State) : State :=
  match handleSubmit_begin now s with
  | (s0, None) => s0
  | (s0, Some (message, h)) =>
      handleSubmit_resume onQueryExecute later (sendMessage message h) s0
  end.

(** [handleBackToHome]. *)
Definition handleBackToHome (s : State) : State :=
  log (MessagesChange false)
    {| messages := []; input := ""; isLoading := isLoading s;
       effects := effects s |}.

End ChatInterface.

(* ================================================================== *)
(** * App: how the chat is mounted *)
(* ================================================================== *)

Module App.

(** [onQueryExecute={async () => {}}]. *)
Definition onQueryExecute (_ : string) : Settled unit := Fulfilled tt.

End App.

(* ================================================================== *)
(** * VisualizationPanel: the column classes *)
(* ================================================================== *)

Module VisualizationPanel.

Import JS.

(** [typeof data[0][col] === 'number' || !isNaN(Number(data[0][col]))]. *)
Definition is_numeric (row0 : Row) (col : string) : bool :=
  is_number (get row0 col) || negb (isNaN_Number (get row0 col)).

(** [typeof data[0][col] === 'string' || typeof data[0][col] === 'boolean']. *)
Definition is_categorical (row0 : Row) (col : string) : bool :=
  match typeof (get row0 col) with
  | TString | TBoolean => true
  | _ => false
  end.

(** The component renders nothing ([None]) for an absent or empty row set. *)
Definition columns (data : list Row) : option (list string) :=
  match data with
  | [] => None
  | row0 :: _ => Some (Object_keys row0)
  end.

Definition numericColumns (data : list Row) : option (list string) :=
  match data with
  | [] => None
  | row0 :: _ => Some (filter (is_numeric row0) (Object_keys row0))
  end.

Definition categoricalColumns (data : list Row) : option (list string) :=
  match data with
  | [] => None
  | row0 :: _ => Some (filter (is_categorical row0) (Object_keys row0))
  end.

End VisualizationPanel.

(* ================================================================== *)
(** * The back end: connection pool and POST /execute *)
(* ================================================================== *)

Module Database.

Import JS.

Record FieldPacket : Type := { name : string }.

(** What [connection.execute(sql)] resolves to, the pair [[rows, fields]],
    which [executeQuery] returns as [{ rows, fields }]: for a statement with
    a result set, the rows and their field packets; for a statement
    without one (INSERT, UPDATE, DELETE, DDL), a ResultSetHeader in the
    place of the rows and [undefined] in the place of the fields. *)
Inductive QueryResult : Type :=
| ResultSet (rows : list Row) (fields : list FieldPacket)
| ResultSetHeader (affectedRows : Z).

(** What the pool is asked to do, in order. *)
Inductive PoolCall : Type :=
| GetConnection
| Execute (sql : Value)
| Release.

(** The pool and the server behind it: what [pool.getConnection()] and
    [connection.execute(sql)] settle to. *)
Record Pool : Type := {
  getConnection : Settled unit;
  execute : Value -> Settled QueryResult
}.

Definition executeQuery (pool : Pool) (sql : Value) :
    list PoolCall * Settled QueryResult :=
  match getConnection pool with
  | Rejected reason => ([GetConnection], Rejected reason)
  | Fulfilled _ =>
      match execute pool sql with
      | Fulfilled result => ([GetConnection; Execute sql; Release], Fulfilled result)
      | Rejected reason =>
          ([GetConnection; Execute sql; Release], Rejected reason)
      end
  end.

End Database.

Module ExecuteRoute.

Import JS.

(** The JSON of a response. *)
Inductive Body : Type :=
| ErrorBody (error : string)
| ResultBody (sql : Value) (data : list Row) (columns : list string)
    (executionTime : Z) (rowCount : nat).

Record Response : Type := {
  status : Z;
  body : Body
}.

(** What the [catch] block receives: the reason of a rejection, or the
    TypeError of [result.fields.map] when [fields] is [undefined]. *)
Inductive Caught : Type :=
| Rejection (reason : string)
| TypeError_fields_undefined.

(** What one request leaves behind: the calls on the pool, what
    [console.error] was given, and the response. *)
Record Handled : Type := {
  calls : list Database.PoolCall;
  logged : list Caught;
  response : Response
}.

(** [router.post('/execute', ...)]: [sql] is the property of the request
    body ([VUndefined] when the body has none), [startTime] and [endTime]
    the two readings of [Date.now()]. *)
Definition post_execute (pool : Database.Pool) (startTime endTime : Z)
    (sql : Value) : Handled :=
  if falsy sql then
    {| calls := []; logged := [];
       response := {| status := 400; body := ErrorBody "SQL query is required" |} |}
  else
    match Database.executeQuery pool sql with
    | (cs, Fulfilled (Database.ResultSet rows fields)) =>
        {| calls := cs; logged := [];
           response :=
             {| status := 200;
                body := ResultBody sql rows (map Database.name fields)
                          (endTime - startTime) (List.length rows) |} |}
    | (cs, Fulfilled (Database.ResultSetHeader _)) =>
        {| calls := cs; logged := [TypeError_fields_undefined];
           response :=
             {| status := 500; body := ErrorBody "Failed to execute query" |} |}
    | (cs, Rejected reason) =>
        {| calls := cs; logged := [Rejection reason];
           response :=
             {| status := 500; body := ErrorBody "Failed to execute query" |} |}
    end.

End ExecuteRoute.

(* ================================================================== *)
(** * DatasetUpload *)
(* ================================================================== *)

Module DatasetUpload.

Import JS.

Record ColumnInfo : Type := { name : string; type : string }.

Record DatasetInfo : Type := {
  columns : list ColumnInfo;
  row_count : Z;
  created_at : string
}.

(** A [File]: its name and its bytes. *)
Record File : Type := { file_name : string; file_bytes : string }.

(** What [uploadDataset(file)] settles to; a rejection carries
    [error.response?.data?.detail] and [error.message]. *)
Inductive Uploaded : Type :=
| UploadOk (dataset : DatasetInfo)
| UploadFailed (detail message : option string).

Inductive Effect : Type :=
| UploadDataset (file : File)
| DatasetUploaded (dataset : DatasetInfo)
| SetUploadSuccess (success : bool).

Record State : Type := {
  file : option File;
  isUploading : bool;
  error : option string;
  dragActive : bool;
  effects : list Effect
}.

Definition initial : State :=
  {| file := None; isUploading := false; error := None; dragActive := false;
     effects := [] |}.

Definition handleFile (selectedFile : File) (s : State) : State :=
  if negb (endsWith (file_name selectedFile) ".csv") then
    {| file := file s; isUploading := isUploading s;
       error := Some "Please upload a CSV file";
       dragActive := dragActive s; effects := effects s |}
  else
    {| file := Some selectedFile; isUploading := isUploading s;
       error := None;
       dragActive := dragActive s;
       effects := effects s ++ [SetUploadSuccess false] |}.

(** [e.dataTransfer.files]: the handler takes the first file, if any. *)
Definition handleDrop (files : list File) (s : State) : State :=
  let s' := {| file := file s; isUploading := isUploading s; error := error s;
               dragActive := false; effects := effects s |} in
  match files with
  | f :: _ => handleFile f s'
  | [] => s'
  end.

Definition handleChange (files : list File) (s : State) : State :=
  match files with
  | f :: _ => handleFile f s
  | [] => s
  end.

(** [handleSubmit], run to its end with the outcome of the upload. *)
Definition handleSubmit (uploadDataset : File -> Uploaded) (s : State) : State :=
  match file s with
  | None =>
      {| file := file s; isUploading := isUploading s;
         error := Some "Please select a file to upload";
         dragActive := dragActive s; effects := effects s |}
  | Some f =>
      match uploadDataset f with
      | UploadOk dataset =>
          {| file := file s; isUploading := false; error := None;
             dragActive := dragActive s;
             effects := effects s
                        ++ [SetUploadSuccess false; UploadDataset f;
                            DatasetUploaded dataset] |}
      | UploadFailed detail message =>
          {| file := file s; isUploading := false;
             error := or_else (or_else detail message)
                        (Some "Failed to upload dataset");
             dragActive := dragActive s;
             effects := effects s ++ [SetUploadSuccess false; UploadDataset f] |}
      end
  end.

(** The Clear button: [setFile(null); setError(null);
    setUploadSuccess(false)]. *)
Definition handleClear (s : State) : State :=
  {| file := None; isUploading := isUploading s; error := None;
     dragActive := dragActive s;
     effects := effects s ++ [SetUploadSuccess false] |}.

(** [handleDrag]: [entering] for dragenter and dragover, else dragleave. *)
Definition handleDrag (entering : bool) (s : State) : State :=
  {| file := file s; isUploading := isUploading s; error := error s;
     dragActive := entering; effects := effects s |}.

(** What the user can do to the component. *)
Inductive Event : Type :=
| Drag (entering : bool)
| Drop (files : list File)
| Change (files : list File)
| Submit
| Clear.

Definition step (uploadDataset : File -> Uploaded) (s : State) (e : Event) : State :=
  match e with
  | Drag entering => handleDrag entering s
  | Drop files => handleDrop files s
  | Change files => handleChange files s
  | Submit => handleSubmit uploadDataset s
  | Clear => handleClear s
  end.

Definition run (uploadDataset : File -> Uploaded) (events : list Event) : State :=
  fold_left (step uploadDataset) events initial.

(** The files handed to the network. *)
Fixpoint uploads (l : list Effect) : list File :=
  match l with
  | [] => []
  | UploadDataset f :: l' => f :: uploads l'
  | _ :: l' => uploads l'
  end.

(** What every reachable state satisfies: the chosen file and the files
    already uploaded have names ending in ".csv". *)
Definition csv_only (s : State) : Prop :=
  (forall f, file s = Some f -> endsWith (file_name f) ".csv" = true)
  /\ (forall f, In f (uploads (effects s)) -> endsWith (file_name f) ".csv" = true).

End DatasetUpload.

(* ================================================================== *)
(** * The words of the specification *)
(* ================================================================== *)

Module Spec.

Local Open Scope string_scope.

(** [needle] is a substring of [s]. *)
Definition contains (s needle : string) : Prop :=
  exists pre post, s = pre ++ needle ++ post.

(** [needle], in lower case, is a substring of [s] up to the case of the
    letters: a stretch of [s] lower-cases to it. *)
Definition contains_ci (s needle : string) : Prop :=
  exists pre mid post, s = pre ++ mid ++ post /\ JS.toLowerCase mid = needle.

(** The file name [s] ends in [suffix]. *)
Definition ends_in (s suffix : string) : Prop :=
  exists stem, s = stem ++ suffix.

(** Nothing is left of the string once trimmed. *)
Definition blank (s : string) : Prop := JS.trim s = "".

(** The string is empty or made of white space only: a sequence of
    characters of WhiteSpace and LineTerminator, in their UTF-8 bytes. *)
Inductive whitespace_only : string -> Prop :=
| ws_none : whitespace_only ""
| ws_byte (c : ascii) (s : string) :
    JS.ws1 c = true -> whitespace_only s -> whitespace_only (String c s)
| ws_two_bytes (c1 c2 : ascii) (s : string) :
    JS.ws2 c1 c2 = true -> whitespace_only s ->
    whitespace_only (String c1 (String c2 s))
| ws_three_bytes (c1 c2 c3 : ascii) (s : string) :
    JS.ws3 c1 c2 c3 = true -> whitespace_only s ->
    whitespace_only (String c1 (String c2 (String c3 s))).

(** An optional text is present: defined and not empty (what [||] and [&&]
    take as true). *)
Definition present (o : option string) : Prop :=
  exists s, o = Some s /\ s <> "".



(** The query carries one of the routing literals, single quotes included. *)
Definition routing_literal (q : string) : Prop :=
  contains_ci q "'greeting'" \/ contains_ci q "'ai_info'"
  \/ contains_ci q "'help'" \/ contains_ci q "'out_of_scope'".

(** The narrative tags. *)
Definition narrative (t : string) : Prop :=
  t = "knowledge_base" \/ t = "greeting" \/ t = "help" \/ t = "ai_info"
  \/ t = "operation" \/ t = "general_knowledge" \/ t = "out_of_scope"
  \/ t = "error".

(** The default render path: the message type is unset or not one of the
    tags with a rendering of their own. *)
Definition data_answer (t : option string) : Prop :=
  forall t', t = Some t' ->
    t' <> "dataset_summary" /\ t' <> "no_dataset" /\ ~ narrative t'.

(** How many turns of a role the log holds. *)
Definition turns (r : ChatInterface.Role) (l : list ChatInterface.Message) : nat :=
  List.length (filter (fun m => ChatInterface.Role_eqb (ChatInterface.role m) r) l).

(** The network calls in an effect log. *)
Definition sends (l : list ChatInterface.Effect) : nat :=
  List.length
    (filter (fun e => match e with
                      | ChatInterface.SendMessage _ _ => true
                      | _ => false
                      end) l).

(** The same message with another [content]. *)
Definition with_content (m : ChatInterface.Message) (c : string) :
    ChatInterface.Message :=
  {| ChatInterface.id := ChatInterface.id m;
     ChatInterface.content := c;
     ChatInterface.role := ChatInterface.role m;
     ChatInterface.timestamp := ChatInterface.timestamp m;
     ChatInterface.explanation := ChatInterface.explanation m;
     ChatInterface.summary := ChatInterface.summary m;
     ChatInterface.query := ChatInterface.query m;
     ChatInterface.data := ChatInterface.data m;
     ChatInterface.type := ChatInterface.type m |}.

(** A tree with no text in it. *)
Definition is_text (h : Html) : bool :=
  match h with Text _ => true | El _ _ _ _ => false end.


(** The number 1234.5 as a binary64: 2469 * 2^41 * 2^-42. *)
Definition n1234_5 : spec_float := S754_finite false 5429388417957888 (-42).




End Spec.

(** The numbers behind the number formats, over the rationals. *)
Module SpecQ.

Import QArith.
Local Open Scope Q_scope.

(** The value of the binary64 with significand [m] and exponent [e]. *)
Definition binary64_value (m : positive) (e : Z) : Q := inject_Z (Z.pos m) * 2 ^ e.


(** Half the distance from [m * 2^e] to the binary64 below it: the
    distance halves where the significand is the least of its binade. *)
Definition half_gap_below (m : positive) (e : Z) : Q :=
  if (Pos.eqb m (2 ^ 52) && (-1074 <? e)%Z)%bool then 2 ^ (e - 2) else 2 ^ (e - 1).

Definition half_gap_above (e : Z) : Q := 2 ^ (e - 1).

(** The real [x] rounds to the binary64 [m * 2^e], that is, the text of [x]
    reads back as this number: [x] lies between the midpoints to its
    neighbours, a midpoint going to the even significand. *)
Definition rounds_to (m : positive) (e : Z) (x : Q) : Prop :=
  if Z.even (Z.pos m)
  then binary64_value m e - half_gap_below m e <= x
       /\ x <= binary64_value m e + half_gap_above e
  else binary64_value m e - half_gap_below m e < x
       /\ x < binary64_value m e + half_gap_above e.




End SpecQ.

(** Numerals: the digit lists of the Standard Library's decimal printer. *)
Module Numeral.

Import Decimal.



End Numeral.

(** A host for running the definitions on examples: the text of a number
    as ECMA-262 gives it, the text V8 gives for a built-in function and,
    for the date-time string, the text every engine gives for a value that
    is not a date.  The examples hold no value that reads as a date. *)
Definition example_host : JS.Host :=
  {| JS.Number_toString := NumberPrototype.toString;
     JS.Date_toLocaleString := fun _ => "Invalid Date";
     JS.Function_toString := fun name =>
       ("function " ++ name ++ "() { [native code] }")%string |}.

(** Messages and rows for running the definitions. *)
Module Examples.

Import JS ChatInterface.

Definition answer (t : option string) (e s q : option string)
    (d : option (list Row)) : Message :=
  {| id := "1700000000001"; content := ""; role := assistant;
     timestamp := 1700000000000;
     explanation := e; summary := s; query := q; data := d; type := t |}.

Definition one_row : list Row :=
  [[("region", VString "north"); ("total_revenue", VNumber Spec.n1234_5)]].

(** A greeting that carries a query and rows. *)
Definition greeting : Message :=
  answer (Some "greeting") (Some "Hello!") None
    (Some "SELECT 'greeting' AS type") (Some one_row).

(** A data answer. *)
Definition sales : Message :=
  answer None (Some "Revenue by region.") (Some "One region.")
    (Some "SELECT region, total_revenue FROM sales") (Some one_row).

(** A data answer whose query carries a routing literal. *)
Definition routed : Message :=
  answer None (Some "Hi.") None (Some "Select 'GREETING' as type") None.

(** A data answer with an empty row set. *)
Definition empty_answer : Message :=
  answer None (Some "Nothing matched.") None
    (Some "SELECT region FROM sales WHERE 1 = 0") (Some []).

Definition idle (msgs : list Message) (text : string) : State :=
  {| messages := msgs; input := text; isLoading := false; effects := [] |}.

(** A chat service that answers every question with a data answer that
    asks for its SQL to be run, and one that is down. *)
Definition answering (_ : string) (_ : list HistoryEntry) : Settled ChatResponse :=
  Fulfilled {| resp_query := Some "SELECT region, total_revenue FROM sales";
               resp_explanation := Some "Revenue by region.";
               resp_summary := None;
               resp_data := Some one_row;
               resp_sql := Some "SELECT region, total_revenue FROM sales";
               resp_type := None |}.

Definition unreachable (_ : string) (_ : list HistoryEntry) : Settled ChatResponse :=
  Rejected "Network Error".

(** A first row with a boolean column and a column of numbers as text. *)
Definition flags : list Row :=
  [[("active", VBoolean true); ("year", VString "2024"); ("name", VString "Ann")]].

(** A database that is down, and one that answers. *)
Definition pool_down : Database.Pool :=
  {| Database.getConnection := Rejected "connect ECONNREFUSED 127.0.0.1:3306";
     Database.execute := fun _ => Rejected "closed" |}.

(** One that answers every statement that starts with SELECT with a result
    set, and every other statement with a header. *)
Definition pool_up : Database.Pool :=
  {| Database.getConnection := Fulfilled tt;
     Database.execute := fun sql =>
       match sql with
       | VString s =>
           if startsWith s "SELECT"
           then Fulfilled (Database.ResultSet one_row
                             [ {| Database.name := "region" |};
                               {| Database.name := "total_revenue" |} ])
           else Fulfilled (Database.ResultSetHeader 1)
       | _ => Rejected "ER_PARSE_ERROR"
       end |}.

Definition spreadsheet : DatasetUpload.File :=
  {| DatasetUpload.file_name := "report.xlsx"; DatasetUpload.file_bytes := "PK" |}.

Definition table_csv : DatasetUpload.File :=
  {| DatasetUpload.file_name := "sales.csv";
     DatasetUpload.file_bytes := "region,total_revenue" |}.

End Examples.

(* ================================================================== *)
(** * Reading a rendered tree *)
(* ================================================================== *)

Module Observe.

Import JS.

(** Every node of a tree, parents before children, in document order. *)
Fixpoint nodes (h : Html) : list Html :=
  h :: match h with
       | Text _ => []
       | El _ _ _ children =>
           (fix each (l : list Html) : list Html :=
              match l with
              | [] => []
              | c :: l' => nodes c ++ each l'
              end) children
       end.

Definition nodes_in (l : list Html) : list Html := flat_map nodes l.

(** The callbacks a tree carries, in document order. *)
Definition handler_of (h : Html) : list Handler :=
  match h with
  | El _ _ (Some x) _ => [x]
  | _ => []
  end.

Definition handlers (h : Html) : list Handler := flat_map handler_of (nodes h).

Definition handlers_in (l : list Html) : list Handler := flat_map handlers l.

(** The elements with a given tag, in document order. *)
Definition tagged (t : string) (l : list Html) : list Html :=
  filter (has_tag t) (nodes_in l).

(** A line of a message that opens with an asterisk, white space aside. *)
Definition is_bullet (line : string) : bool := startsWith (trim line) "*".

(** The maximal runs of consecutive lines of one kind (bullet or not), each
    with its kind. *)
Fixpoint runs (lines : list string) : list (bool * list string) :=
  match lines with
  | [] => []
  | l :: ls =>
      match runs ls with
      | (k, run) :: rs =>
          if Bool.eqb (is_bullet l) k then (k, l :: run) :: rs
          else (is_bullet l, [l]) :: (k, run) :: rs
      | [] => [(is_bullet l, [l])]
      end
  end.

(** What is shown of a bullet line. *)
Definition item_text (item : string) : string :=
  trim (substring1 (trimStart item)).

(** The block of one run: a list of its items, or a paragraph of its lines. *)
Definition block (r : bool * list string) : Html :=
  if fst r
  then El "ul" "list-disc list-inside space-y-1 pl-4" None
         (map (fun item => El "li" "" None [Text (item_text item)]) (snd r))
  else El "p" "whitespace-pre-wrap" None [Text (join_lines (snd r))].

(** Consecutive runs are of different kinds. *)
Fixpoint alternate (rs : list (bool * list string)) : Prop :=
  match rs with
  | r1 :: ((r2 :: _) as rest) => fst r1 <> fst r2 /\ alternate rest
  | _ => True
  end.

(** A run holds at least one line, and lines of its kind only. *)
Definition run_ok (r : bool * list string) : Prop :=
  snd r <> [] /\ Forall (fun l => is_bullet l = fst r) (snd r).

(** What the loop of processMessageContent has in hand: the list being
    gathered or the paragraph being gathered, never both, each with lines
    of its kind. *)
Definition gathering (b : ChatInterface.Blocks) : Prop :=
  (ChatInterface.currentListItems b = [] \/ ChatInterface.currentParagraphLines b = [])
  /\ Forall (fun l => is_bullet l = true) (ChatInterface.currentListItems b)
  /\ Forall (fun l => is_bullet l = false) (ChatInterface.currentParagraphLines b).

Definition children (h : Html) : list Html :=
  match h with
  | Text _ => []
  | El _ _ _ kids => kids
  end.

Definition class_of (h : Html) : string :=
  match h with
  | Text _ => ""
  | El _ cls _ _ => cls
  end.

(** The text of an element that holds one text and nothing else. *)
Definition cell_text (h : Html) : string :=
  match h with
  | El _ _ _ [Text s] => s
  | _ => ""
  end.

(** The rows of a table: for each [<tr>], in document order, what is read
    off each of its cells. *)
Definition grid {A : Type} (read : Html -> A) (l : list Html) : list (list A) :=
  map (fun tr => map read (children tr)) (tagged "tr" l).

(** A column is set to the right when it is not a date column and is a
    currency column or has a number in the first row. *)
Definition aligned (row0 : Row) (column : string) : bool :=
  negb (ChatInterface.is_date_column column)
  && (ChatInterface.is_currency_column column || is_number (get row0 column)).

Definition th_class (row0 : Row) (column : string) : string :=
  ("px-6 py-3 text-left text-xs font-semibold text-gray-200 uppercase tracking-wider "
   ++ (if aligned row0 column then "text-right" else ""))%string.

Definition td_class (row0 : Row) (column : string) : string :=
  ("px-6 py-4 whitespace-nowrap text-sm "
   ++ (if aligned row0 column then "text-right font-mono text-gray-200"
       else "text-gray-200"))%string.

End Observe.

(* ================================================================== *)
(** * services/api *)
(* ================================================================== *)

Module Api.

Import JS.

(** What a call of axios rejects with, as far as the sources read it:
    [error.response?.status], [error.response?.data?.detail] and
    [error.message]. *)
Record AxiosError : Type := {
  status : option Z;
  detail : option string;
  message : option string
}.

(** What an awaited call of this module settles to. *)
Inductive Reply (A : Type) : Type :=
| Ok (data : A)
| Err (e : AxiosError).

Arguments Ok {A} data.
Arguments Err {A} e.

(** The argument of [sendMessage]: a string, or an object with [message]
    and possibly [history]. *)
Inductive Payload : Type :=
| Plain (text : string)
| Structured (message : string)
    (history : option (list ChatInterface.HistoryEntry)).

(** The requests sent and the lines written to the console, in order. *)
Inductive Call : Type :=
| PostChat (message : string) (history : option (list ChatInterface.HistoryEntry))
| PostUpload (file : DatasetUpload.File)
| GetDataset
| GetHealth
| PostReset
| ConsoleError (label : string) (e : AxiosError).

(** The service behind [api]: what each request settles to.  [health] gives
    [response.data.status], if there is one. *)
Record Server : Type := {
  chat : string -> option (list ChatInterface.HistoryEntry) ->
         Reply ChatInterface.ChatResponse;
  upload : DatasetUpload.File -> Reply DatasetUpload.DatasetInfo;
  dataset : Reply DatasetUpload.DatasetInfo;
  health : Reply (option string);
  reset : Reply unit
}.

Definition sendMessage (srv : Server) (payload : Payload) :
    list Call * Reply ChatInterface.ChatResponse :=
  match payload with
  | Plain text =>
      match chat srv text None with
      | Ok data => ([PostChat text None], Ok data)
      | Err e =>
          ([PostChat text None; ConsoleError "Error sending message:" e], Err e)
      end
  | Structured message history =>
      match chat srv message history with
      | Ok data => ([PostChat message history], Ok data)
      | Err e =>
          ([PostChat message history; ConsoleError "Error sending message:" e],
           Err e)
      end
  end.

Definition uploadDataset (srv : Server) (file : DatasetUpload.File) :
    list Call * Reply DatasetUpload.DatasetInfo :=
  match upload srv file with
  | Ok data => ([PostUpload file], Ok data)
  | Err e => ([PostUpload file; ConsoleError "Error uploading dataset:" e], Err e)
  end.

Definition getCurrentDataset (srv : Server) :
    list Call * Reply DatasetUpload.DatasetInfo :=
  match dataset srv with
  | Ok data => ([GetDataset], Ok data)
  | Err e => ([GetDataset; ConsoleError "Error getting dataset:" e], Err e)
  end.

Definition checkHealth (srv : Server) : list Call * Reply bool :=
  match health srv with
  | Ok st =>
      ([GetHealth],
       Ok match st with
          | Some t => (t =? "healthy")%string
          | None => false
          end)
  | Err e => ([GetHealth; ConsoleError "Error checking health:" e], Ok false)
  end.

Definition resetDatabase (srv : Server) : list Call * Reply unit :=
  match reset srv with
  | Ok _ => ([PostReset], Ok tt)
  | Err e => ([PostReset; ConsoleError "Error resetting database:" e], Err e)
  end.

(** The lines written to the console. *)
Definition console_lines (l : list Call) : list Call :=
  filter (fun c => match c with ConsoleError _ _ => true | _ => false end) l.

(** The requests sent. *)
Definition requests (l : list Call) : list Call :=
  filter (fun c => match c with ConsoleError _ _ => false | _ => true end) l.

End Api.

(* ================================================================== *)
(** * App: the state of the page *)
(* ================================================================== *)

Module AppShell.

Import JS.

(** The state hooks of [App]; [console] is what the page and the calls it
    made have written with [console.error], and the requests they sent. *)
Record State : Type := {
  dataset : option DatasetUpload.DatasetInfo;
  isLoading : bool;
  showUpload : bool;
  uploadSuccess : bool;
  hasMessages : bool;
  greetingIndex : nat;
  userInputted : bool;
  showDatasetInfo : bool;
  showVisualization : bool;
  lastData : option (list Row);
  showGreeting : bool;
  console : list Api.Call
}.

Definition initial : State :=
  {| dataset := None; isLoading := true; showUpload := false;
     uploadSuccess := false; hasMessages := false; greetingIndex := 0;
     userInputted := false; showDatasetInfo := false;
     showVisualization := false; lastData := None; showGreeting := true;
     console := [] |}.

Definition set_dataset (v : option DatasetUpload.DatasetInfo) (s : State) : State :=
  {| dataset := v;
     isLoading := isLoading s;
     showUpload := showUpload s;
     uploadSuccess := uploadSuccess s;
     hasMessages := hasMessages s;
     greetingIndex := greetingIndex s;
     userInputted := userInputted s;
     showDatasetInfo := showDatasetInfo s;
     showVisualization := showVisualization s;
     lastData := lastData s;
     showGreeting := showGreeting s;
     console := console s |}.

Definition set_isLoading (v : bool) (s : State) : State :=
  {| dataset := dataset s;
     isLoading := v;
     showUpload := showUpload s;
     uploadSuccess := uploadSuccess s;
     hasMessages := hasMessages s;
     greetingIndex := greetingIndex s;
     userInputted := userInputted s;
     showDatasetInfo := showDatasetInfo s;
     showVisualization := showVisualization s;
     lastData := lastData s;
     showGreeting := showGreeting s;
     console := console s |}.

Definition set_showUpload (v : bool) (s : State) : State :=
  {| dataset := dataset s;
     isLoading := isLoading s;
     showUpload := v;
     uploadSuccess := uploadSuccess s;
     hasMessages := hasMessages s;
     greetingIndex := greetingIndex s;
     userInputted := userInputted s;
     showDatasetInfo := showDatasetInfo s;
     showVisualization := showVisualization s;
     lastData := lastData s;
     showGreeting := showGreeting s;
     console := console s |}.

Definition set_uploadSuccess (v : bool) (s : State) : State :=
  {| dataset := dataset s;
     isLoading := isLoading s;
     showUpload := showUpload s;
     uploadSuccess := v;
     hasMessages := hasMessages s;
     greetingIndex := greetingIndex s;
     userInputted := userInputted s;
     showDatasetInfo := showDatasetInfo s;
     showVisualization := showVisualization s;
     lastData := lastData s;
     showGreeting := showGreeting s;
     console := console s |}.

Definition set_hasMessages (v : bool) (s : State) : State :=
  {| dataset := dataset s;
     isLoading := isLoading s;
     showUpload := showUpload s;
     uploadSuccess := uploadSuccess s;
     hasMessages := v;
     greetingIndex := greetingIndex s;
     userInputted := userInputted s;
     showDatasetInfo := showDatasetInfo s;
     showVisualization := showVisualization s;
     lastData := lastData s;
     showGreeting := showGreeting s;
     console := console s |}.

Definition set_greetingIndex (v : nat) (s : State) : State :=
  {| dataset := dataset s;
     isLoading := isLoading s;
     showUpload := showUpload s;
     uploadSuccess := uploadSuccess s;
     hasMessages := hasMessages s;
     greetingIndex := v;
     userInputted := userInputted s;
     showDatasetInfo := showDatasetInfo s;
     showVisualization := showVisualization s;
     lastData := lastData s;
     showGreeting := showGreeting s;
     console := console s |}.

Definition set_userInputted (v : bool) (s : State) : State :=
  {| dataset := dataset s;
     isLoading := isLoading s;
     showUpload := showUpload s;
     uploadSuccess := uploadSuccess s;
     hasMessages := hasMessages s;
     greetingIndex := greetingIndex s;
     userInputted := v;
     showDatasetInfo := showDatasetInfo s;
     showVisualization := showVisualization s;
     lastData := lastData s;
     showGreeting := showGreeting s;
     console := console s |}.

Definition set_showDatasetInfo (v : bool) (s : State) : State :=
  {| dataset := dataset s;
     isLoading := isLoading s;
     showUpload := showUpload s;
     uploadSuccess := uploadSuccess s;
     hasMessages := hasMessages s;
     greetingIndex := greetingIndex s;
     userInputted := userInputted s;
     showDatasetInfo := v;
     showVisualization := showVisualization s;
     lastData := lastData s;
     showGreeting := showGreeting s;
     console := console s |}.

Definition set_showVisualization (v : bool) (s : State) : State :=
  {| dataset := dataset s;
     isLoading := isLoading s;
     showUpload := showUpload s;
     uploadSuccess := uploadSuccess s;
     hasMessages := hasMessages s;
     greetingIndex := greetingIndex s;
     userInputted := userInputted s;
     showDatasetInfo := showDatasetInfo s;
     showVisualization := v;
     lastData := lastData s;
     showGreeting := showGreeting s;
     console := console s |}.

Definition set_lastData (v : option (list Row)) (s : State) : State :=
  {| dataset := dataset s;
     isLoading := isLoading s;
     showUpload := showUpload s;
     uploadSuccess := uploadSuccess s;
     hasMessages := hasMessages s;
     greetingIndex := greetingIndex s;
     userInputted := userInputted s;
     showDatasetInfo := showDatasetInfo s;
     showVisualization := showVisualization s;
     lastData := v;
     showGreeting := showGreeting s;
     console := console s |}.

Definition set_showGreeting (v : bool) (s : State) : State :=
  {| dataset := dataset s;
     isLoading := isLoading s;
     showUpload := showUpload s;
     uploadSuccess := uploadSuccess s;
     hasMessages := hasMessages s;
     greetingIndex := greetingIndex s;
     userInputted := userInputted s;
     showDatasetInfo := showDatasetInfo s;
     showVisualization := showVisualization s;
     lastData := lastData s;
     showGreeting := v;
     console := console s |}.

Definition set_console (v : list Api.Call) (s : State) : State :=
  {| dataset := dataset s;
     isLoading := isLoading s;
     showUpload := showUpload s;
     uploadSuccess := uploadSuccess s;
     hasMessages := hasMessages s;
     greetingIndex := greetingIndex s;
     userInputted := userInputted s;
     showDatasetInfo := showDatasetInfo s;
     showVisualization := showVisualization s;
     lastData := lastData s;
     showGreeting := showGreeting s;
     console := v |}.

Definition greetings : list string :=
  [ "What's on your mind tonight?"; "How can I assist you today?";
    "Ready to analyze your data?"; "What would you like to know?";
    "Looking for data insights?" ].

(** [loadDataset], run once when the page is mounted. *)
Definition loadDataset (srv : Api.Server) (s : State) : State :=
  match Api.getCurrentDataset srv with
  | (calls, Api.Ok data) =>
      set_isLoading false (set_dataset (Some data) (set_console (console s ++ calls) s))
  | (calls, Api.Err e) =>
      set_isLoading false
        (set_console
           (console s ++ calls
            ++ match Api.status e with
               | Some 404%Z => []
               | _ => [Api.ConsoleError "Error loading dataset:" e]
               end) s)
  end.

(** One tick of the interval that turns the greetings, set while the user
    has not typed. *)
Definition tick (s : State) : State :=
  if userInputted s then s
  else set_greetingIndex (Nat.modulo (greetingIndex s + 1) (List.length greetings)) s.

(** The timer set when [uploadSuccess] becomes true, two seconds later. *)
Definition uploadTimer (s : State) : State :=
  if uploadSuccess s then set_showUpload false s else s.

Definition handleDatasetUploaded (newDataset : DatasetUpload.DatasetInfo)
    (s : State) : State :=
  set_uploadSuccess true (set_dataset (Some newDataset) s).

Definition handleMessagesChange (hasMessages : bool) (s : State) : State :=
  set_userInputted hasMessages (set_hasMessages hasMessages s).

Definition handleVisualizeData (data : list Row) (s : State) : State :=
  set_showVisualization true (set_lastData (Some data) s).

Definition handleCloseVisualization (s : State) : State :=
  set_showVisualization false s.

(** The close button of the upload modal. *)
Definition closeUpload (s : State) : State :=
  set_uploadSuccess false (set_showUpload false s).

(** What the callbacks of a rendered message do to the page:
    [onUploadClick={() => setShowUpload(true)}] and
    [onVisualizeData={handleVisualizeData}]. *)
Definition dispatch (h : Handler) (s : State) : State :=
  match h with
  | OnUploadClick => set_showUpload true s
  | OnVisualizeData data => handleVisualizeData data s
  end.

(** What the effects of DatasetUpload do to the page:
    [onDatasetUploaded={handleDatasetUploaded}] and
    [setUploadSuccess={setUploadSuccess}]. *)
Definition uploaded (e : DatasetUpload.Effect) (s : State) : State :=
  match e with
  | DatasetUpload.SetUploadSuccess success => set_uploadSuccess success s
  | DatasetUpload.DatasetUploaded d => handleDatasetUploaded d s
  | DatasetUpload.UploadDataset _ => s
  end.

(** The data the visualization panel is mounted with, when it is mounted:
    [showVisualization && lastData]. *)
Definition panel (s : State) : option (list Row) :=
  if showVisualization s then lastData s else None.

(** [visible={showGreeting && !hasMessages}]. *)
Definition greetingVisible (s : State) : bool :=
  showGreeting s && negb (hasMessages s).

End AppShell.

(* ================================================================== *)
(** * VisualizationPanel: axes and series *)
(* ================================================================== *)

Module ChartPanel.

Import JS.

Inductive ChartType : Type :=
| bar | line | pie | area | scatter | donut | radar | radialBar.

Definition COLORS : list string :=
  ["#0088FE"; "#00C49F"; "#FFBB28"; "#FF8042"; "#8884D8"; "#82CA9D"].

(** [COLORS[index % COLORS.length]]. *)
Definition color (index : nat) : string :=
  nth (Nat.modulo index (List.length COLORS)) COLORS "".

(** The state hooks of the panel. *)
Record Selection : Type := {
  chartType : ChartType;
  selectedXAxis : string;
  selectedYAxis : string
}.

Definition initial : Selection :=
  {| chartType := bar; selectedXAxis := ""; selectedYAxis := "" |}.

(** The effect that runs when [data] changes.  The component returns before
    it reaches the effect when the row set is absent or empty. *)
Definition initAxes (data : list Row) (s : Selection) : Selection :=
  match VisualizationPanel.categoricalColumns data,
        VisualizationPanel.numericColumns data with
  | Some categoricalColumns, Some numericColumns =>
      {| chartType := chartType s;
         selectedXAxis :=
           match categoricalColumns with
           | c :: _ => if nonempty (selectedXAxis s) then selectedXAxis s else c
           | [] => selectedXAxis s
           end;
         selectedYAxis :=
           match numericColumns with
           | c :: _ => if nonempty (selectedYAxis s) then selectedYAxis s else c
           | [] => selectedYAxis s
           end |}
  | _, _ => s
  end.

(** [data.map((_, index) => <Cell fill=... />)]: the colours of the slices of
    the pie and donut charts. *)
Definition cells (data : list Row) : list string :=
  ChatInterface.mapi (fun _ index => color index) 0 data.

(** The children of a chart that are given data or a key into it, with the
    props the source gives them.  The grid, the tooltip, the legend, the
    radius axis, the sizes and the styles are left out. *)
Inductive Element : Type :=
| XAxis (dataKey : string)
| YAxis (dataKey : option string)
| PolarAngleAxis (dataKey : string)
| Bar (key dataKey fill : string)
| Line (key dataKey stroke : string)
| Area (key dataKey fill stroke : string)
| Scatter (key name : string) (data : list Row) (fill : string)
| Radar (key name dataKey stroke fill : string)
| Pie (data : list Row) (dataKey nameKey : string) (innerRadius : bool)
    (cells : list string)
| RadialBar (dataKey : string).

(** A chart: the [data] prop of its container, when it has one, and its
    children. *)
Record Chart : Type := {
  chartData : option (list Row);
  children : list Element
}.

(** [numericColumns.slice(0, 3).map((col, index) => ...)]. *)
Definition perColumn (numericColumns : list string)
    (element : string -> nat -> Element) : list Element :=
  ChatInterface.mapi element 0 (firstn 3 numericColumns).

(** [renderChart]; the component has returned [null] before it for an
    absent or empty row set. *)
Definition renderChart (s : Selection) (data : list Row) : option Chart :=
  match VisualizationPanel.numericColumns data with
  | None => None
  | Some numericColumns =>
      Some
        match chartType s with
        | bar =>
            {| chartData := Some data;
               children :=
                 XAxis (selectedXAxis s) :: YAxis None
                 :: perColumn numericColumns
                      (fun col index => Bar col col (color index)) |}
        | line =>
            {| chartData := Some data;
               children :=
                 XAxis (selectedXAxis s) :: YAxis None
                 :: perColumn numericColumns
                      (fun col index => Line col col (color index)) |}
        | pie =>
            {| chartData := None;
               children :=
                 [Pie data (selectedYAxis s) (selectedXAxis s) false (cells data)] |}
        | area =>
            {| chartData := Some data;
               children :=
                 XAxis (selectedXAxis s) :: YAxis None
                 :: perColumn numericColumns
                      (fun col index => Area col col (color index) (color index)) |}
        | scatter =>
            {| chartData := None;
               children :=
                 XAxis (selectedXAxis s) :: YAxis (Some (selectedYAxis s))
                 :: perColumn numericColumns
                      (fun col index => Scatter col col data (color index)) |}
        | donut =>
            {| chartData := None;
               children :=
                 [Pie data (selectedYAxis s) (selectedXAxis s) true (cells data)] |}
        | radar =>
            {| chartData := Some data;
               children :=
                 PolarAngleAxis (selectedXAxis s)
                 :: perColumn numericColumns
                      (fun col index =>
                         Radar col col col (color index) (color index)) |}
        | radialBar =>
            {| chartData := Some data;
               children := [RadialBar (selectedYAxis s)] |}
        end
  end.

(** The series of a chart: its bars, lines, areas, scatters and radars. *)
Definition is_series (e : Element) : bool :=
  match e with
  | Bar _ _ _ | Line _ _ _ | Area _ _ _ _ | Scatter _ _ _ _ | Radar _ _ _ _ _ => true
  | _ => false
  end.

Definition series (c : Chart) : list Element := filter is_series (children c).

(** The [dataKey] prop of an element: the column whose values it draws.  A
    scatter series is given none. *)
Definition dataKey_of (e : Element) : option string :=
  match e with
  | XAxis k | PolarAngleAxis k | Bar _ k _ | Line _ k _ | Area _ k _ _
  | Radar _ _ k _ _ | Pie _ k _ _ _ | RadialBar k => Some k
  | YAxis k => k
  | Scatter _ _ _ _ => None
  end.

(** The [name] prop. *)
Definition name_of (e : Element) : option string :=
  match e with
  | Scatter _ n _ _ | Radar _ n _ _ _ => Some n
  | _ => None
  end.

(** The colour of a series: its [fill], or its [stroke] when it has no
    fill. *)
Definition colour_of (e : Element) : string :=
  match e with
  | Bar _ _ c | Line _ _ c | Area _ _ c _ | Scatter _ _ _ c | Radar _ _ _ _ c => c
  | _ => ""
  end.

(** The rows an element is given of its own ([data={data}]). *)
Definition data_of (e : Element) : option (list Row) :=
  match e with
  | Scatter _ _ d _ | Pie d _ _ _ _ => Some d
  | _ => None
  end.

(** The Y selector is rendered when [chartType !== 'pie']. *)
Definition showsYSelector (s : Selection) : bool :=
  match chartType s with
  | pie => false
  | _ => true
  end.

End ChartPanel.

(* ================================================================== *)
(** * DatasetUpload over services/api *)
(* ================================================================== *)

Module UploadFlow.

Import JS DatasetUpload.

(** The upload through services/api. *)
Definition uploadVia (srv : Api.Server) (f : File) : Uploaded :=
  match snd (Api.uploadDataset srv f) with
  | Api.Ok dataset => UploadOk dataset
  | Api.Err e => UploadFailed (Api.detail e) (Api.message e)
  end.

(** The effects a handler added to the log. *)
Definition added (before after : State) : list Effect :=
  skipn (List.length (effects before)) (effects after).

End UploadFlow.

(* ================================================================== *)
(** * DatabaseConnection *)
(* ================================================================== *)

Module DatabaseConnection.

Import JS.

(** The requests of the component and its call of the parent. *)
Inductive Call : Type :=
| PostConnect (formData : list (string * string))
| GetTables
| GetSchema (tableName : string)
| GetPreview (tableName : string)
| ConnectionSuccess.

(** The service: [connect] gives [response.data.status], if there is one. *)
Record Server : Type := {
  connect : list (string * string) -> Api.Reply (option string);
  listTables : Api.Reply (list string);
  schema : string -> Api.Reply (list Row);
  preview : string -> Api.Reply (list Row)
}.

Record State : Type := {
  formData : list (string * string);
  error : option string;
  loading : bool;
  tables : list string;
  selectedTable : option string;
  tableSchema : list Row;
  tablePreview : list Row;
  calls : list Call
}.

Definition initial : State :=
  {| formData := [("host", "localhost"); ("user", ""); ("password", "");
                  ("database", "")];
     error := None; loading := false; tables := []; selectedTable := None;
     tableSchema := []; tablePreview := []; calls := [] |}.

(** [{...formData, [name]: value}]: a key that is there keeps its place. *)
Fixpoint spread (formData : list (string * string)) (name value : string) :
    list (string * string) :=
  match formData with
  | [] => [(name, value)]
  | (k, v) :: rest =>
      if (k =? name)%string then (k, value) :: rest
      else (k, v) :: spread rest name value
  end.

Definition handleInputChange (name value : string) (s : State) : State :=
  {| formData := spread (formData s) name value;
     error := error s; loading := loading s; tables := tables s;
     selectedTable := selectedTable s; tableSchema := tableSchema s;
     tablePreview := tablePreview s; calls := calls s |}.

(** [err.response?.data?.detail || fallback]. *)
Definition shown (e : Api.AxiosError) (fallback : string) : option string :=
  or_else (Api.detail e) (Some fallback).

Definition fetchTables (srv : Server) (s : State) : State :=
  match listTables srv with
  | Api.Ok ts =>
      {| formData := formData s; error := error s; loading := loading s;
         tables := ts; selectedTable := selectedTable s;
         tableSchema := tableSchema s; tablePreview := tablePreview s;
         calls := calls s ++ [GetTables] |}
  | Api.Err e =>
      {| formData := formData s; error := shown e "Failed to fetch tables";
         loading := loading s; tables := tables s;
         selectedTable := selectedTable s; tableSchema := tableSchema s;
         tablePreview := tablePreview s; calls := calls s ++ [GetTables] |}
  end.

Definition setLoading (b : bool) (s : State) : State :=
  {| formData := formData s; error := error s; loading := b;
     tables := tables s; selectedTable := selectedTable s;
     tableSchema := tableSchema s; tablePreview := tablePreview s;
     calls := calls s |}.

Definition setError (e : option string) (s : State) : State :=
  {| formData := formData s; error := e; loading := loading s;
     tables := tables s; selectedTable := selectedTable s;
     tableSchema := tableSchema s; tablePreview := tablePreview s;
     calls := calls s |}.

Definition called (c : Call) (s : State) : State :=
  {| formData := formData s; error := error s; loading := loading s;
     tables := tables s; selectedTable := selectedTable s;
     tableSchema := tableSchema s; tablePreview := tablePreview s;
     calls := calls s ++ [c] |}.

(** [handleConnect], run to its end. *)
Definition handleConnect (srv : Server) (s : State) : State :=
  let s1 := called (PostConnect (formData s)) (setError None (setLoading true s)) in
  match connect srv (formData s) with
  | Api.Ok st =>
      match st with
      | Some t =>
          if (t =? "success")%string
          then setLoading false (fetchTables srv (called ConnectionSuccess s1))
          else setLoading false s1
      | None => setLoading false s1
      end
  | Api.Err e =>
      setLoading false (setError (shown e "Failed to connect to database") s1)
  end.

(** [handleTableSelect], run to its end.  Both requests are sent at once;
    [Promise.all] rejects with the rejection that comes first, which
    [schemaFirst] tells when both requests fail. *)
Definition handleTableSelect (srv : Server) (schemaFirst : bool)
    (tableName : string) (s : State) : State :=
  let s1 :=
    {| formData := formData s; error := error s; loading := loading s;
       tables := tables s; selectedTable := Some tableName;
       tableSchema := tableSchema s; tablePreview := tablePreview s;
       calls := calls s ++ [GetSchema tableName; GetPreview tableName] |} in
  match schema srv tableName, preview srv tableName with
  | Api.Ok sch, Api.Ok pre =>
      {| formData := formData s1; error := error s1; loading := loading s1;
         tables := tables s1; selectedTable := selectedTable s1;
         tableSchema := sch; tablePreview := pre; calls := calls s1 |}
  | Api.Err e, Api.Ok _ => setError (shown e "Failed to fetch table details") s1
  | Api.Ok _, Api.Err e => setError (shown e "Failed to fetch table details") s1
  | Api.Err e1, Api.Err e2 =>
      setError (shown (if schemaFirst then e1 else e2)
                  "Failed to fetch table details") s1
  end.

(** A cell of the preview: [value !== null ? String(value) : 'NULL']. *)
Definition previewCell `{Host} (value : Value) : string :=
  match value with
  | VNull => "NULL"
  | _ => String_ value
  end.

(** The cells of a preview row: [Object.values(row).map(...)]. *)
Definition previewRow `{Host} (row : Row) : list string :=
  map (fun kv => previewCell (snd kv)) row.

End DatabaseConnection.

(* ================================================================== *)
(** * The chat wired to services/api *)
(* ================================================================== *)

Module Wiring.

Import JS.

(** What [handleSubmit] sees of a rejection: the thrown error, which it only
    logs. *)
Definition reason_of (e : Api.AxiosError) : string :=
  match Api.message e with
  | Some m => m
  | None => ""
  end.

(** [sendMessage({ message: userMessage.content, history })] as the handler
    calls it. *)
Definition sendMessage (srv : Api.Server) (message : string)
    (history : list ChatInterface.HistoryEntry) :
    Settled ChatInterface.ChatResponse :=
  match snd (Api.sendMessage srv (Api.Structured message (Some history))) with
  | Api.Ok response => Fulfilled response
  | Api.Err e => Rejected (reason_of e)
  end.

(** The requests and console lines of services/api during one submission. *)
Definition traffic (srv : Api.Server) (now : N) (s : ChatInterface.State) :
    list Api.Call :=
  match snd (ChatInterface.handleSubmit_begin now s) with
  | Some (message, history) =>
      fst (Api.sendMessage srv (Api.Structured message (Some history)))
  | None => []
  end.

(** One submission of the chat as App mounts it, over services/api. *)
Definition submit (srv : Api.Server) (now later : N) (s : ChatInterface.State) :
    ChatInterface.State :=
  ChatInterface.handleSubmit (sendMessage srv) App.onQueryExecute now later s.

End Wiring.


(* ================================================================== *)
(** * Sample inputs *)
(* ================================================================== *)

Module Samples.

Import JS.

(** An answer with a paragraph, a list of two items and a closing line. *)
Definition mixed : string :=
  "Top regions:" ++ String LF ("* north" ++ String LF ("* south" ++ String LF "Done.")).

Definition plain : string := "Revenue grew." ++ String LF "Costs fell.".

Definition bullets : string := "* north" ++ String LF "  *  south  ".

(** A chat with a question typed and not yet sent. *)
Definition asking : ChatInterface.State := Examples.idle [] "  total sales?  ".

Definition info : DatasetUpload.DatasetInfo :=
  {| DatasetUpload.columns :=
       [ {| DatasetUpload.name := "region"; DatasetUpload.type := "object" |} ];
     DatasetUpload.row_count := 3;
     DatasetUpload.created_at := "2024-01-01T00:00:00" |}.

Definition accepts (_ : DatasetUpload.File) : DatasetUpload.Uploaded :=
  DatasetUpload.UploadOk info.

Definition rejects (_ : DatasetUpload.File) : DatasetUpload.Uploaded :=
  DatasetUpload.UploadFailed (Some "Invalid CSV")
    (Some "Request failed with status code 400").

(** The upload form with a CSV file chosen. *)
Definition chosen : DatasetUpload.State :=
  DatasetUpload.handleFile Examples.table_csv DatasetUpload.initial.

Definition network_error : Api.AxiosError :=
  {| Api.status := None; Api.detail := None;
     Api.message := Some "Network Error" |}.

Definition not_found : Api.AxiosError :=
  {| Api.status := Some 404%Z; Api.detail := Some "No dataset loaded";
     Api.message := Some "Request failed with status code 404" |}.

(** A service that cannot be reached, and one that has no dataset. *)
Definition server_down : Api.Server :=
  {| Api.chat := fun _ _ => Api.Err network_error;
     Api.upload := fun _ => Api.Err network_error;
     Api.dataset := Api.Err network_error;
     Api.health := Api.Err network_error;
     Api.reset := Api.Err network_error |}.

Definition server_empty : Api.Server :=
  {| Api.chat := fun _ _ => Api.Err network_error;
     Api.upload := fun _ => Api.Ok info;
     Api.dataset := Api.Err not_found;
     Api.health := Api.Ok (Some "healthy");
     Api.reset := Api.Ok tt |}.

(** A database service that connects and then fails to list its tables. *)
Definition db_no_tables : DatabaseConnection.Server :=
  {| DatabaseConnection.connect := fun _ => Api.Ok (Some "success");
     DatabaseConnection.listTables := Api.Err network_error;
     DatabaseConnection.schema := fun _ => Api.Err network_error;
     DatabaseConnection.preview := fun _ => Api.Ok [] |}.

End Samples.
(* ================================================================== *)
(** * Facts about the string functions *)
(* ================================================================== *)

Section StringFacts.

Import JS.
Local Open Scope string_scope.

Lemma append_nil_r (s : string) : s ++ "" = s.
Proof. induction s as [|c s IH]; simpl; [reflexivity | now rewrite IH]. Qed.

Lemma append_assoc (a b c : string) : (a ++ b) ++ c = a ++ (b ++ c).
Proof. induction a as [|x a IH]; simpl; [reflexivity | now rewrite IH]. Qed.

Lemma prefix_spec (p s : string) :
  prefix p s = true <-> exists post, s = p ++ post.
Proof.
  revert s; induction p as [|c p IH]; intros s.
  - split; [intros _; now exists s | intros _; now destruct s].
  - destruct s as [|d s]; simpl.
    + split; [discriminate | intros [post H]; discriminate].
    + destruct (Ascii.ascii_dec c d) as [->|ne].
      * rewrite IH. split; intros [post H]; exists post.
        -- now subst.
        -- now injection H.
      * split; [discriminate | intros [post H]; injection H; congruence].
Qed.

Lemma includes_spec (s needle : string) :
  includes s needle = true <-> Spec.contains s needle.
Proof.
  unfold Spec.contains.
  induction s as [|c s IH]; cbn [includes].
  - rewrite orb_false_r, prefix_spec. split.
    + intros [post H]. now exists "", post.
    + intros [[|x pre] [post H]]; simpl in H; [now exists post | discriminate].
  - rewrite orb_true_iff, prefix_spec, IH. split.
    + intros [[post H] | [pre [post H]]].
      * now exists "", post.
      * exists (String c pre), post. simpl. now rewrite H.
    + intros [[|x pre] [post H]]; simpl in H.
      * left. now exists post.
      * right. injection H as _ H. now exists pre, post.
Qed.

Lemma toLowerCase_app (a b : string) :
  toLowerCase (a ++ b) = toLowerCase a ++ toLowerCase b.
Proof. induction a as [|x a IH]; simpl; [reflexivity | now rewrite IH]. Qed.

Lemma toLowerCase_split (s x y : string) :
  toLowerCase s = x ++ y ->
  exists a b, s = a ++ b /\ toLowerCase a = x /\ toLowerCase b = y.
Proof.
  revert s; induction x as [|c x IH]; intros s H; simpl in H.
  - now exists "", s.
  - destruct s as [|d s]; simpl in H; [discriminate|].
    injection H as Hc H. destruct (IH s H) as [a [b [-> [Ha Hb]]]].
    exists (String d a), b. simpl. now rewrite Hc, Ha.
Qed.

Lemma includes_lower_spec (s needle : string) :
  includes (toLowerCase s) needle = true <-> Spec.contains_ci s needle.
Proof.
  rewrite includes_spec. unfold Spec.contains, Spec.contains_ci. split.
  - intros [pre [post H]].
    destruct (toLowerCase_split _ _ _ H) as [a [r [-> [Ha Hr]]]].
    destruct (toLowerCase_split _ _ _ Hr) as [m [b [-> [Hm Hb]]]].
    now exists a, m, b.
  - intros [pre [mid [post [-> H]]]].
    exists (toLowerCase pre), (toLowerCase post).
    now rewrite !toLowerCase_app, H.
Qed.

Lemma includes_lower_false (s needle : string) :
  includes (toLowerCase s) needle = false <-> ~ Spec.contains_ci s needle.
Proof.
  rewrite <- includes_lower_spec. destruct (includes _ _); split; congruence.
Qed.

Lemma rev_app (a b : string) : rev (a ++ b) = rev b ++ rev a.
Proof.
  induction a as [|x a IH]; simpl.
  - now rewrite append_nil_r.
  - now rewrite IH, append_assoc.
Qed.

Lemma rev_involutive (s : string) : rev (rev s) = s.
Proof.
  induction s as [|c s IH]; simpl; [reflexivity|].
  now rewrite rev_app, IH.
Qed.

Lemma endsWith_spec (s suffix : string) :
  endsWith s suffix = true <-> Spec.ends_in s suffix.
Proof.
  unfold endsWith, Spec.ends_in. rewrite prefix_spec. split.
  - intros [post H]. exists (rev post).
    rewrite <- (rev_involutive s), H, rev_app. now rewrite rev_involutive.
  - intros [stem ->]. exists (rev stem). apply rev_app.
Qed.

Lemma ws2_lead (c1 c2 : ascii) : ws2 c1 c2 = true -> ws1 c1 = false.
Proof.
  unfold ws2, ws1. intros E.
  apply andb_true_iff in E as [E _]. apply N.eqb_eq in E. rewrite E.
  reflexivity.
Qed.

Lemma ws3_lead (c1 c2 c3 : ascii) :
  ws3 c1 c2 c3 = true -> ws1 c1 = false /\ forall c, ws2 c1 c = false.
Proof.
  unfold ws3, ws2, ws1. intros E.
  assert (L : code c1 = 225%N \/ code c1 = 226%N \/ code c1 = 227%N
              \/ code c1 = 239%N).
  { repeat (apply orb_true_iff in E as [E | E]);
      repeat (apply andb_true_iff in E as [E _]);
      apply N.eqb_eq in E; tauto. }
  destruct L as [-> | [-> | [-> | ->]]]; split; reflexivity.
Qed.

Lemma whitespace_only_trimStart (s : string) :
  Spec.whitespace_only s -> trimStart s = "".
Proof.
  unfold trimStart. induction 1 as [|c s W _ IH|c1 c2 s W _ IH|c1 c2 c3 s W _ IH].
  - reflexivity.
  - cbn [strip]. now rewrite W.
  - cbn [strip]. now rewrite (ws2_lead _ _ W), W.
  - cbn [strip]. destruct (ws3_lead _ _ _ W) as [W1 W2]. now rewrite W1, W2, W.
Qed.

(** An input that is empty or white space only trims to nothing. *)
Lemma whitespace_only_blank (s : string) :
  Spec.whitespace_only s -> Spec.blank s.
Proof.
  intros W. unfold Spec.blank, trim.
  now rewrite (whitespace_only_trimStart s W).
Qed.

Lemma nonempty_spec (s : string) : nonempty s = true <-> s <> "".
Proof. destruct s; simpl; split; congruence. Qed.

Lemma truthy_spec (o : option string) : truthy o = true <-> Spec.present o.
Proof.
  unfold Spec.present. destruct o as [s|]; simpl.
  - rewrite nonempty_spec. split.
    + intros H. now exists s.
    + intros [s' [E H]]. now injection E as ->.
  - split; [discriminate | intros [s' [E _]]; discriminate].
Qed.



End StringFacts.

(* ================================================================== *)
(** * Facts about the rendered trees *)
(* ================================================================== *)

Section HtmlFacts.

Import JS ChatInterface.

#[local] Arguments occurs : simpl never.

Lemma occurs_El (p : Html -> bool) tag cls oc kids :
  occurs p (El tag cls oc kids) = p (El tag cls oc kids) || occurs_in p kids.
Proof. reflexivity. Qed.

Lemma occurs_in_app (p : Html -> bool) (a b : list Html) :
  occurs_in p (a ++ b) = occurs_in p a || occurs_in p b.
Proof. apply existsb_app. Qed.

Lemma occurs_in_map {A : Type} (p : Html -> bool) (f : A -> Html) (l : list A) :
  (forall a, occurs p (f a) = false) -> occurs_in p (map f l) = false.
Proof.
  intros H. induction l as [|a l IH]; simpl; [reflexivity|].
  now rewrite H, IH.
Qed.

Lemma occurs_in_mapi {A : Type} (p : Html -> bool) (f : A -> nat -> Html)
    (l : list A) (i : nat) :
  (forall a j, occurs p (f a j) = false) -> occurs_in p (mapi f i l) = false.
Proof.
  intros H. revert i. induction l as [|a l IH]; intros i; simpl; [reflexivity|].
  now rewrite H, IH.
Qed.

Lemma quiet_incl (p : Html -> bool) (small large : list string) :
  incl small large -> quiet p large -> quiet p small.
Proof.
  intros I [Ht He]. split; [exact Ht|].
  intros tag cls oc kids Hin. apply He. now apply I.
Qed.

Lemma quiet_has_tag (t : string) (tags : list string) :
  ~ In t tags -> quiet (has_tag t) tags.
Proof.
  intros N. split; [reflexivity|].
  intros tag cls oc kids Hin _. simpl.
  apply String.eqb_neq. intros ->. contradiction.
Qed.

Lemma quiet_notice (tags : list string) : quiet is_no_data_notice tags.
Proof.
  split; [reflexivity|].
  intros tag cls oc kids _ Hc. simpl.
  destruct oc; [reflexivity|].
  destruct kids as [|[s|] [|]]; try reflexivity.
  apply String.eqb_neq in Hc. rewrite Hc.
  now rewrite andb_false_r.
Qed.

Lemma occurs_Text (p : Html -> bool) (s : string) :
  occurs p (Text s) = p (Text s).
Proof. simpl. apply orb_false_r. Qed.

Ltac in_tags := simpl; tauto.

(** One element off the goal: its own test fails by [He], its children
    remain. *)
Ltac quiet_el He :=
  rewrite occurs_El, He;
  [cbn [occurs_in existsb orb] | in_tags | try discriminate].

Ltac quiet_text Ht := rewrite occurs_Text, Ht; cbn [orb].

Section Quiet.

Variable p : Html -> bool.

Lemma renderParagraph_quiet (ls : list string) (els : list Html) :
  quiet p content_tags ->
  occurs_in p els = false -> occurs_in p (renderParagraph ls els) = false.
Proof.
  intros [Ht He] H. unfold renderParagraph. destruct (nonnil ls); [|exact H].
  rewrite occurs_in_app, H. cbn [occurs_in existsb orb].
  quiet_el He. now quiet_text Ht.
Qed.

Lemma renderList_quiet (ls : list string) (els : list Html) :
  quiet p content_tags ->
  occurs_in p els = false -> occurs_in p (renderList ls els) = false.
Proof.
  intros [Ht He] H. unfold renderList. destruct (nonnil ls); [|exact H].
  rewrite occurs_in_app, H. cbn [occurs_in existsb orb].
  rewrite occurs_El, He; [cbn [orb] | in_tags | discriminate].
  rewrite occurs_in_map; [reflexivity|].
  intros item. quiet_el He. now quiet_text Ht.
Qed.

Lemma each_line_quiet (b : Blocks) (line : string) :
  quiet p content_tags ->
  occurs_in p (elements b) = false ->
  occurs_in p (elements (each_line b line)) = false.
Proof.
  intros Q H. unfold each_line.
  destruct (startsWith _ _).
  - destruct (nonnil (currentParagraphLines b)); cbn [elements]; [|exact H].
    now apply renderParagraph_quiet.
  - destruct (nonnil (currentListItems b)); cbn [elements]; [|exact H].
    now apply renderList_quiet.
Qed.

Lemma fold_each_line_quiet (ls : list string) (b : Blocks) :
  quiet p content_tags ->
  occurs_in p (elements b) = false ->
  occurs_in p (elements (fold_left each_line ls b)) = false.
Proof.
  intros Q. revert b.
  induction ls as [|l ls IH]; intros b H; cbn [fold_left]; [exact H|].
  apply IH. now apply each_line_quiet.
Qed.

Lemma processMessageContent_quiet (text : option string) :
  quiet p content_tags ->
  occurs_in p (child (processMessageContent text)) = false.
Proof.
  intros Q. unfold processMessageContent.
  destruct text as [t|]; [|reflexivity].
  destruct (nonempty t); [|reflexivity]. cbn [child].
  apply renderList_quiet; [exact Q|].
  apply renderParagraph_quiet; [exact Q|].
  now apply fold_each_line_quiet.
Qed.

Lemma text_block_quiet (text : option string) :
  quiet p content_tags -> occurs p (text_block text) = false.
Proof.
  intros Q. pose proof (processMessageContent_quiet text Q) as H.
  destruct Q as [Ht He]. unfold text_block, div.
  do 2 quiet_el He.
  rewrite occurs_El, He; [cbn [orb] | in_tags | discriminate].
  now rewrite H.
Qed.

Lemma renderDataTable_quiet `{Host} (row0 : Row) (rest : list Row) :
  quiet p table_tags -> occurs_in p (renderDataTable (row0 :: rest)) = false.
Proof.
  intros [Ht He]. unfold renderDataTable, div.
  set (cts := fold_left _ _ _).
  cbn [occurs_in existsb].
  do 5 quiet_el He.
  rewrite occurs_El, He; [cbn [orb] | in_tags | discriminate].
  rewrite occurs_in_map.
  2:{ intros c. rewrite occurs_El, He; [|in_tags|].
      - cbn [occurs_in existsb orb]. now quiet_text Ht.
      - destruct (right_aligned cts c); discriminate. }
  cbn [orb].
  rewrite occurs_El, He; [cbn [orb] | in_tags | discriminate].
  rewrite occurs_in_mapi.
  2:{ intros r j. rewrite occurs_El, He; [|in_tags|].
      - rewrite occurs_in_map; [reflexivity|].
        intros c. rewrite occurs_El, He; [|in_tags|].
        + cbn [occurs_in existsb orb]. now quiet_text Ht.
        + destruct (right_aligned cts c); discriminate.
      - destruct (Nat.even j); discriminate. }
  cbn [orb].
  do 2 quiet_el He. repeat quiet_text Ht.
  do 2 quiet_el He. now quiet_text Ht.
Qed.

End Quiet.

End HtmlFacts.

(* ================================================================== *)
(** * Rendering an assistant message *)
(* ================================================================== *)

Section Rendering.

Import JS ChatInterface.

#[local] Arguments occurs : simpl never.

Context `{Host}.

Lemma nonData_spec (t : string) :
  nonempty t && existsb (String.eqb t) nonDataTypes = true <-> Spec.narrative t.
Proof.
  unfold Spec.narrative. split.
  - intros E. apply andb_true_iff in E as [_ E].
    apply existsb_exists in E as [x [I E]].
    apply String.eqb_eq in E. subst x. simpl in I. intuition congruence.
  - intros N.
    repeat (destruct N as [-> | N]; [reflexivity|]). now subst t.
Qed.

(** Which branch a narrative tag takes. *)
Lemma narrative_path (message : Message) (t : string) :
  type message = Some t -> Spec.narrative t ->
  type_is message "dataset_summary" = false
  /\ type_is message "no_dataset" = false
  /\ is_nonData message = true.
Proof.
  intros E N. unfold type_is, is_nonData. rewrite E.
  split; [|split].
  - unfold Spec.narrative in N.
    repeat (destruct N as [-> | N]; [reflexivity|]). now subst t.
  - unfold Spec.narrative in N.
    repeat (destruct N as [-> | N]; [reflexivity|]). now subst t.
  - now apply nonData_spec.
Qed.

(** Which branch a data answer takes. *)
Lemma data_answer_path (message : Message) :
  Spec.data_answer (type message) ->
  type_is message "dataset_summary" = false
  /\ type_is message "no_dataset" = false
  /\ is_nonData message = false.
Proof.
  unfold Spec.data_answer, type_is, is_nonData.
  destruct (type message) as [t|]; [|now intros _].
  intros D. destruct (D t eq_refl) as [D1 [D2 D3]].
  split; [|split].
  - now apply String.eqb_neq.
  - now apply String.eqb_neq.
  - apply not_true_is_false. intros E. apply D3. now apply nonData_spec.
Qed.

Lemma render_narrative (message : Message) (t : string) :
  type message = Some t -> Spec.narrative t ->
  renderAssistantMessage message
  = div "space-y-4"
      (if truthy (explanation message)
       then [text_block (explanation message)] else []).
Proof.
  intros E N. destruct (narrative_path message t E N) as [P1 [P2 P3]].
  unfold renderAssistantMessage. now rewrite P1, P2, P3.
Qed.

Lemma render_data_answer (message : Message) :
  Spec.data_answer (type message) ->
  renderAssistantMessage message
  = div "space-y-4"
      ((if truthy (or_else (summary message) (explanation message))
        then [text_block (or_else (summary message) (explanation message))]
        else [])
       ++ match query message with
          | Some q => if sql_guard (query message) then [sql_block q] else []
          | None => []
          end
       ++ match data message with
          | Some d => if nonnil d then [div "mt-4" (renderDataTable d)] else []
          | None => []
          end).
Proof.
  intros D. destruct (data_answer_path message D) as [P1 [P2 P3]].
  unfold renderAssistantMessage. now rewrite P1, P2, P3.
Qed.

Lemma sql_guard_spec (q : string) :
  sql_guard (Some q) = true
  <-> q <> "" /\ Spec.contains_ci q "select" /\ ~ Spec.routing_literal q.
Proof.
  unfold sql_guard, Spec.routing_literal.
  rewrite !andb_true_iff, !negb_true_iff, nonempty_spec,
    includes_lower_spec, !includes_lower_false.
  tauto.
Qed.

(** The text part of a data answer and its table hold no [<pre>]. *)
Lemma optional_text_block (p : Html -> bool) (text : option string) :
  quiet p content_tags ->
  occurs_in p (if truthy text then [text_block text] else []) = false.
Proof.
  intros Q. destruct (truthy text); [|reflexivity].
  cbn [occurs_in existsb]. now rewrite text_block_quiet.
Qed.

Lemma optional_table (p : Html -> bool) (d : option (list Row)) :
  quiet p table_tags ->
  occurs_in p match d with
              | Some d => if nonnil d then [div "mt-4" (renderDataTable d)] else []
              | None => []
              end = false.
Proof.
  intros Q. destruct d as [[|row0 rest]|]; try reflexivity.
  cbn [nonnil occurs_in existsb]. unfold div.
  rewrite occurs_El, (renderDataTable_quiet p row0 rest Q).
  destruct Q as [_ He]. rewrite He; [reflexivity | simpl; tauto | discriminate].
Qed.

Lemma quiet_pre_content : quiet (has_tag "pre") content_tags.
Proof. apply quiet_has_tag. simpl. intuition discriminate. Qed.

Lemma quiet_pre_table : quiet (has_tag "pre") table_tags.
Proof. apply quiet_has_tag. simpl. intuition discriminate. Qed.

Lemma quiet_table_content : quiet (has_tag "table") content_tags.
Proof. apply quiet_has_tag. simpl. intuition discriminate. Qed.

(** On the default path the SQL block is there exactly when the guard
    holds. *)
Lemma shows_sql_data_answer (message : Message) :
  Spec.data_answer (type message) ->
  shows_sql (renderAssistantMessage message) = sql_guard (query message).
Proof.
  intros D. rewrite (render_data_answer message D).
  unfold shows_sql, div. rewrite occurs_El. cbn [has_tag String.eqb orb].
  replace (("div" =? "pre")%string) with false by reflexivity. cbn [orb].
  rewrite !occurs_in_app.
  rewrite (optional_text_block _ _ quiet_pre_content).
  rewrite (optional_table _ _ quiet_pre_table).
  rewrite orb_false_r. cbn [orb].
  destruct (query message) as [q|]; [|reflexivity].
  destruct (sql_guard (Some q)); reflexivity.
Qed.

(** C1: an assistant message whose type is one of the narrative tags
    (knowledge_base, greeting, help, ai_info, operation, general_knowledge,
    out_of_scope, error) is rendered as the explanation text alone (an empty
    container when there is no explanation): the output holds no SQL block
    and no data table, whatever the query and data fields hold. *)
Theorem narrative_shows_explanation_only (message : Message) (t : string) :
  type message = Some t -> Spec.narrative t ->
  renderAssistantMessage message
  = div "space-y-4"
      (if truthy (explanation message)
       then [text_block (explanation message)] else [])
  /\ shows_sql (renderAssistantMessage message) = false
  /\ shows_table (renderAssistantMessage message) = false.
Proof.
  intros E N. rewrite (render_narrative message t E N).
  split; [reflexivity|].
  unfold shows_sql, shows_table, div. rewrite !occurs_El.
  rewrite (optional_text_block _ _ quiet_pre_content).
  rewrite (optional_text_block _ _ quiet_table_content).
  split; reflexivity.
Qed.

(** C2: on the default (data-answer) path the SQL block is rendered if and
    only if the query is non-empty, contains "select" in any case, and
    contains none of the literals 'greeting', 'ai_info', 'help',
    'out_of_scope' (quotes included, in any case); so a query containing
    'greeting' never shows its SQL block, even with "select" in it. *)
Theorem sql_block_iff_guard (message : Message) :
  Spec.data_answer (type message) ->
  (shows_sql (renderAssistantMessage message) = true
   <-> exists q, query message = Some q /\ q <> ""
                 /\ Spec.contains_ci q "select" /\ ~ Spec.routing_literal q)
  /\ (forall q, query message = Some q -> Spec.contains_ci q "'greeting'" ->
      shows_sql (renderAssistantMessage message) = false).
Proof.
  intros D. rewrite (shows_sql_data_answer message D). split.
  - destruct (query message) as [q|].
    + rewrite sql_guard_spec. split.
      * intros G. now exists q.
      * intros [q' [E G]]. now injection E as ->.
    + split; [discriminate | intros [q [E _]]; discriminate].
  - intros q E G. rewrite E. apply not_true_is_false. intros S.
    apply sql_guard_spec in S as [_ [_ S]]. apply S. now left.
Qed.

Lemma sql_block_has_no_table (q : string) :
  occurs (has_tag "table") (sql_block q) = false.
Proof. reflexivity. Qed.

(** What a data answer with an empty row set shows of its data: nothing. *)
Lemma empty_data_quiet (p : Html -> bool) (message : Message) :
  quiet p content_tags ->
  (forall q, occurs p (sql_block q) = false) ->
  Spec.data_answer (type message) -> data message = Some [] ->
  occurs p (renderAssistantMessage message) = false.
Proof.
  intros Q S D E. rewrite (render_data_answer message D), E.
  unfold div. rewrite occurs_El.
  destruct Q as [Ht He].
  rewrite He; [cbn [orb] | simpl; tauto | discriminate].
  rewrite !occurs_in_app, (optional_text_block _ _ (conj Ht He)).
  cbn [nonnil occurs_in existsb orb]. rewrite orb_false_r.
  destruct (query message) as [q|]; [|reflexivity].
  destruct (sql_guard (Some q)); [|reflexivity].
  cbn [occurs_in existsb]. now rewrite S.
Qed.

Lemma quiet_content_of_all (p : Html -> bool) :
  quiet p all_tags -> quiet p content_tags.
Proof. apply quiet_incl. intros t I. simpl in *. tauto. Qed.

Lemma quiet_table_of_all (p : Html -> bool) :
  quiet p all_tags -> quiet p table_tags.
Proof. apply quiet_incl. intros t I. simpl in *. tauto. Qed.

(** Elements and texts off the goal, as far as the classes are literal. *)
Ltac quiet_all Ht He :=
  repeat first
    [ rewrite occurs_Text, Ht
    | rewrite occurs_El, He; [ | simpl; tauto | discriminate ]
    | rewrite occurs_in_app
    | progress cbn [occurs_in existsb orb app] ].

(** Nothing that a quiet test looks for is ever rendered. *)
Lemma render_quiet (p : Html -> bool) (message : Message) :
  quiet p all_tags -> occurs p (renderAssistantMessage message) = false.
Proof.
  intros Q.
  pose proof (quiet_content_of_all p Q) as Qc.
  pose proof (quiet_table_of_all p Q) as Qt.
  pose proof (processMessageContent_quiet p (explanation message) Qc) as P.
  pose proof (optional_text_block p (explanation message) Qc) as T1.
  pose proof (optional_text_block p
                (or_else (summary message) (explanation message)) Qc) as T2.
  pose proof (optional_table p (data message) Qt) as T3.
  destruct Q as [Ht He]. unfold div in T3.
  unfold renderAssistantMessage, sql_block, div, svg.
  destruct (type_is message "dataset_summary").
  - quiet_all Ht He.
    destruct (summary message) as [s|]; [destruct (nonempty s)|];
      destruct (truthy (explanation message)); quiet_all Ht He;
      try reflexivity; now rewrite P.
  - destruct (type_is message "no_dataset").
    + now quiet_all Ht He.
    + destruct (is_nonData message).
      * quiet_all Ht He. now rewrite T1.
      * quiet_all Ht He. rewrite T2, T3.
        destruct (query message) as [q|]; [|reflexivity].
        destruct (sql_guard (Some q)); now quiet_all Ht He.
Qed.

(** A row set that is not empty is rendered with its table. *)
Lemma table_of_rows (message : Message) (row0 : Row) (rest : list Row) :
  Spec.data_answer (type message) -> data message = Some (row0 :: rest) ->
  shows_table (renderAssistantMessage message) = true.
Proof.
  intros D E. rewrite (render_data_answer message D), E.
  unfold shows_table, div. rewrite occurs_El, !occurs_in_app.
  cbn [nonnil occurs_in existsb]. rewrite occurs_El.
  replace (occurs_in (has_tag "table") (renderDataTable (row0 :: rest)))
    with true by reflexivity.
  now rewrite !orb_true_r.
Qed.

(** C6: for a data answer whose data field is present with length 0, the
    output holds no table, and no "no data" notice either: the data part is
    left out.  No assistant message is ever rendered with the notice: "No
    data found." is what renderDataTable returns for an empty row set, and
    renderAssistantMessage calls renderDataTable only on a row set that is
    not empty, which it renders as a table. *)
Theorem empty_data_renders_no_notice (message : Message) :
  (Spec.data_answer (type message) -> data message = Some [] ->
   shows_table (renderAssistantMessage message) = false)
  /\ shows_no_data_notice (renderAssistantMessage message) = false
  /\ renderDataTable [] = [El "p" "text-gray-600" None [Text "No data found."]]
  /\ (forall row0 rest,
        Spec.data_answer (type message) -> data message = Some (row0 :: rest) ->
        shows_table (renderAssistantMessage message) = true).
Proof.
  split; [|split; [|split]].
  - intros D E.
    apply empty_data_quiet; auto using quiet_table_content, sql_block_has_no_table.
  - apply render_quiet, quiet_notice.
  - reflexivity.
  - intros row0 rest D E. now apply (table_of_rows message row0 rest).
Qed.

(** C10: renderAssistantMessage does not read the content field: the output
    is the same whatever the content.  The failure turn appended when a send
    is rejected carries its fixed message in content only; its rendering is
    an empty container, with no text in it, so the message is never shown. *)
Theorem content_is_never_rendered :
  (forall (message : Message) (c : string),
     renderAssistantMessage (Spec.with_content message c)
     = renderAssistantMessage message)
  /\ (forall (now : N) (reason : string) (s : State),
        exists s',
          handleSubmit_response now (Rejected reason) s = (s', None)
          /\ messages s' = messages s ++ [errorMessage now])
  /\ (forall now : N,
        content (errorMessage now)
        = "Sorry, I encountered an error. Please try again."%string
        /\ explanation (errorMessage now) = None
        /\ summary (errorMessage now) = None
        /\ renderAssistantMessage (errorMessage now) = div "space-y-4" []
        /\ occurs Spec.is_text (renderAssistantMessage (errorMessage now)) = false).
Proof.
  split; [|split].
  - intros message c. reflexivity.
  - intros now reason s. eexists. split; reflexivity.
  - intros now. repeat split.
Qed.

End Rendering.

(* ================================================================== *)
(** * Submitting a message *)
(* ================================================================== *)

Section Submission.

Import JS ChatInterface.

#[local] Arguments Spec.sends : simpl never.
#[local] Arguments Spec.turns : simpl never.

Lemma slice_last_suffix {A : Type} (n : nat) (l : list A) :
  exists older, l = older ++ slice_last n l.
Proof.
  exists (firstn (List.length l - n) l). unfold slice_last.
  symmetry. apply firstn_skipn.
Qed.

Lemma slice_last_length {A : Type} (n : nat) (l : list A) :
  List.length (slice_last n l) = Nat.min n (List.length l).
Proof. unfold slice_last. rewrite length_skipn. lia. Qed.

Lemma or_else_present (a b : option string) :
  Spec.present a -> or_else a b = a.
Proof. intros P. apply truthy_spec in P. unfold or_else. now rewrite P. Qed.

Lemma or_else_absent (a b : option string) :
  ~ Spec.present a -> or_else a b = b.
Proof.
  intros P. unfold or_else. destruct (truthy a) eqn:E; [|reflexivity].
  apply truthy_spec in E. contradiction.
Qed.

Lemma contributes_spec (h : HistoryEntry) :
  contributes h = true <-> Spec.present (h_user h) \/ Spec.present (h_assistant h).
Proof. unfold contributes. now rewrite orb_true_iff, !truthy_spec. Qed.

Lemma sends_app (a b : list Effect) :
  Spec.sends (a ++ b) = Spec.sends a + Spec.sends b.
Proof. unfold Spec.sends. now rewrite filter_app, length_app. Qed.

Lemma sends_log (l : list Effect) (e : Effect) :
  Spec.sends (l ++ [e])
  = Spec.sends l + match e with SendMessage _ _ => 1 | _ => 0 end.
Proof. rewrite sends_app. now destruct e. Qed.

Lemma turns_app (r : Role) (a b : list Message) :
  Spec.turns r (a ++ b) = Spec.turns r a + Spec.turns r b.
Proof. unfold Spec.turns. now rewrite filter_app, length_app. Qed.

Lemma turns_one (r : Role) (m : Message) :
  Spec.turns r [m] = if Role_eqb (role m) r then 1 else 0.
Proof. unfold Spec.turns. cbn. now destruct (Role_eqb (role m) r). Qed.

(** The synchronous part on a text that is not blank. *)
Lemma begin_sends (now : N) (s : State) :
  trim (input s) <> ""%string ->
  exists s0,
    handleSubmit_begin now s
    = (s0, Some (trim (input s), history (messages s)))
    /\ messages s0 = messages s ++ [userMessage now (input s)]
    /\ effects s0
       = effects s ++ [MessagesChange true;
                       SendMessage (trim (input s)) (history (messages s))].
Proof.
  intros T. apply nonempty_spec in T. unfold handleSubmit_begin. rewrite T.
  eexists. split; [reflexivity|]. split; [reflexivity|].
  cbn. now rewrite <- app_assoc.
Qed.

(** The continuation, for a callback that never rejects: one assistant
    turn, whatever the chat request settled to and whatever the log has
    become in the meantime. *)
Lemma resume_appends_one (onQueryExecute : string -> Settled unit) (now : N)
    (r : Settled ChatResponse) (s : State) :
  (forall sql, onQueryExecute sql = Fulfilled tt) ->
  exists a,
    role a = assistant
    /\ messages (handleSubmit_resume onQueryExecute now r s) = messages s ++ [a]
    /\ Spec.sends (effects (handleSubmit_resume onQueryExecute now r s))
       = Spec.sends (effects s).
Proof.
  intros Q. unfold handleSubmit_resume, handleSubmit_response.
  destruct r as [response | reason].
  - exists (assistantMessage now response). split; [reflexivity|].
    destruct (resp_sql response) as [sql|]; [destruct (nonempty sql)|].
    + rewrite Q. cbn. rewrite sends_log. split; [reflexivity | lia].
    + split; reflexivity.
    + split; reflexivity.
  - exists (errorMessage now). split; [reflexivity|].
    cbn. rewrite sends_log. split; [reflexivity | lia].
Qed.

(** With a callback that rejects, a response that carries [sql] leaves two
    assistant turns: the answer and the failure turn of the [catch] block.
    App never passes such a callback. *)
Remark rejecting_callback_appends_two (now : N) (response : ChatResponse)
    (sql reason : string) (s : State) :
  resp_sql response = Some sql -> sql <> ""%string ->
  messages (handleSubmit_resume (fun _ => Rejected reason) now (Fulfilled response) s)
  = messages s ++ [assistantMessage now response; errorMessage now].
Proof.
  intros E N. apply nonempty_spec in N.
  unfold handleSubmit_resume, handleSubmit_response. rewrite E, N.
  cbn. now rewrite <- app_assoc.
Qed.

(** C3: for an input whose trimmed form is not empty, one submission
    appends exactly one user turn at once and issues one chat request, and
    exactly one assistant turn once the request has settled, fulfilled or
    rejected; for an input that is empty or white space only, handleSubmit
    returns at its guard: no request, no turn, the state as it was.  The
    onQueryExecute property is the one App passes, which never rejects. *)
Theorem handleSubmit_one_turn_each (now later : N) (s : State) :
  (trim (input s) <> ""%string ->
     (exists s0,
        handleSubmit_begin now s
        = (s0, Some (trim (input s), history (messages s)))
        /\ messages s0 = messages s ++ [userMessage now (input s)]
        /\ Spec.sends (effects s0) = Spec.sends (effects s) + 1)
     /\ (forall (r : Settled ChatResponse) (s1 : State),
           exists a,
             role a = assistant
             /\ messages (handleSubmit_resume App.onQueryExecute later r s1)
                = messages s1 ++ [a]
             /\ Spec.sends (effects (handleSubmit_resume App.onQueryExecute later r s1))
                = Spec.sends (effects s1))
     /\ (forall sendMessage,
           exists u a,
             role u = user /\ content u = trim (input s) /\ role a = assistant
             /\ messages (handleSubmit sendMessage App.onQueryExecute now later s)
                = messages s ++ [u; a]
             /\ Spec.turns user
                  (messages (handleSubmit sendMessage App.onQueryExecute now later s))
                = Spec.turns user (messages s) + 1
             /\ Spec.turns assistant
                  (messages (handleSubmit sendMessage App.onQueryExecute now later s))
                = Spec.turns assistant (messages s) + 1))
  /\ (Spec.whitespace_only (input s) -> Spec.blank (input s))
  /\ (Spec.blank (input s) ->
        handleSubmit_begin now s = (s, None)
        /\ forall sendMessage onQueryExecute,
             handleSubmit sendMessage onQueryExecute now later s = s).
Proof.
  split; [|split; [apply whitespace_only_blank|]].
  - intros T. destruct (begin_sends now s T) as [s0 [B [M E]]].
    split; [|split].
    + exists s0. split; [exact B|]. split; [exact M|].
      rewrite E. change [MessagesChange true;
                         SendMessage (trim (input s)) (history (messages s))]
        with ([MessagesChange true]
              ++ [SendMessage (trim (input s)) (history (messages s))]).
      rewrite app_assoc, !sends_log. lia.
    + intros r s1. now apply resume_appends_one.
    + intros sendMessage. unfold handleSubmit. rewrite B.
      destruct (resume_appends_one App.onQueryExecute later
                  (sendMessage (trim (input s)) (history (messages s))) s0
                  (fun _ => eq_refl)) as [a [Ra [Ma _]]].
      exists (userMessage now (input s)), a.
      rewrite Ma, M, <- app_assoc. cbn [app].
      repeat split; try assumption.
      * change [userMessage now (input s); a] with ([userMessage now (input s)] ++ [a]).
        rewrite !turns_app, !turns_one, Ra. cbn. lia.
      * change [userMessage now (input s); a] with ([userMessage now (input s)] ++ [a]).
        rewrite !turns_app, !turns_one, Ra. cbn. lia.
  - unfold Spec.blank. intros B.
    assert (G : handleSubmit_begin now s = (s, None)).
    { unfold handleSubmit_begin. now rewrite B. }
    split; [exact G|]. intros sendMessage onQueryExecute.
    unfold handleSubmit. now rewrite G.
Qed.

(** C7: the history sent with a submission is built from the last ten
    turns of the log, in their order: a user turn gives {user: content}, an
    assistant turn {assistant: x} with x the summary if present, else the
    explanation if present, else the raw content; an entry that brings
    neither a user nor an assistant text is dropped.  A text is present
    when it is defined and not empty, which is how the source tests it. *)
Theorem history_of_last_ten (log : list Message) :
  (forall (now : N) (s : State),
     messages s = log -> trim (input s) <> ""%string ->
     snd (handleSubmit_begin now s) = Some (trim (input s), history log))
  /\ (exists older, log = older ++ slice_last 10 log)
  /\ List.length (slice_last 10 log) = Nat.min 10 (List.length log)
  /\ history log = filter contributes (map history_entry (slice_last 10 log))
  /\ List.length (history log) <= 10
  /\ (forall m, role m = user ->
        history_entry m = {| h_user := Some (content m); h_assistant := None |})
  /\ (forall m, role m = assistant ->
        h_user (history_entry m) = None
        /\ (Spec.present (summary m) -> h_assistant (history_entry m) = summary m)
        /\ (~ Spec.present (summary m) -> Spec.present (explanation m) ->
            h_assistant (history_entry m) = explanation m)
        /\ (~ Spec.present (summary m) -> ~ Spec.present (explanation m) ->
            h_assistant (history_entry m) = Some (content m)))
  /\ (forall h, In h (history log)
        <-> exists m, In m (slice_last 10 log) /\ h = history_entry m
                      /\ (Spec.present (h_user h) \/ Spec.present (h_assistant h))).
Proof.
  split.
  { intros now s <- T. destruct (begin_sends now s T) as [s0 [B _]].
    now rewrite B. }
  split; [apply slice_last_suffix|].
  split; [apply slice_last_length|].
  split; [reflexivity|].
  split.
  { unfold history.
    pose proof (filter_length_le contributes
                  (map history_entry (slice_last 10 log))) as L.
    rewrite length_map, slice_last_length in L. lia. }
  split.
  { intros m R. unfold history_entry. now rewrite R. }
  split.
  { intros m R. unfold history_entry. rewrite R. cbn.
    split; [reflexivity|]. split; [|split].
    - intros P. rewrite (or_else_present (summary m)) by exact P.
      now apply or_else_present.
    - intros P Q. rewrite (or_else_absent (summary m)) by exact P.
      now apply or_else_present.
    - intros P Q. rewrite (or_else_absent (summary m)) by exact P.
      now apply or_else_absent. }
  intros h. unfold history. rewrite filter_In, in_map_iff, contributes_spec.
  split.
  - intros [[m [E I]] C]. exists m. now subst h.
  - intros [m [I [E C]]]. split; [|exact C]. exists m. now subst h.
Qed.

End Submission.

(* ================================================================== *)
(** * The shortest decimal of a number *)
(* ================================================================== *)

Section SearchFacts.

Local Open Scope Z_scope.
Import Intl.

Variables (closed : bool) (lo v hi : Z).
Hypothesis lo_pos : 0 < lo.
Hypothesis lo_v : lo < v.
Hypothesis v_hi : v < hi.












End SearchFacts.

Section DecimalFacts.

Import Intl.
Import QArith Qabs Qpower Qfield Morphisms.
Local Open Scope Q_scope.


Lemma two_pos (z : Z) : 0 < 2 ^ z.
Proof. now apply Qpower_0_lt. Qed.










#[local] Instance rounds_to_compat (m : positive) (e : Z) :
  Proper (Qeq ==> iff) (SpecQ.rounds_to m e).
Proof.
  intros x y E. unfold SpecQ.rounds_to.
  destruct (Z.even (Z.pos m)); now rewrite E.
Qed.









End DecimalFacts.

(* ================================================================== *)
(** * Digits, groups of three and two fraction digits *)
(* ================================================================== *)

Section Digits.

Import Decimal DecimalFacts Numeral.
Local Open Scope N_scope.


Lemma app_head (a b : uint) :
  to_list (app a b) = (to_list a ++ to_list b)%list.
Proof. apply app_spec. Qed.



















End Digits.

(* ================================================================== *)
(** * Formatting a cell *)
(* ================================================================== *)

Section Formatting.

Import JS ChatInterface.

Context `{Host}.



(** The number of the examples is a binary64, and its value is 2469/2. *)
Lemma n1234_5_is_binary64 :
  Spec.n1234_5 = S754_finite false 5429388417957888 (-42)
  /\ bounded 53 1024 5429388417957888 (-42) = true
  /\ (5429388417957888 * 2 = 2469 * 2 ^ 42)%Z.
Proof. repeat split. Qed.





End Formatting.

(* ================================================================== *)
(** * The column classes of the visualization *)
(* ================================================================== *)

Section Columns.

Import JS VisualizationPanel.

(** C5: the two column classes, numeric and categorical, are computed from
    the first row alone: a column whose first-row value is a string or a
    boolean is categorical, and a column whose first-row value is a number
    or converts to a number other than NaN is numeric.  Every column whose
    first-row value is a string, a number or a boolean falls into at least
    one of the classes, and the classes are not disjoint: a number column is
    numeric only, a string column is categorical and also numeric when its
    text reads as a number, and a boolean column is in both. *)
Theorem column_classes (row0 : Row) (rest other : list Row) :
  numericColumns (row0 :: rest) = numericColumns (row0 :: other)
  /\ categoricalColumns (row0 :: rest) = categoricalColumns (row0 :: other)
  /\ (exists ns cs,
        numericColumns (row0 :: rest) = Some ns
        /\ categoricalColumns (row0 :: rest) = Some cs
        /\ (forall col, In col ns <->
              In col (Object_keys row0)
              /\ (typeof (get row0 col) = TNumber
                  \/ isNaN_Number (get row0 col) = false))
        /\ (forall col, In col cs <->
              In col (Object_keys row0)
              /\ (typeof (get row0 col) = TString
                  \/ typeof (get row0 col) = TBoolean))
        /\ (forall col, In col (Object_keys row0) ->
              typeof (get row0 col) = TString
              \/ typeof (get row0 col) = TNumber
              \/ typeof (get row0 col) = TBoolean ->
              In col ns \/ In col cs)
        /\ (forall col, In col (Object_keys row0) ->
              typeof (get row0 col) = TNumber -> In col ns /\ ~ In col cs)
        /\ (forall col, In col (Object_keys row0) ->
              typeof (get row0 col) = TBoolean -> In col ns /\ In col cs)
        /\ (forall col s, In col (Object_keys row0) ->
              get row0 col = VString s ->
              In col cs /\ (In col ns <-> string_is_NaN s = false))).
Proof.
  split; [reflexivity|]. split; [reflexivity|].
  exists (filter (is_numeric row0) (Object_keys row0)),
         (filter (is_categorical row0) (Object_keys row0)).
  split; [reflexivity|]. split; [reflexivity|].
  assert (N : forall col, In col (filter (is_numeric row0) (Object_keys row0)) <->
              In col (Object_keys row0)
              /\ (typeof (get row0 col) = TNumber
                  \/ isNaN_Number (get row0 col) = false)).
  { intros col. rewrite filter_In. unfold is_numeric.
    rewrite orb_true_iff, negb_true_iff.
    destruct (get row0 col); cbn; intuition congruence. }
  assert (C : forall col, In col (filter (is_categorical row0) (Object_keys row0)) <->
              In col (Object_keys row0)
              /\ (typeof (get row0 col) = TString
                  \/ typeof (get row0 col) = TBoolean)).
  { intros col. rewrite filter_In. unfold is_categorical.
    destruct (typeof (get row0 col)); intuition congruence. }
  split; [exact N|]. split; [exact C|].
  split; [|split; [|split]].
  - intros col I T. rewrite N, C. tauto.
  - intros col I T. rewrite N, C. split; [tauto|].
    intros [_ [E | E]]; congruence.
  - intros col I T. rewrite N, C. split; [|tauto].
    split; [exact I|]. right. now destruct (get row0 col).
  - intros col s I E. rewrite N, C, E. cbn. split; [tauto|].
    split; [intros [_ [D | D]]; [discriminate | exact D] | tauto].
Qed.

End Columns.

(* ================================================================== *)
(** * POST /execute *)
(* ================================================================== *)

Section Route.

Import JS Database ExecuteRoute.

(** A connection that was obtained is released, whatever the query did. *)
Lemma executeQuery_releases (pool : Pool) (q : Value) :
  fst (executeQuery pool q) = [GetConnection]
  \/ fst (executeQuery pool q) = [GetConnection; Execute q; Release].
Proof.
  unfold executeQuery. destruct (getConnection pool); [|now left].
  destruct (execute pool q); now right.
Qed.

(** C8: a request to POST /execute without [sql] is answered 400 and runs
    no query; when the execution of the query throws, the answer is 500
    with the fixed message "Failed to execute query", the same whatever the
    error was, whose detail goes to the console only; when it succeeds with
    a result set the answer holds sql, data, columns, executionTime and
    rowCount.  When it succeeds without a result set the statement has run
    and the connection is released, but the answer is the same 500. *)
Theorem post_execute_responses (pool : Pool) (startTime endTime : Z) :
  (calls (post_execute pool startTime endTime VUndefined) = []
   /\ response (post_execute pool startTime endTime VUndefined)
      = {| status := 400; body := ErrorBody "SQL query is required" |})
  /\ (forall q reason, falsy q = false ->
        snd (executeQuery pool q) = Rejected reason ->
        response (post_execute pool startTime endTime q)
        = {| status := 500; body := ErrorBody "Failed to execute query" |}
        /\ logged (post_execute pool startTime endTime q) = [Rejection reason])
  /\ (forall q rows fields, falsy q = false ->
        snd (executeQuery pool q) = Fulfilled (ResultSet rows fields) ->
        response (post_execute pool startTime endTime q)
        = {| status := 200;
             body := ResultBody q rows (map name fields)
                       (endTime - startTime) (List.length rows) |}
        /\ calls (post_execute pool startTime endTime q)
           = [GetConnection; Execute q; Release])
  /\ (forall q affected, falsy q = false ->
        snd (executeQuery pool q) = Fulfilled (ResultSetHeader affected) ->
        response (post_execute pool startTime endTime q)
        = {| status := 500; body := ErrorBody "Failed to execute query" |}
        /\ calls (post_execute pool startTime endTime q)
           = [GetConnection; Execute q; Release]
        /\ logged (post_execute pool startTime endTime q)
           = [TypeError_fields_undefined]).
Proof.
  split; [split; reflexivity|].
  split.
  - intros q reason N E. unfold post_execute. rewrite N.
    destruct (executeQuery pool q) as [cs [result|reason']]; cbn in E.
    + discriminate.
    + injection E as ->. split; reflexivity.
  - split.
    + intros q rows fields N E. unfold post_execute. rewrite N.
      unfold executeQuery in *.
      destruct (getConnection pool); [|discriminate].
      destruct (execute pool q) as [r|]; [|discriminate].
      cbn in E. injection E as ->. split; reflexivity.
    + intros q affected N E. unfold post_execute. rewrite N.
      unfold executeQuery in *.
      destruct (getConnection pool); [|discriminate].
      destruct (execute pool q) as [r|]; [|discriminate].
      cbn in E. injection E as ->. repeat split; reflexivity.
Qed.

End Route.

(* ================================================================== *)
(** * Choosing a file to upload *)
(* ================================================================== *)

Section Upload.

Import JS DatasetUpload.

Lemma uploads_app (a b : list Effect) :
  uploads (a ++ b) = uploads a ++ uploads b.
Proof.
  induction a as [|e a IH]; [reflexivity|].
  destruct e; cbn; now rewrite IH.
Qed.

Lemma handleFile_csv_only (f : File) (s : State) :
  csv_only s -> csv_only (handleFile f s).
Proof.
  intros [F U]. unfold handleFile.
  destruct (endsWith (file_name f) ".csv") eqn:E; cbn [negb]; split; cbn.
  - intros g G. now injection G as <-.
  - intros g. rewrite uploads_app, in_app_iff. cbn. intros [I | []]. now apply U.
  - exact F.
  - exact U.
Qed.

Lemma step_csv_only (uploadDataset : File -> Uploaded) (s : State) (e : Event) :
  csv_only s -> csv_only (step uploadDataset s e).
Proof.
  intros I. pose proof I as [F U]. destruct e as [entering|files|files| |]; cbn.
  - exact I.
  - unfold handleDrop. destruct files as [|f files]; [exact I|].
    apply handleFile_csv_only. exact I.
  - unfold handleChange. destruct files as [|f files]; [exact I|].
    now apply handleFile_csv_only.
  - unfold handleSubmit. destruct (file s) as [f|].
    + destruct (uploadDataset f) as [dataset|detail message]; split; cbn.
      * exact F.
      * intros g. rewrite uploads_app, in_app_iff. cbn.
        intros [G | [<- | []]]; [now apply U | now apply F].
      * exact F.
      * intros g. rewrite uploads_app, in_app_iff. cbn.
        intros [G | [<- | []]]; [now apply U | now apply F].
    + split; cbn; [discriminate | exact U].
  - split; cbn; [discriminate|].
    intros g. rewrite uploads_app, in_app_iff. cbn. intros [G | []]. now apply U.
Qed.

Lemma fold_csv_only (uploadDataset : File -> Uploaded) (events : list Event)
    (s : State) :
  csv_only s -> csv_only (fold_left (step uploadDataset) events s).
Proof.
  revert s. induction events as [|e events IH]; intros s I; cbn; [exact I|].
  apply IH. now apply step_csv_only.
Qed.

(** C9: a file whose name does not end in ".csv" is refused by handleFile
    with the error "Please upload a CSV file": the chosen file stays what
    it was and nothing is sent; and whatever the user does, only files whose
    names end in ".csv" are ever chosen or uploaded. *)
Theorem handleFile_accepts_csv_only :
  (forall (f : File) (s : State),
     ~ Spec.ends_in (file_name f) ".csv" ->
     error (handleFile f s) = Some "Please upload a CSV file"%string
     /\ file (handleFile f s) = file s
     /\ effects (handleFile f s) = effects s
     /\ isUploading (handleFile f s) = isUploading s)
  /\ (forall (f : File) (s : State),
        Spec.ends_in (file_name f) ".csv" ->
        file (handleFile f s) = Some f /\ error (handleFile f s) = None
        /\ uploads (effects (handleFile f s)) = uploads (effects s))
  /\ (forall (uploadDataset : File -> Uploaded) (events : list Event),
        (forall f, file (run uploadDataset events) = Some f ->
                   Spec.ends_in (file_name f) ".csv")
        /\ (forall f, In f (uploads (effects (run uploadDataset events))) ->
                      Spec.ends_in (file_name f) ".csv")).
Proof.
  split; [|split].
  - intros f s N. unfold handleFile.
    destruct (endsWith (file_name f) ".csv") eqn:E.
    + apply endsWith_spec in E. contradiction.
    + repeat split.
  - intros f s Y. apply endsWith_spec in Y. unfold handleFile. rewrite Y.
    cbn. rewrite uploads_app. cbn. now rewrite app_nil_r.
  - intros uploadDataset events.
    assert (I : csv_only (run uploadDataset events)).
    { apply fold_csv_only. split; cbn; [discriminate | tauto]. }
    destruct I as [F U].
    split; intros f G; apply endsWith_spec; auto.
Qed.

End Upload.

(* ================================================================== *)
(** * The theorems at work on the examples *)
(* ================================================================== *)

Lemma narrative_shows_explanation_only_witness :
  ChatInterface.type Examples.greeting = Some "greeting"%string
  /\ Spec.narrative "greeting"
  /\ shows_sql (@ChatInterface.renderAssistantMessage example_host Examples.greeting)
     = false
  /\ shows_table (@ChatInterface.renderAssistantMessage example_host Examples.greeting)
     = false.
Proof.
  split; [reflexivity|]. split; [right; left; reflexivity|].
  apply (@narrative_shows_explanation_only example_host Examples.greeting "greeting").
  - reflexivity.
  - right; left; reflexivity.
Defined.

Lemma sql_block_iff_guard_witness :
  Spec.data_answer (ChatInterface.type Examples.routed)
  /\ ChatInterface.query Examples.routed = Some "Select 'GREETING' as type"%string
  /\ Spec.contains_ci "Select 'GREETING' as type" "'greeting'"
  /\ shows_sql (@ChatInterface.renderAssistantMessage example_host Examples.routed)
     = false.
Proof.
  assert (D : Spec.data_answer (ChatInterface.type Examples.routed))
    by (intros t E; discriminate E).
  assert (G : Spec.contains_ci "Select 'GREETING' as type" "'greeting'").
  { exists "Select "%string, "'GREETING'"%string, " as type"%string.
    split; reflexivity. }
  split; [exact D|]. split; [reflexivity|]. split; [exact G|].
  exact (proj2 (@sql_block_iff_guard example_host Examples.routed D)
           "Select 'GREETING' as type"%string eq_refl G).
Defined.

Example sales_shows_sql :
  shows_sql (@ChatInterface.renderAssistantMessage example_host Examples.sales) = true
  /\ shows_table (@ChatInterface.renderAssistantMessage example_host Examples.sales)
     = true.
Proof. split; vm_compute; reflexivity. Qed.

Lemma handleSubmit_one_turn_each_witness :
  JS.trim (ChatInterface.input (Examples.idle [] "  total sales?  ")) <> ""%string
  /\ Spec.blank (ChatInterface.input (Examples.idle [] "   "))
  /\ (exists u a,
        ChatInterface.role u = ChatInterface.user
        /\ ChatInterface.role a = ChatInterface.assistant
        /\ ChatInterface.messages
             (ChatInterface.handleSubmit Examples.answering App.onQueryExecute
                1700000000000 1700000000500 (Examples.idle [] "  total sales?  "))
           = [u; a])
  /\ ChatInterface.handleSubmit Examples.unreachable App.onQueryExecute
       1700000000000 1700000000500 (Examples.idle [] "   ")
     = Examples.idle [] "   ".
Proof.
  assert (T : JS.trim (ChatInterface.input (Examples.idle [] "  total sales?  "))
              <> ""%string) by (vm_compute; discriminate).
  assert (B : Spec.blank (ChatInterface.input (Examples.idle [] "   ")))
    by (vm_compute; reflexivity).
  split; [exact T|]. split; [exact B|]. split.
  - destruct (proj1 (handleSubmit_one_turn_each 1700000000000 1700000000500
                       (Examples.idle [] "  total sales?  ")) T)
      as [_ [_ W]].
    destruct (W Examples.answering) as [u [a [Ru [_ [Ra [M _]]]]]].
    exists u, a. split; [exact Ru|]. split; [exact Ra | exact M].
  - exact (proj2 (proj2 (proj2 (handleSubmit_one_turn_each 1700000000000
                                  1700000000500 (Examples.idle [] "   "))) B)
             Examples.unreachable App.onQueryExecute).
Defined.

Example submission_runs :
  map ChatInterface.role
    (ChatInterface.messages
       (ChatInterface.handleSubmit Examples.answering App.onQueryExecute
          1700000000000 1700000000500 (Examples.idle [] "  total sales?  ")))
  = [ChatInterface.user; ChatInterface.assistant]
  /\ map ChatInterface.content
       (ChatInterface.messages
          (ChatInterface.handleSubmit Examples.unreachable App.onQueryExecute
             1700000000000 1700000000500 (Examples.idle [] "  total sales?  ")))
     = ["total sales?"; "Sorry, I encountered an error. Please try again."]%string.
Proof. split; vm_compute; reflexivity. Qed.


(** C5: the classes are not disjoint: the column "active" (a boolean) and
    the column "year" (numbers as text) are in both. *)
Lemma boolean_column_in_both_classes :
  VisualizationPanel.numericColumns Examples.flags
  = Some ["active"; "year"]%string
  /\ VisualizationPanel.categoricalColumns Examples.flags
     = Some ["active"; "year"; "name"]%string
  /\ exists ns cs,
       VisualizationPanel.numericColumns Examples.flags = Some ns
       /\ VisualizationPanel.categoricalColumns Examples.flags = Some cs
       /\ In "active"%string ns /\ In "active"%string cs.
Proof.
  split; [vm_compute; reflexivity|]. split; [vm_compute; reflexivity|].
  exists ["active"; "year"]%string, ["active"; "year"; "name"]%string.
  split; [vm_compute; reflexivity|]. split; [vm_compute; reflexivity|].
  split; left; reflexivity.
Qed.

Lemma column_classes_witness :
  In "active"%string (JS.Object_keys (hd [] Examples.flags))
  /\ JS.typeof (JS.get (hd [] Examples.flags) "active") = JS.TBoolean
  /\ exists ns cs,
       VisualizationPanel.numericColumns Examples.flags = Some ns
       /\ VisualizationPanel.categoricalColumns Examples.flags = Some cs
       /\ In "active"%string ns /\ In "active"%string cs.
Proof.
  split; [left; reflexivity|]. split; [reflexivity|].
  destruct (proj2 (proj2 (column_classes (hd [] Examples.flags) [] [])))
    as [ns [cs [N [C [_ [_ [_ [_ [B _]]]]]]]]].
  exists ns, cs. split; [exact N|]. split; [exact C|].
  exact (B "active"%string (or_introl eq_refl) eq_refl).
Defined.

(** C6: a data answer with an empty row set is rendered without the "no
    data" notice. *)
Lemma empty_answer_shows_no_notice :
  Spec.data_answer (ChatInterface.type Examples.empty_answer)
  /\ ChatInterface.data Examples.empty_answer = Some []
  /\ shows_no_data_notice
       (@ChatInterface.renderAssistantMessage example_host Examples.empty_answer)
     = false.
Proof.
  split; [intros t E; discriminate E|]. split; vm_compute; reflexivity.
Qed.

Lemma empty_data_renders_no_notice_witness :
  Spec.data_answer (ChatInterface.type Examples.empty_answer)
  /\ ChatInterface.data Examples.empty_answer = Some []
  /\ shows_table
       (@ChatInterface.renderAssistantMessage example_host Examples.empty_answer)
     = false
  /\ shows_no_data_notice
       (@ChatInterface.renderAssistantMessage example_host Examples.empty_answer)
     = false.
Proof.
  assert (D : Spec.data_answer (ChatInterface.type Examples.empty_answer))
    by (intros t E; discriminate E).
  split; [exact D|]. split; [reflexivity|].
  destruct (@empty_data_renders_no_notice example_host Examples.empty_answer)
    as [T [N _]].
  split; [exact (T D eq_refl) | exact N].
Defined.

Lemma history_of_last_ten_witness :
  ChatInterface.role (ChatInterface.errorMessage 7) = ChatInterface.assistant
  /\ ~ Spec.present (ChatInterface.summary (ChatInterface.errorMessage 7))
  /\ ~ Spec.present (ChatInterface.explanation (ChatInterface.errorMessage 7))
  /\ ChatInterface.h_assistant
       (ChatInterface.history_entry (ChatInterface.errorMessage 7))
     = Some "Sorry, I encountered an error. Please try again."%string.
Proof.
  assert (A : forall o : option string, o = None -> ~ Spec.present o).
  { intros o -> [s [E _]]. discriminate E. }
  split; [reflexivity|].
  split; [exact (A _ eq_refl)|]. split; [exact (A _ eq_refl)|].
  destruct (proj2 (proj2 (proj2 (proj2 (proj2 (proj2 (history_of_last_ten [])))))))
    as [W _].
  exact (proj2 (proj2 (proj2 (W (ChatInterface.errorMessage 7) eq_refl)))
           (A _ eq_refl) (A _ eq_refl)).
Defined.

Lemma post_execute_responses_witness :
  JS.falsy (JS.VString "DELETE FROM sales") = false
  /\ snd (Database.executeQuery Examples.pool_up (JS.VString "DELETE FROM sales"))
     = Fulfilled (Database.ResultSetHeader 1)
  /\ ExecuteRoute.response
       (ExecuteRoute.post_execute Examples.pool_up 100 130
          (JS.VString "DELETE FROM sales"))
     = {| ExecuteRoute.status := 500;
          ExecuteRoute.body := ExecuteRoute.ErrorBody "Failed to execute query" |}
  /\ ExecuteRoute.calls
       (ExecuteRoute.post_execute Examples.pool_up 100 130
          (JS.VString "DELETE FROM sales"))
     = [Database.GetConnection; Database.Execute (JS.VString "DELETE FROM sales");
        Database.Release].
Proof.
  assert (N : JS.falsy (JS.VString "DELETE FROM sales") = false) by reflexivity.
  split; [exact N|]. split; [reflexivity|].
  destruct (proj2 (proj2 (proj2 (post_execute_responses Examples.pool_up 100 130)))
              (JS.VString "DELETE FROM sales") 1%Z N eq_refl) as [R [C _]].
  split; [exact R | exact C].
Defined.

Example post_execute_runs :
  ExecuteRoute.response
    (ExecuteRoute.post_execute Examples.pool_up 100 130 (JS.VString "SELECT 1"))
  = {| ExecuteRoute.status := 200;
       ExecuteRoute.body :=
         ExecuteRoute.ResultBody (JS.VString "SELECT 1") Examples.one_row
           ["region"; "total_revenue"]%string 30 1 |}
  /\ ExecuteRoute.calls
       (ExecuteRoute.post_execute Examples.pool_up 100 130 (JS.VString ""))
     = []
  /\ ExecuteRoute.response
       (ExecuteRoute.post_execute Examples.pool_down 100 130 (JS.VString "SELECT 1"))
     = {| ExecuteRoute.status := 500;
          ExecuteRoute.body := ExecuteRoute.ErrorBody "Failed to execute query" |}.
Proof. repeat split; vm_compute; reflexivity. Qed.

Lemma handleFile_accepts_csv_only_witness :
  ~ Spec.ends_in (DatasetUpload.file_name Examples.spreadsheet) ".csv"
  /\ DatasetUpload.error
       (DatasetUpload.handleFile Examples.spreadsheet DatasetUpload.initial)
     = Some "Please upload a CSV file"%string
  /\ DatasetUpload.file
       (DatasetUpload.handleFile Examples.spreadsheet DatasetUpload.initial)
     = None.
Proof.
  assert (N : ~ Spec.ends_in (DatasetUpload.file_name Examples.spreadsheet) ".csv").
  { intros E. apply endsWith_spec in E. discriminate E. }
  split; [exact N|].
  destruct (proj1 handleFile_accepts_csv_only Examples.spreadsheet
              DatasetUpload.initial N) as [E [F _]].
  split; [exact E | exact F].
Defined.

Example upload_runs :
  DatasetUpload.uploads
    (DatasetUpload.effects
       (DatasetUpload.run (fun _ => DatasetUpload.UploadFailed None None)
          [DatasetUpload.Drop [Examples.table_csv];
           DatasetUpload.Change [Examples.spreadsheet];
           DatasetUpload.Submit]))
  = [Examples.table_csv].
Proof. vm_compute. reflexivity. Qed.

(* ================================================================== *)
(** * The blocks of a message text *)
(* ================================================================== *)

Section ContentBlocks.

Import JS ChatInterface Observe.

Lemma runs_head (l : string) (ls : list string) :
  exists run rs, runs (l :: ls) = (is_bullet l, run) :: rs.
Proof.
  cbn [runs]. destruct (runs ls) as [|[k run] rs]; [now eexists; eexists|].
  destruct (Bool.eqb (is_bullet l) k) eqn:E.
  - apply Bool.eqb_prop in E. rewrite E. now eexists; eexists.
  - now eexists; eexists.
Qed.

(** A stretch of lines of one kind in front of other lines joins their
    first run when that is of the same kind, and is a run of its own when
    it is not. *)
Lemma runs_app (xs ls : list string) (k : bool) :
  xs <> [] -> Forall (fun l => is_bullet l = k) xs ->
  runs (xs ++ ls)
  = match runs ls with
    | (k', r) :: rs =>
        if Bool.eqb k k' then (k', xs ++ r) :: rs else (k, xs) :: (k', r) :: rs
    | [] => [(k, xs)]
    end.
Proof.
  induction xs as [|x xs IH]; [congruence|]. intros _ F.
  inversion F as [|? ? Hx Hxs]; subst. destruct xs as [|x' xs].
  - cbn [app runs]. now destruct (runs ls) as [|[k' r] rs].
  - assert (N : x' :: xs <> []) by discriminate.
    specialize (IH N Hxs). change ((x :: x' :: xs) ++ ls) with (x :: (x' :: xs) ++ ls).
    cbn [runs]. rewrite IH. destruct (runs ls) as [|[k' r] rs].
    + now rewrite Bool.eqb_reflx.
    + destruct (Bool.eqb (is_bullet x) k') eqn:E.
      * now rewrite E.
      * now rewrite Bool.eqb_reflx.
Qed.

Lemma runs_one_kind (xs : list string) (k : bool) :
  xs <> [] -> Forall (fun l => is_bullet l = k) xs -> runs xs = [(k, xs)].
Proof.
  intros N F. rewrite <- (app_nil_r xs) at 1. now rewrite (runs_app xs [] k N F).
Qed.

Lemma runs_concat (ls : list string) : concat (map snd (runs ls)) = ls.
Proof.
  induction ls as [|l ls IH]; [reflexivity|]. cbn [runs].
  destruct (runs ls) as [|[k run] rs]; cbn in *; [now subst|].
  destruct (Bool.eqb (is_bullet l) k); cbn; now rewrite IH.
Qed.

Lemma runs_ok (ls : list string) : Forall run_ok (runs ls).
Proof.
  induction ls as [|l ls IH]; [constructor|]. cbn [runs].
  destruct (runs ls) as [|[k run] rs].
  - constructor; [|constructor]. split; [discriminate | now repeat constructor].
  - inversion IH as [|? ? [N F] R]; subst. cbn in *.
    destruct (Bool.eqb (is_bullet l) k) eqn:E.
    + apply Bool.eqb_prop in E. constructor; [|exact R].
      split; [discriminate | now constructor].
    + constructor; [|exact IH].
      split; [discriminate | now repeat constructor].
Qed.

Lemma runs_alternate (ls : list string) : alternate (runs ls).
Proof.
  induction ls as [|l ls IH]; [exact I|]. cbn [runs].
  destruct (runs ls) as [|[k run] rs]; [exact I|].
  destruct (Bool.eqb (is_bullet l) k) eqn:E.
  - destruct rs; [exact I | exact IH].
  - split; [|exact IH]. cbn. intros C. rewrite C, Bool.eqb_reflx in E. discriminate.
Qed.

Lemma renderParagraph_block (ls : list string) (els : list Html) :
  renderParagraph ls els
  = els ++ match ls with [] => [] | _ => [block (false, ls)] end.
Proof. destruct ls; [cbn; now rewrite app_nil_r | reflexivity]. Qed.

Lemma renderList_block (ls : list string) (els : list Html) :
  renderList ls els
  = els ++ match ls with [] => [] | _ => [block (true, ls)] end.
Proof. destruct ls; [cbn; now rewrite app_nil_r | reflexivity]. Qed.

Lemma fold_each_line_runs (ls : list string) (b : Blocks) :
  gathering b ->
  renderList (currentListItems (fold_left each_line ls b))
    (renderParagraph (currentParagraphLines (fold_left each_line ls b))
       (elements (fold_left each_line ls b)))
  = elements b
    ++ map block (runs ((currentListItems b ++ currentParagraphLines b) ++ ls)).
Proof.
  revert b. induction ls as [|l ls IH]; intros [els cl cp] [O [Fl Fp]];
    cbn [fold_left elements currentListItems currentParagraphLines] in *.
  - rewrite app_nil_r, renderParagraph_block, renderList_block, <- app_assoc.
    f_equal. destruct cl as [|c cl]; destruct cp as [|p cp].
    + reflexivity.
    + cbn [app].
      now rewrite (runs_one_kind (p :: cp) false) by (congruence || assumption).
    + rewrite !app_nil_r.
      now rewrite (runs_one_kind (c :: cl) true) by (congruence || assumption).
    + destruct O; discriminate.
  - remember (each_line {| elements := els; currentListItems := cl;
                           currentParagraphLines := cp |} l) as b1 eqn:E1.
    unfold each_line in E1.
    cbn [currentListItems currentParagraphLines elements] in E1.
    fold (is_bullet l) in E1. destruct (is_bullet l) eqn:B.
    + destruct cp as [|p cp]; cbn [nonnil] in E1; subst b1.
      * rewrite IH.
        2:{ split; [now right|]. split; [|constructor].
            apply Forall_app. split; [exact Fl | now repeat constructor]. }
        cbn [currentListItems currentParagraphLines elements].
        now rewrite !app_nil_r, <- app_assoc.
      * assert (cl = []) as -> by (destruct O; [assumption | discriminate]).
        rewrite IH.
        2:{ split; [now right|]. split; [now repeat constructor | constructor]. }
        cbn [currentListItems currentParagraphLines elements].
        rewrite renderParagraph_block, <- app_assoc. f_equal.
        rewrite app_nil_r. cbn [app].
        change (p :: cp ++ l :: ls) with ((p :: cp) ++ l :: ls).
        rewrite (runs_app (p :: cp) (l :: ls) false) by (congruence || assumption).
        destruct (runs_head l ls) as [run [rs ->]]. rewrite B. reflexivity.
    + destruct cl as [|c cl]; cbn [nonnil] in E1; subst b1.
      * rewrite IH.
        2:{ split; [now left|]. split; [constructor|].
            apply Forall_app. split; [exact Fp | now repeat constructor]. }
        cbn [currentListItems currentParagraphLines elements app].
        now rewrite <- app_assoc.
      * assert (cp = []) as -> by (destruct O; [discriminate | assumption]).
        rewrite IH.
        2:{ split; [now left|]. split; [constructor | now repeat constructor]. }
        cbn [currentListItems currentParagraphLines elements].
        rewrite renderList_block, <- app_assoc. f_equal.
        rewrite app_nil_r. cbn [app].
        change (c :: cl ++ l :: ls) with ((c :: cl) ++ l :: ls).
        rewrite (runs_app (c :: cl) (l :: ls) true) by (congruence || assumption).
        destruct (runs_head l ls) as [run [rs ->]]. rewrite B. reflexivity.
Qed.

Lemma processMessageContent_runs (t : string) :
  t <> ""%string ->
  processMessageContent (Some t) = Some (map block (runs (split_lines t))).
Proof.
  intros N. apply nonempty_spec in N. unfold processMessageContent. rewrite N.
  f_equal. apply fold_each_line_runs.
  split; [now left|]. split; constructor.
Qed.

(** X1: a text that is not empty is rendered as the blocks of its maximal
    runs of lines: the runs, put end to end, are the lines of the text in
    their order; each run holds at least one line and lines of one kind
    only (bullet or not); neighbouring runs differ in kind; a bullet run is
    a list of its items and any other run a paragraph of its lines. *)
Theorem message_text_blocks (t : string) :
  t <> ""%string ->
  exists rs,
    processMessageContent (Some t) = Some (map block rs)
    /\ concat (map snd rs) = split_lines t
    /\ Forall run_ok rs
    /\ alternate rs.
Proof.
  intros N. exists (runs (split_lines t)).
  split; [now apply processMessageContent_runs|].
  split; [apply runs_concat|]. split; [apply runs_ok | apply runs_alternate].
Qed.

Lemma split_lines_nonnil (s : string) : split_lines s <> [].
Proof.
  destruct s as [|c r]; cbn; [discriminate|].
  destruct (code c =? 10)%N; [discriminate|].
  destruct (split_lines r); discriminate.
Qed.

(** Splitting at the line feeds and joining with line feeds gives the text
    back. *)
Lemma join_split_lines (s : string) : join_lines (split_lines s) = s.
Proof.
  unfold join_lines. induction s as [|c r IH]; [reflexivity|].
  cbn [split_lines]. pose proof (split_lines_nonnil r) as N.
  destruct (code c =? 10)%N eqn:E.
  - apply N.eqb_eq in E.
    assert (c = LF) as ->.
    { unfold code in E. rewrite <- (ascii_N_embedding c), E. reflexivity. }
    destruct (split_lines r) as [|l ls]; [congruence|].
    cbn in *. now rewrite IH.
  - destruct (split_lines r) as [|l ls]; [congruence|].
    destruct ls; cbn in *; now rewrite <- IH.
Qed.

(** X2: a text without bullet lines is shown as one paragraph that holds
    the text as it is, line feeds included. *)
Theorem plain_text_is_one_paragraph (t : string) :
  t <> ""%string ->
  Forall (fun l => is_bullet l = false) (split_lines t) ->
  processMessageContent (Some t)
  = Some [El "p" "whitespace-pre-wrap" None [Text t]].
Proof.
  intros N F. rewrite (processMessageContent_runs t N).
  rewrite (runs_one_kind (split_lines t) false (split_lines_nonnil t) F).
  cbn. unfold block. cbn. now rewrite join_split_lines.
Qed.

(** X3: a text made of bullet lines only is shown as one list with an item
    per line, in the order of the lines; each item is its line without the
    white space around it, the asterisk, and the white space after the
    asterisk. *)
Theorem bullet_text_is_one_list (t : string) :
  t <> ""%string ->
  Forall (fun l => is_bullet l = true) (split_lines t) ->
  processMessageContent (Some t)
  = Some [El "ul" "list-disc list-inside space-y-1 pl-4" None
            (map (fun l => El "li" "" None [Text (item_text l)]) (split_lines t))].
Proof.
  intros N F. rewrite (processMessageContent_runs t N).
  now rewrite (runs_one_kind (split_lines t) true (split_lines_nonnil t) F).
Qed.

End ContentBlocks.

(* ================================================================== *)
(** * The data table, read back *)
(* ================================================================== *)

Section TableGrid.

Import JS ChatInterface Observe.

Context `{Host}.

Lemma nodes_El tag cls oc kids :
  nodes (El tag cls oc kids) = El tag cls oc kids :: nodes_in kids.
Proof. reflexivity. Qed.

Lemma tagged_app (t : string) (a b : list Html) :
  tagged t (a ++ b) = tagged t a ++ tagged t b.
Proof. unfold tagged, nodes_in. now rewrite flat_map_app, filter_app. Qed.

Lemma tagged_El (t tag cls : string) oc kids rest :
  tagged t (El tag cls oc kids :: rest)
  = (if (tag =? t)%string then [El tag cls oc kids] else [])
    ++ tagged t kids ++ tagged t rest.
Proof.
  unfold tagged, nodes_in. cbn [flat_map]. rewrite nodes_El.
  cbn [app filter has_tag]. rewrite filter_app.
  now destruct (tag =? t)%string.
Qed.

Lemma tagged_Text (t s : string) rest : tagged t (Text s :: rest) = tagged t rest.
Proof. reflexivity. Qed.

Lemma tagged_map_none {A : Type} (t : string) (f : A -> Html) (l : list A) :
  (forall a, tagged t [f a] = []) -> tagged t (map f l) = [].
Proof.
  intros F. induction l as [|a l IH]; [reflexivity|].
  change (map f (a :: l)) with ([f a] ++ map f l).
  now rewrite tagged_app, F, IH.
Qed.

Lemma tagged_mapi_self {A : Type} (t : string) (g : A -> nat -> Html)
    (l : list A) (i : nat) :
  (forall a j, tagged t [g a j] = [g a j]) -> tagged t (mapi g i l) = mapi g i l.
Proof.
  intros G. revert i. induction l as [|a l IH]; intros i; [reflexivity|].
  change (mapi g i (a :: l)) with ([g a i] ++ mapi g (S i) l).
  now rewrite tagged_app, G, IH.
Qed.

Lemma map_mapi {A B C : Type} (f : B -> C) (g : A -> nat -> B) (l : list A) (i : nat) :
  map f (mapi g i l) = mapi (fun a j => f (g a j)) i l.
Proof.
  revert i. induction l as [|a l IH]; intros i; cbn; [reflexivity | now rewrite IH].
Qed.

Lemma mapi_is_map {A B : Type} (g : A -> nat -> B) (f : A -> B) (l : list A)
    (i : nat) :
  (forall a j, g a j = f a) -> mapi g i l = map f l.
Proof.
  intros E. revert i.
  induction l as [|a l IH]; intros i; cbn; [reflexivity | now rewrite E, IH].
Qed.

(** Evaluate the comparisons of literal tags. *)
Ltac tag_eqb :=
  repeat match goal with
         | |- context [(?a =? ?b)%string] =>
             let v := eval vm_compute in (a =? b)%string in
             change (a =? b)%string with v
         end.

Ltac tagged_step :=
  first [ rewrite tagged_El; tag_eqb; cbn [app] | rewrite tagged_Text ].

(** The rows of the rendered table: the header row, then one row for each
    row of the data. *)
Lemma table_rows (row0 : Row) (rest : list Row) :
  exists header body,
    tagged "tr" (renderDataTable (row0 :: rest))
    = El "tr" "bg-gray-800/30" None header :: body
    /\ header
       = map (fun column =>
                El "th"
                  ("px-6 py-3 text-left text-xs font-semibold text-gray-200 uppercase tracking-wider "
                   ++ (if right_aligned
                            (fold_left (fun acc col =>
                               put acc col (getColumnType col (get row0 col)))
                               (Object_keys row0) []) column
                       then "text-right" else ""))%string
                  None [Text (replace_underscores column)])
           (Object_keys row0)
    /\ body
       = mapi (fun row i =>
                 El "tr" (if Nat.even i then "bg-transparent" else "bg-gray-800/10")%string
                   None
                   (map (fun column =>
                           El "td"
                             ("px-6 py-4 whitespace-nowrap text-sm "
                              ++ (if right_aligned
                                       (fold_left (fun acc col =>
                                          put acc col (getColumnType col (get row0 col)))
                                          (Object_keys row0) []) column
                                  then "text-right font-mono text-gray-200"
                                  else "text-gray-200"))%string
                             None [Text (formatValue (get row column) column)])
                      (Object_keys row0)))
           0 (row0 :: rest).
Proof.
  eexists. eexists. split; [|split; reflexivity].
  unfold renderDataTable, div.
  set (cts := fold_left _ _ _).
  do 6 tagged_step.
  rewrite (tagged_map_none "tr").
  2:{ intros c. tagged_step. now tagged_step. }
  cbn [app]. tagged_step.
  rewrite (tagged_mapi_self "tr").
  2:{ intros r j. tagged_step. rewrite (tagged_map_none "tr"); [reflexivity|].
      intros c. tagged_step. now tagged_step. }
  repeat tagged_step. cbn [mapi]. now rewrite !app_nil_r.
Qed.

(** Looking a column up among the column types gives the type computed for
    it, for every column that was put there. *)
Lemma at_key_fold (T : string -> string) (cols : list string)
    (init : list (string * string)) (col : string) :
  at_key (fold_left (fun acc c => put acc c (T c)) cols init) col
  = if existsb (String.eqb col) cols then Some (T col) else at_key init col.
Proof.
  revert init. induction cols as [|c cols IH]; intros init; [reflexivity|].
  cbn [fold_left existsb]. rewrite IH. unfold put. cbn [at_key].
  destruct (existsb (String.eqb col) cols); [now rewrite orb_true_r|].
  rewrite orb_false_r, (String.eqb_sym col c).
  destruct (c =? col)%string eqn:E; [|reflexivity].
  apply String.eqb_eq in E. now subst.
Qed.

Lemma right_aligned_spec (row0 : Row) (column : string) :
  In column (Object_keys row0) ->
  right_aligned
    (fold_left (fun acc col => put acc col (getColumnType col (get row0 col)))
       (Object_keys row0) []) column
  = aligned row0 column.
Proof.
  intros I. unfold right_aligned.
  rewrite (at_key_fold (fun c => getColumnType c (get row0 c))).
  assert (E : existsb (String.eqb column) (Object_keys row0) = true).
  { apply existsb_exists. exists column. split; [exact I | apply String.eqb_refl]. }
  rewrite E. unfold getColumnType, aligned.
  destruct (is_date_column column), (is_currency_column column),
    (is_number (get row0 column)); reflexivity.
Qed.

(** X4: in the data table a column is set to the right, in the header and
    in every row, exactly when its name is not a date name and it is a
    currency column or the first row has a number in it: the later rows
    have no say, whatever they hold in that column. *)
Theorem table_alignment (row0 : Row) (rest : list Row) :
  grid class_of (renderDataTable (row0 :: rest))
  = map (th_class row0) (Object_keys row0)
    :: map (fun _ => map (td_class row0) (Object_keys row0)) (row0 :: rest).
Proof.
  destruct (table_rows row0 rest) as [header [body [E [Eh Eb]]]].
  unfold grid. rewrite E, map_cons. cbn [children]. f_equal.
  - rewrite Eh, map_map. apply map_ext_in. intros c I.
    cbn [class_of]. unfold th_class. now rewrite right_aligned_spec.
  - rewrite Eb, map_mapi. apply mapi_is_map. intros r j. cbn [children].
    rewrite map_map. apply map_ext_in. intros c I.
    cbn [class_of]. unfold td_class. now rewrite right_aligned_spec.
Qed.

Lemma table_text_grid (row0 : Row) (rest : list Row) :
  grid cell_text (renderDataTable (row0 :: rest))
  = map replace_underscores (Object_keys row0)
    :: map (fun row => map (fun column => formatValue (get row column) column)
                         (Object_keys row0))
         (row0 :: rest).
Proof.
  destruct (table_rows row0 rest) as [header [body [E [Eh Eb]]]].
  unfold grid. rewrite E, map_cons. cbn [children]. f_equal.
  - rewrite Eh, map_map. reflexivity.
  - rewrite Eb, map_mapi. apply mapi_is_map. intros r j. cbn [children].
    now rewrite map_map.
Qed.

Lemma get_missing (row : Row) (column : string) :
  ~ In column (Object_keys row) -> get row column = inherited column.
Proof.
  induction row as [|[k v] row IH]; [reflexivity|]. cbn.
  intros N. destruct (k =? column)%string eqn:E.
  - apply String.eqb_eq in E. tauto.
  - apply IH. tauto.
Qed.

Lemma get_own (before after : Row) (column : string) (v : Value) :
  ~ In column (Object_keys before) ->
  get (before ++ (column, v) :: after) column = v.
Proof.
  induction before as [|[k w] before IH]; cbn; intros N.
  - now rewrite String.eqb_refl.
  - destruct (k =? column)%string eqn:E.
    + apply String.eqb_eq in E. tauto.
    + apply IH. tauto.
Qed.

Lemma inherited_names (column : string) :
  inherited column = VUndefined
  <-> ~ In column ("constructor" :: "__proto__" :: Object_prototype_methods)%string.
Proof.
  unfold inherited. cbn [In].
  destruct (column =? "constructor")%string eqn:C.
  { apply String.eqb_eq in C. subst column.
    split; [discriminate | intros N; tauto]. }
  destruct (column =? "__proto__")%string eqn:P.
  { apply String.eqb_eq in P. subst column.
    split; [discriminate | intros N; tauto]. }
  apply String.eqb_neq in C. apply String.eqb_neq in P.
  destruct (existsb (String.eqb column) Object_prototype_methods) eqn:M.
  - apply existsb_exists in M. destruct M as [x [I E]].
    apply String.eqb_eq in E. subst x.
    split; [discriminate | intros N; tauto].
  - split; [|reflexivity].
    intros _ [E | [E | I]]; [now symmetry in E | now symmetry in E |].
    assert (X : existsb (String.eqb column) Object_prototype_methods = true).
    { apply existsb_exists. exists column. split; [exact I | apply String.eqb_refl]. }
    congruence.
Qed.

(** X5: the data table shows a header with the keys of the first row,
    underscores as spaces, and one row for each row of the data, first row
    included, with one cell per key of the first row in that order: what
    the row gives under that key, formatted for the column.  A row that
    lacks the key gives what it inherits under that name: nothing, shown as
    "N/A", unless the name is that of a member of Object.prototype, whose
    text is then shown.  Keys of later rows that the first row does not
    have are not shown. *)
Theorem table_cells (row0 : Row) (rest : list Row) :
  grid cell_text (renderDataTable (row0 :: rest))
  = map replace_underscores (Object_keys row0)
    :: map (fun row => map (fun column => formatValue (get row column) column)
                         (Object_keys row0))
         (row0 :: rest)
  /\ (forall before after column v,
        ~ In column (Object_keys before) ->
        get (before ++ (column, v) :: after) column = v)
  /\ (forall row column,
        ~ In column (Object_keys row) -> get row column = inherited column)
  /\ (forall row column,
        ~ In column (Object_keys row) ->
        ~ In column ("constructor" :: "__proto__" :: Object_prototype_methods)%string ->
        formatValue (get row column) column = "N/A"%string)
  /\ (forall row column,
        ~ In column (Object_keys row) ->
        In column ("constructor" :: "__proto__" :: Object_prototype_methods)%string ->
        is_date_column column = false ->
        formatValue (get row column) column
        = if (column =? "__proto__")%string then "[object Object]"%string
          else Function_toString
                 (if (column =? "constructor")%string then "Object"%string
                  else column)).
Proof.
  split; [apply table_text_grid|].
  split; [apply get_own|].
  split; [apply get_missing|].
  split.
  - intros row column N M. rewrite get_missing by exact N.
    apply inherited_names in M. now rewrite M.
  - intros row column N M D. rewrite get_missing by exact N.
    unfold formatValue. rewrite D.
    assert (X : inherited column <> VUndefined).
    { intros E. apply inherited_names in E. contradiction. }
    unfold inherited in *.
    destruct (column =? "constructor")%string eqn:C.
    { apply String.eqb_eq in C. subst column.
      cbn. now destruct (is_currency_column "constructor"). }
    destruct (column =? "__proto__")%string.
    { cbn. now destruct (is_currency_column column). }
    destruct (existsb (String.eqb column) Object_prototype_methods);
      [|contradiction].
    cbn. now destruct (is_currency_column column).
Qed.

End TableGrid.

(* ================================================================== *)
(** * The actions of a rendered message *)
(* ================================================================== *)

Section Actions.

Import JS ChatInterface Observe.

Context `{Host}.

Lemma handlers_El tag cls oc kids :
  handlers (El tag cls oc kids)
  = match oc with Some x => [x] | None => [] end ++ handlers_in kids.
Proof.
  unfold handlers at 1. rewrite nodes_El. cbn [flat_map handler_of]. f_equal.
  unfold handlers_in, nodes_in.
  induction kids as [|k kids IH]; [reflexivity|].
  cbn [flat_map]. now rewrite flat_map_app, IH.
Qed.

Lemma handlers_Text (s : string) : handlers (Text s) = [].
Proof. reflexivity. Qed.

Lemma handlers_in_nil : handlers_in [] = [].
Proof. reflexivity. Qed.

Lemma handlers_in_cons (h : Html) (l : list Html) :
  handlers_in (h :: l) = handlers h ++ handlers_in l.
Proof. reflexivity. Qed.

Lemma handlers_in_app (a b : list Html) :
  handlers_in (a ++ b) = handlers_in a ++ handlers_in b.
Proof. apply flat_map_app. Qed.

Lemma handlers_in_map_none {A : Type} (f : A -> Html) (l : list A) :
  (forall a, handlers (f a) = []) -> handlers_in (map f l) = [].
Proof.
  intros F. induction l as [|a l IH]; [reflexivity|].
  cbn [map]. now rewrite handlers_in_cons, F, IH.
Qed.

Lemma handlers_in_mapi_none {A : Type} (g : A -> nat -> Html) (l : list A)
    (i : nat) :
  (forall a j, handlers (g a j) = []) -> handlers_in (mapi g i l) = [].
Proof.
  intros G. revert i. induction l as [|a l IH]; intros i; [reflexivity|].
  cbn [mapi]. now rewrite handlers_in_cons, G, IH.
Qed.

(** Through the elements whose children are spelled out. *)
Ltac walk :=
  repeat first
    [ rewrite handlers_El | rewrite handlers_Text | rewrite handlers_in_cons
    | rewrite handlers_in_nil | rewrite handlers_in_app
    | progress cbn [app] ].

Lemma handlers_block (r : bool * list string) : handlers (block r) = [].
Proof.
  unfold block. destruct (fst r); walk; [|reflexivity].
  apply handlers_in_map_none. intros item. now walk.
Qed.

Lemma handlers_content (text : option string) :
  handlers_in (child (processMessageContent text)) = [].
Proof.
  destruct text as [t|]; [|reflexivity].
  destruct t as [|c t]; [reflexivity|].
  rewrite processMessageContent_runs by discriminate.
  cbn [child]. apply handlers_in_map_none, handlers_block.
Qed.

Lemma handlers_text_block (text : option string) :
  handlers (text_block text) = [].
Proof. unfold text_block, div. walk. now rewrite handlers_content. Qed.

Lemma handlers_table (row0 : Row) (rest : list Row) :
  handlers_in (renderDataTable (row0 :: rest)) = [OnVisualizeData (row0 :: rest)].
Proof.
  unfold renderDataTable, div. set (cts := fold_left _ _ _). walk.
  rewrite handlers_in_map_none by (intros c; now walk).
  rewrite handlers_in_mapi_none; [reflexivity|].
  intros r j. walk. rewrite handlers_in_map_none; [reflexivity|].
  intros c. now walk.
Qed.

Lemma handlers_of_message (message : Message) :
  handlers (renderAssistantMessage message)
  = if type_is message "dataset_summary" then []
    else if type_is message "no_dataset" then [OnUploadClick]
    else if is_nonData message then []
    else match data message with
         | Some (row0 :: rest) => [OnVisualizeData (row0 :: rest)]
         | _ => []
         end.
Proof.
  pose proof (handlers_content (explanation message)) as C.
  pose proof (handlers_text_block (explanation message)) as T1.
  pose proof (handlers_text_block (or_else (summary message) (explanation message)))
    as T2.
  unfold renderAssistantMessage, sql_block, div, svg.
  destruct (type_is message "dataset_summary").
  - walk.
    destruct (summary message) as [s|]; [destruct (nonempty s)|];
      destruct (truthy (explanation message)); walk; rewrite ?C; reflexivity.
  - destruct (type_is message "no_dataset"); [now walk|].
    destruct (is_nonData message).
    + walk. destruct (truthy (explanation message)); walk; rewrite ?T1; reflexivity.
    + walk.
      destruct (truthy (or_else (summary message) (explanation message)));
        walk; rewrite ?T2; cbn [app].
      * destruct (query message) as [q|]; [destruct (sql_guard (Some q))|]; walk;
          (destruct (data message) as [[|row0 rest]|]; cbn [nonnil]; walk;
           rewrite ?handlers_table; reflexivity).
      * destruct (query message) as [q|]; [destruct (sql_guard (Some q))|]; walk;
          (destruct (data message) as [[|row0 rest]|]; cbn [nonnil]; walk;
           rewrite ?handlers_table; reflexivity).
Qed.

(** X6: the only actions a rendered assistant message offers are the
    Upload button of a no_dataset message and the Visualize button of a
    data answer with rows, and that button hands over the rows of the
    message as they are; every other message offers no action. *)
Theorem message_actions (message : Message) :
  handlers (renderAssistantMessage message)
  = if type_is message "dataset_summary" then []
    else if type_is message "no_dataset" then [OnUploadClick]
    else if is_nonData message then []
    else match data message with
         | Some (row0 :: rest) => [OnVisualizeData (row0 :: rest)]
         | _ => []
         end.
Proof. apply handlers_of_message. Qed.

End Actions.

(* ================================================================== *)
(** * A conversation: submissions one after another *)
(* ================================================================== *)

Section Conversation.

Import JS ChatInterface.


(** X8: when the user goes back to the home screen while a request is
    pending, the log is emptied; the answer that arrives afterwards is
    still appended, and is then the only turn of the log: the question it
    answers is no longer there. *)
Theorem late_answer_after_back (now later : N) (s : State)
    (r : Settled ChatResponse) :
  trim (input s) <> ""%string ->
  exists s0 request a,
    handleSubmit_begin now s = (s0, Some request)
    /\ messages (handleBackToHome s0) = []
    /\ isLoading (handleBackToHome s0) = true
    /\ role a = assistant
    /\ messages (handleSubmit_resume App.onQueryExecute later r (handleBackToHome s0))
       = [a].
Proof.
  intros T. destruct (begin_sends now s T) as [s0 [B [_ _]]].
  destruct (resume_appends_one App.onQueryExecute later r (handleBackToHome s0)
              (fun _ => eq_refl)) as [a [Ra [Ma _]]].
  exists s0, (trim (input s), history (messages s)), a.
  split; [exact B|]. split; [reflexivity|]. split.
  - unfold handleSubmit_begin in B. apply nonempty_spec in T. rewrite T in B.
    cbn [negb] in B. injection B as <-. reflexivity.
  - split; [exact Ra | exact Ma].
Qed.

Lemma slice_last_app {A : Type} (n : nat) (l t : list A) :
  List.length t <= n ->
  slice_last n (l ++ t) = slice_last (n - List.length t) l ++ t.
Proof.
  intros L. unfold slice_last. rewrite length_app, skipn_app.
  replace (List.length l + List.length t - n - List.length l) with 0 by lia.
  cbn [skipn]. f_equal. f_equal. lia.
Qed.

(** The log after a submission as App mounts the chat. *)
Lemma handleSubmit_log
    (sendMessage : string -> list HistoryEntry -> Settled ChatResponse)
    (now later : N) (s : State) :
  trim (input s) <> ""%string ->
  messages (handleSubmit sendMessage App.onQueryExecute now later s)
  = messages s
    ++ [userMessage now (input s);
        match sendMessage (trim (input s)) (history (messages s)) with
        | Fulfilled response => assistantMessage later response
        | Rejected _ => errorMessage later
        end].
Proof.
  intros T. destruct (begin_sends now s T) as [s0 [B [M _]]].
  unfold handleSubmit. rewrite B.
  unfold handleSubmit_resume, handleSubmit_response.
  destruct (sendMessage _ _) as [response | reason].
  - destruct (resp_sql response) as [sql|]; [destruct (nonempty sql)|];
      cbn; rewrite M, <- app_assoc; reflexivity.
  - cbn. rewrite M, <- app_assoc. reflexivity.
Qed.

(** X9: the history of the request that follows a submission.  It ends
    with what the user typed, trimmed, and then with what the exchange left
    as assistant text: the fixed failure message when the send was
    rejected; the summary, else the explanation, of the answer when one of
    them is present; nothing when neither is.  Before these come the
    entries of the last eight earlier turns: the two turns of the exchange
    take two of the ten places even when the answer brings no entry. *)
Theorem history_after_submission
    (sendMessage : string -> list HistoryEntry -> Settled ChatResponse)
    (now later : N) (s : State) :
  trim (input s) <> ""%string ->
  history (messages (handleSubmit sendMessage App.onQueryExecute now later s))
  = filter contributes (map history_entry (slice_last 8 (messages s)))
    ++ {| h_user := Some (trim (input s)); h_assistant := None |}
    :: match sendMessage (trim (input s)) (history (messages s)) with
       | Rejected _ =>
           [ {| h_user := None;
                h_assistant :=
                  Some "Sorry, I encountered an error. Please try again."%string |} ]
       | Fulfilled response =>
           if truthy (or_else (resp_summary response) (resp_explanation response))
           then [ {| h_user := None;
                     h_assistant :=
                       or_else (resp_summary response) (resp_explanation response) |} ]
           else []
       end.
Proof.
  intros T. rewrite (handleSubmit_log sendMessage now later s T).
  unfold history. rewrite slice_last_app by (cbn; lia).
  cbn [List.length Nat.sub]. rewrite map_app, filter_app. f_equal.
  apply nonempty_spec in T.
  cbn [map filter]. unfold contributes at 1.
  cbn [history_entry userMessage role content Role_eqb h_user h_assistant truthy].
  rewrite T. cbn [orb]. f_equal.
  destruct (sendMessage _ _) as [response | reason]; [|reflexivity].
  unfold contributes, history_entry.
  cbn [assistantMessage role content summary explanation Role_eqb h_user
       h_assistant truthy orb].
  generalize (or_else (resp_summary response) (resp_explanation response)) as x.
  intros x. unfold or_else. destruct (truthy x) eqn:E; [now rewrite E|].
  reflexivity.
Qed.

End Conversation.

(* ================================================================== *)
(** * services/api and the page *)
(* ================================================================== *)

Section Services.

Import JS.

(** sendMessage sends one POST to /chat and nothing else.  A string
    payload is sent as {message: payload}, which is what the object payload
    with that message and no history sends.  What the request settles to is
    handed on as it is: the data of the response, or the very error of the
    rejection, after one line on the console. *)
Lemma sendMessage_passes_on (srv : Api.Server) (payload : Api.Payload) :
  (exists message history,
     Api.requests (fst (Api.sendMessage srv payload)) = [Api.PostChat message history]
     /\ snd (Api.sendMessage srv payload) = Api.chat srv message history
     /\ match payload with
        | Api.Plain text => message = text /\ history = None
        | Api.Structured m h => message = m /\ history = h
        end
     /\ Api.console_lines (fst (Api.sendMessage srv payload))
        = match Api.chat srv message history with
          | Api.Ok _ => []
          | Api.Err e => [Api.ConsoleError "Error sending message:" e]
          end)
  /\ (forall text,
        Api.sendMessage srv (Api.Plain text)
        = Api.sendMessage srv (Api.Structured text None)).
Proof.
  split; [|reflexivity].
  destruct payload as [text | m h]; cbn [Api.sendMessage].
  - exists text, None. destruct (Api.chat srv text None); repeat split.
  - exists m, h. destruct (Api.chat srv m h); repeat split.
Qed.

(** X10: of the five calls of services/api, checkHealth alone never
    rejects: it answers true exactly when the service answered with the
    status "healthy", and false for any other answer and for every
    failure.  The other four hand on what their request settles to: the
    data when it succeeds, the same error when it fails.  Each of the five
    sends its one request and, exactly when the request failed, writes one
    line to the console after it: its own label and the error. *)
Theorem api_error_policy (srv : Api.Server) :
  (snd (Api.checkHealth srv)
   = Api.Ok match Api.health srv with
            | Api.Ok (Some t) => (t =? "healthy")%string
            | _ => false
            end)
  /\ (forall e, Api.dataset srv = Api.Err e <->
                snd (Api.getCurrentDataset srv) = Api.Err e)
  /\ (forall e, Api.reset srv = Api.Err e <-> snd (Api.resetDatabase srv) = Api.Err e)
  /\ (forall f e, Api.upload srv f = Api.Err e <->
                  snd (Api.uploadDataset srv f) = Api.Err e)
  /\ (forall m h e, Api.chat srv m h = Api.Err e <->
                    snd (Api.sendMessage srv (Api.Structured m h)) = Api.Err e)
  /\ Api.requests (fst (Api.checkHealth srv)) = [Api.GetHealth]
  /\ Api.requests (fst (Api.getCurrentDataset srv)) = [Api.GetDataset]
  /\ Api.requests (fst (Api.resetDatabase srv)) = [Api.PostReset]
  /\ (forall f, Api.requests (fst (Api.uploadDataset srv f)) = [Api.PostUpload f])
  /\ (List.length (Api.console_lines (fst (Api.checkHealth srv)))
      = match Api.health srv with Api.Ok _ => 0 | Api.Err _ => 1 end)
  /\ (List.length (Api.console_lines (fst (Api.getCurrentDataset srv)))
      = match Api.dataset srv with Api.Ok _ => 0 | Api.Err _ => 1 end)
  /\ snd (Api.getCurrentDataset srv) = Api.dataset srv
  /\ (forall f, snd (Api.uploadDataset srv f) = Api.upload srv f)
  /\ (forall m h, snd (Api.sendMessage srv (Api.Structured m h)) = Api.chat srv m h)
  /\ (forall t, snd (Api.sendMessage srv (Api.Plain t)) = Api.chat srv t None)
  /\ (forall e, snd (Api.resetDatabase srv) = Api.Err e <-> Api.reset srv = Api.Err e)
  /\ fst (Api.checkHealth srv)
     = Api.GetHealth
       :: match Api.health srv with
          | Api.Ok _ => []
          | Api.Err e => [Api.ConsoleError "Error checking health:" e]
          end
  /\ fst (Api.getCurrentDataset srv)
     = Api.GetDataset
       :: match Api.dataset srv with
          | Api.Ok _ => []
          | Api.Err e => [Api.ConsoleError "Error getting dataset:" e]
          end
  /\ fst (Api.resetDatabase srv)
     = Api.PostReset
       :: match Api.reset srv with
          | Api.Ok _ => []
          | Api.Err e => [Api.ConsoleError "Error resetting database:" e]
          end
  /\ (forall f,
        fst (Api.uploadDataset srv f)
        = Api.PostUpload f
          :: match Api.upload srv f with
             | Api.Ok _ => []
             | Api.Err e => [Api.ConsoleError "Error uploading dataset:" e]
             end)
  /\ (forall m h,
        fst (Api.sendMessage srv (Api.Structured m h))
        = Api.PostChat m h
          :: match Api.chat srv m h with
             | Api.Ok _ => []
             | Api.Err e => [Api.ConsoleError "Error sending message:" e]
             end)
  /\ (forall t,
        fst (Api.sendMessage srv (Api.Plain t))
        = Api.PostChat t None
          :: match Api.chat srv t None with
             | Api.Ok _ => []
             | Api.Err e => [Api.ConsoleError "Error sending message:" e]
             end).
Proof.
  unfold Api.checkHealth, Api.getCurrentDataset, Api.resetDatabase,
    Api.uploadDataset, Api.sendMessage.
  split; [destruct (Api.health srv) as [[t|]|]; reflexivity|].
  split; [intros e; destruct (Api.dataset srv); cbn; split; congruence|].
  split.
  { intros e; destruct (Api.reset srv) as [[]|]; cbn; split; congruence. }
  split; [intros f e; destruct (Api.upload srv f); cbn; split; congruence|].
  split; [intros m h e; destruct (Api.chat srv m h); cbn; split; congruence|].
  split; [destruct (Api.health srv); reflexivity|].
  split; [destruct (Api.dataset srv); reflexivity|].
  split; [destruct (Api.reset srv); reflexivity|].
  split; [intros f; destruct (Api.upload srv f); reflexivity|].
  split; [destruct (Api.health srv); reflexivity|].
  split; [destruct (Api.dataset srv); reflexivity|].
  split; [destruct (Api.dataset srv); reflexivity|].
  split; [intros f; destruct (Api.upload srv f); reflexivity|].
  split; [intros m h; destruct (Api.chat srv m h); reflexivity|].
  split; [intros t; destruct (Api.chat srv t None); reflexivity|].
  split.
  { intros e; destruct (Api.reset srv) as [[]|]; cbn; split; congruence. }
  split; [destruct (Api.health srv); reflexivity|].
  split; [destruct (Api.dataset srv); reflexivity|].
  split; [destruct (Api.reset srv); reflexivity|].
  split; [intros f; destruct (Api.upload srv f); reflexivity|].
  split; [intros m h; destruct (Api.chat srv m h); reflexivity|].
  intros t; destruct (Api.chat srv t None); reflexivity.
Qed.

(** X11: loading the current dataset when the page is mounted always takes
    the loading flag down.  A dataset that arrives becomes the dataset of
    the page and nothing is written to the console.  On a failure the
    dataset stays what it was; the page writes a line of its own unless the
    status of the failure is 404, while the line of services/api is written
    in every case: one console line for a 404, two for any other failure. *)
Theorem loadDataset_outcomes (srv : Api.Server) (s : AppShell.State) :
  AppShell.isLoading (AppShell.loadDataset srv s) = false
  /\ (forall data, Api.dataset srv = Api.Ok data ->
        AppShell.dataset (AppShell.loadDataset srv s) = Some data
        /\ Api.console_lines (AppShell.console (AppShell.loadDataset srv s))
           = Api.console_lines (AppShell.console s))
  /\ (forall e, Api.dataset srv = Api.Err e ->
        AppShell.dataset (AppShell.loadDataset srv s) = AppShell.dataset s
        /\ List.length (Api.console_lines (AppShell.console (AppShell.loadDataset srv s)))
           = List.length (Api.console_lines (AppShell.console s))
             + match Api.status e with Some 404%Z => 1 | _ => 2 end).
Proof.
  unfold AppShell.loadDataset, Api.getCurrentDataset.
  split; [destruct (Api.dataset srv); reflexivity|].
  split.
  - intros data E. rewrite E. cbn. unfold Api.console_lines.
    rewrite filter_app. cbn. now rewrite app_nil_r.
  - intros e E. rewrite E. cbn. split; [reflexivity|].
    unfold Api.console_lines. rewrite filter_app, length_app. f_equal.
    destruct (Api.status e) as [[|[p|p|]|]|]; try reflexivity;
      repeat (destruct p as [p|p|]; try reflexivity).
Qed.

End Services.

(* ================================================================== *)
(** * From the chat to the network, and from a message to the page *)
(* ================================================================== *)

Section EndToEnd.

Import JS.

Context `{Host}.

(** X12: one submission of a text that is not blank sends exactly one
    request, a POST to /chat with the trimmed text as message and the
    history of the log as it was before the submission; a blank text sends
    nothing.  When the request fails, the error is written to the console
    twice, once by services/api and once by the handler, and the log gets
    the user turn and one failure turn. *)
Theorem submission_traffic (srv : Api.Server) (now later : N)
    (s : ChatInterface.State) :
  (trim (ChatInterface.input s) <> ""%string ->
     Api.requests (Wiring.traffic srv now s)
     = [Api.PostChat (trim (ChatInterface.input s))
          (Some (ChatInterface.history (ChatInterface.messages s)))]
     /\ (forall e,
           Api.chat srv (trim (ChatInterface.input s))
             (Some (ChatInterface.history (ChatInterface.messages s)))
           = Api.Err e ->
           Api.console_lines (Wiring.traffic srv now s)
           = [Api.ConsoleError "Error sending message:" e]
           /\ ChatInterface.effects (Wiring.submit srv now later s)
              = ChatInterface.effects s
                ++ [ChatInterface.MessagesChange true;
                    ChatInterface.SendMessage (trim (ChatInterface.input s))
                      (ChatInterface.history (ChatInterface.messages s));
                    ChatInterface.ConsoleError (Wiring.reason_of e)]
           /\ ChatInterface.messages (Wiring.submit srv now later s)
              = ChatInterface.messages s
                ++ [ChatInterface.userMessage now (ChatInterface.input s);
                    ChatInterface.errorMessage later]))
  /\ (Spec.blank (ChatInterface.input s) ->
        Wiring.traffic srv now s = []
        /\ Wiring.submit srv now later s = s).
Proof.
  split.
  - intros T. destruct (begin_sends now s T) as [s0 [B [M E]]].
    unfold Wiring.traffic. rewrite B. cbn [snd].
    unfold Api.sendMessage.
    destruct (Api.chat srv _ _) as [response | e0] eqn:C.
    + split; [reflexivity|]. intros e D. discriminate D.
    + split; [reflexivity|]. intros e D. injection D as ->.
      split; [reflexivity|].
      unfold Wiring.submit, ChatInterface.handleSubmit. rewrite B.
      unfold ChatInterface.handleSubmit_resume, ChatInterface.handleSubmit_response,
        Wiring.sendMessage, Api.sendMessage.
      rewrite C. cbn. rewrite M, E, <- !app_assoc. split; reflexivity.
  - unfold Spec.blank. intros B.
    assert (G : ChatInterface.handleSubmit_begin now s = (s, None)).
    { unfold ChatInterface.handleSubmit_begin. now rewrite B. }
    unfold Wiring.traffic, Wiring.submit, ChatInterface.handleSubmit.
    rewrite G. split; reflexivity.
Qed.

(** X13: pressing the Visualize button of a rendered data answer opens the
    visualization panel on the rows of that answer: the panel is mounted
    with the very row set the table was drawn from, its columns are the keys
    of the first row, which are also the columns of the table header; after
    the panel is closed nothing is mounted, and the rows are kept. *)
Theorem visualize_opens_panel (message : ChatInterface.Message)
    (row0 : Row) (rest : list Row) (s : AppShell.State) :
  Spec.data_answer (ChatInterface.type message) ->
  ChatInterface.data message = Some (row0 :: rest) ->
  Observe.handlers (ChatInterface.renderAssistantMessage message)
  = [OnVisualizeData (row0 :: rest)]
  /\ (forall h,
        In h (Observe.handlers (ChatInterface.renderAssistantMessage message)) ->
        AppShell.panel (AppShell.dispatch h s) = Some (row0 :: rest)
        /\ AppShell.panel (AppShell.handleCloseVisualization (AppShell.dispatch h s))
           = None
        /\ AppShell.lastData
             (AppShell.handleCloseVisualization (AppShell.dispatch h s))
           = Some (row0 :: rest))
  /\ VisualizationPanel.columns (row0 :: rest) = Some (Object_keys row0)
  /\ hd [] (Observe.grid Observe.cell_text
              (ChatInterface.renderDataTable (row0 :: rest)))
     = map replace_underscores (Object_keys row0).
Proof.
  intros D E. destruct (data_answer_path message D) as [P1 [P2 P3]].
  assert (A : Observe.handlers (ChatInterface.renderAssistantMessage message)
              = [OnVisualizeData (row0 :: rest)]).
  { rewrite handlers_of_message, P1, P2, P3, E. reflexivity. }
  split; [exact A|]. split.
  - intros h I. rewrite A in I. destruct I as [<- | []]. repeat split.
  - split; [reflexivity|].
    rewrite table_text_grid. reflexivity.
Qed.

(** X14: what an upload does to the page.  An upload that succeeds leaves
    the page with the new dataset in place of the old one and the success
    banner up; an upload that fails leaves the dataset as it was and the
    banner down; and choosing a CSV file takes the banner down. *)
Theorem upload_reaches_page (uploadDataset : DatasetUpload.File -> DatasetUpload.Uploaded)
    (u : DatasetUpload.State) (f : DatasetUpload.File) (s : AppShell.State) :
  DatasetUpload.file u = Some f ->
  let after :=
    fold_left (fun st e => AppShell.uploaded e st)
      (UploadFlow.added u (DatasetUpload.handleSubmit uploadDataset u)) s in
  match uploadDataset f with
  | DatasetUpload.UploadOk dataset =>
      AppShell.dataset after = Some dataset /\ AppShell.uploadSuccess after = true
  | DatasetUpload.UploadFailed _ _ =>
      AppShell.dataset after = AppShell.dataset s
      /\ AppShell.uploadSuccess after = false
  end
  /\ (endsWith (DatasetUpload.file_name f) ".csv" = true ->
      AppShell.uploadSuccess
        (fold_left (fun st e => AppShell.uploaded e st)
           (UploadFlow.added u (DatasetUpload.handleFile f u)) s) = false).
Proof.
  intros F after. subst after. unfold UploadFlow.added, DatasetUpload.handleSubmit.
  rewrite F. split.
  - destruct (uploadDataset f) as [dataset | detail message];
      cbn [DatasetUpload.effects]; rewrite skipn_app, skipn_all, Nat.sub_diag;
      cbn; split; reflexivity.
  - intros C. unfold DatasetUpload.handleFile. rewrite C.
    cbn [negb DatasetUpload.effects].
    rewrite skipn_app, skipn_all, Nat.sub_diag. reflexivity.
Qed.

End EndToEnd.

(* ================================================================== *)
(** * Uploading *)
(* ================================================================== *)

Section Uploading.

Import JS DatasetUpload.

(** X15: refusing a file that is not a CSV does not undo an earlier choice:
    the CSV chosen before stays chosen beside the error message, and a
    Submit that follows uploads that earlier file. *)
Theorem refused_file_keeps_choice (uploadDataset : File -> Uploaded)
    (chosen other : File) (s : State) :
  file s = Some chosen ->
  ~ Spec.ends_in (file_name other) ".csv" ->
  file (handleFile other s) = Some chosen
  /\ error (handleFile other s) = Some "Please upload a CSV file"%string
  /\ uploads (effects (handleSubmit uploadDataset (handleFile other s)))
     = uploads (effects s) ++ [chosen].
Proof.
  intros F N.
  assert (E : endsWith (file_name other) ".csv" = false).
  { apply not_true_is_false. intros E. apply N. now apply endsWith_spec. }
  unfold handleFile. rewrite E. cbn [negb file error].
  split; [exact F|]. split; [reflexivity|].
  unfold handleSubmit. cbn [file effects isUploading dragActive]. rewrite F.
  destruct (uploadDataset chosen); cbn [effects]; rewrite uploads_app; reflexivity.
Qed.

(** X16: an upload that fails always leaves an error message that is not
    empty: the detail of the response when it has one, else the message of
    the error when it has one, else "Failed to upload dataset".  The file
    stays chosen and the uploading flag is down. *)
Theorem failed_upload_shows_error (uploadDataset : File -> Uploaded)
    (f : File) (detail message : option string) (s : State) :
  file s = Some f ->
  uploadDataset f = UploadFailed detail message ->
  Spec.present (error (handleSubmit uploadDataset s))
  /\ (Spec.present detail -> error (handleSubmit uploadDataset s) = detail)
  /\ (~ Spec.present detail -> Spec.present message ->
      error (handleSubmit uploadDataset s) = message)
  /\ (~ Spec.present detail -> ~ Spec.present message ->
      error (handleSubmit uploadDataset s) = Some "Failed to upload dataset"%string)
  /\ file (handleSubmit uploadDataset s) = Some f
  /\ isUploading (handleSubmit uploadDataset s) = false.
Proof.
  intros F U. unfold handleSubmit. rewrite F, U. cbn [error file isUploading].
  assert (P : Spec.present (Some "Failed to upload dataset"%string)).
  { eexists. split; [reflexivity | discriminate]. }
  split.
  - apply truthy_spec. unfold or_else.
    destruct (truthy detail) eqn:D; [now rewrite D|].
    destruct (truthy message) eqn:M; [now rewrite M|]. reflexivity.
  - split; [intros D; rewrite (or_else_present detail) by exact D;
            now apply or_else_present|].
    split; [intros D M; rewrite (or_else_absent detail) by exact D;
            now apply or_else_present|].
    split; [|split; reflexivity].
    intros D M. rewrite (or_else_absent detail) by exact D.
    now apply or_else_absent.
Qed.

End Uploading.

(* ================================================================== *)
(** * The charts *)
(* ================================================================== *)

Section Charts.

Import JS ChartPanel.

(** X18: the effect that picks the axes never replaces an axis that is
    already chosen, whatever the new rows are; it fills an axis that is not
    chosen with the first categorical column (X) or the first numeric
    column (Y) of the rows, when there is one; it leaves the chart type
    alone, does nothing for an empty row set, and running it again changes
    nothing. *)
Theorem initAxes_fills_unset_axes (data : list Row) (s : Selection) :
  initAxes data (initAxes data s) = initAxes data s
  /\ chartType (initAxes data s) = chartType s
  /\ (selectedXAxis s <> ""%string ->
      selectedXAxis (initAxes data s) = selectedXAxis s)
  /\ (selectedYAxis s <> ""%string ->
      selectedYAxis (initAxes data s) = selectedYAxis s)
  /\ (forall c cs, VisualizationPanel.categoricalColumns data = Some (c :: cs) ->
        selectedXAxis s = ""%string -> selectedXAxis (initAxes data s) = c)
  /\ (forall c cs, VisualizationPanel.numericColumns data = Some (c :: cs) ->
        selectedYAxis s = ""%string -> selectedYAxis (initAxes data s) = c)
  /\ initAxes [] s = s.
Proof.
  unfold initAxes.
  destruct data as [|row0 rest]; cbn [VisualizationPanel.categoricalColumns
                                      VisualizationPanel.numericColumns].
  { repeat split; try reflexivity; intros; discriminate. }
  set (cats := filter _ _). set (nums := filter _ _).
  destruct s as [ct x y]. cbn [chartType selectedXAxis selectedYAxis].
  split.
  { f_equal.
    - destruct cats as [|c cs]; [reflexivity|].
      destruct (nonempty x) eqn:E; [now rewrite E|].
      now destruct (nonempty c).
    - destruct nums as [|c cs]; [reflexivity|].
      destruct (nonempty y) eqn:E; [now rewrite E|].
      now destruct (nonempty c). }
  split; [reflexivity|].
  split.
  { intros N. apply nonempty_spec in N. rewrite N. now destruct cats. }
  split.
  { intros N. apply nonempty_spec in N. rewrite N. now destruct nums. }
  split.
  { intros c cs E X. injection E as ->. now subst x. }
  split; [|reflexivity].
  intros c cs E Y. injection E as ->. now subst y.
Qed.

Lemma mapi_keeps_length {A B : Type} (f : A -> nat -> B) (i : nat) (l : list A) :
  List.length (ChatInterface.mapi f i l) = List.length l.
Proof.
  revert i. induction l as [|a l IH]; intros i; cbn; [reflexivity|].
  now rewrite IH.
Qed.

Lemma firstn3_cases {A : Type} (l : list A) :
  firstn 3 l = [] \/ (exists a, firstn 3 l = [a])
  \/ (exists a b, firstn 3 l = [a; b]) \/ (exists a b c, firstn 3 l = [a; b; c]).
Proof.
  destruct l as [|a [|b [|c l]]]; cbn.
  - now left.
  - right; left. now exists a.
  - right; right; left. now exists a, b.
  - right; right; right. now exists a, b, c.
Qed.

(** X19: what the charts draw.  The bar, line, area and radar charts draw
    the first three numeric columns, in their order, and no more, whatever
    Y axis is selected: the selection does not reach them.  The scatter
    chart has a series for each of these columns too, but a series gets the
    column as its name only: every one of them is given all the rows and
    no data key, and is placed by the selected X and Y axes.  The pie, donut
    and radial bar charts have no series of the numeric columns: they draw
    the selected Y axis.  The series of a chart have different colours,
    the first colours of the palette in its order. *)
Theorem series_are_first_three (row0 : Row) (rest : list Row) (s : Selection) :
  exists ns chart,
    VisualizationPanel.numericColumns (row0 :: rest) = Some ns
    /\ renderChart s (row0 :: rest) = Some chart
    /\ match chartType s with
       | bar | line | area =>
           map dataKey_of (series chart) = map Some (firstn 3 ns)
           /\ chartData chart = Some (row0 :: rest)
           /\ (forall y,
                 renderChart {| chartType := chartType s;
                                selectedXAxis := selectedXAxis s;
                                selectedYAxis := y |} (row0 :: rest)
                 = Some chart)
           /\ children chart
              = XAxis (selectedXAxis s) :: YAxis None :: series chart
       | radar =>
           map dataKey_of (series chart) = map Some (firstn 3 ns)
           /\ map name_of (series chart) = map Some (firstn 3 ns)
           /\ chartData chart = Some (row0 :: rest)
           /\ (forall y,
                 renderChart {| chartType := chartType s;
                                selectedXAxis := selectedXAxis s;
                                selectedYAxis := y |} (row0 :: rest)
                 = Some chart)
           /\ children chart = PolarAngleAxis (selectedXAxis s) :: series chart
       | scatter =>
           map dataKey_of (series chart) = map (fun _ => None) (firstn 3 ns)
           /\ map name_of (series chart) = map Some (firstn 3 ns)
           /\ (forall e, In e (series chart) -> data_of e = Some (row0 :: rest))
           /\ children chart
              = XAxis (selectedXAxis s) :: YAxis (Some (selectedYAxis s))
                :: series chart
       | pie | donut | radialBar =>
           series chart = []
           /\ map dataKey_of (children chart) = [Some (selectedYAxis s)]
       end
    /\ List.length (series chart)
       = match chartType s with
         | pie | donut | radialBar => 0
         | _ => Nat.min 3 (List.length ns)
         end
    /\ map colour_of (series chart) = firstn (List.length (series chart)) COLORS
    /\ NoDup (map colour_of (series chart)).
Proof.
  unfold renderChart. cbn [VisualizationPanel.numericColumns].
  set (ns := filter _ _). exists ns. eexists. split; [reflexivity|].
  split; [reflexivity|].
  assert (L : List.length (firstn 3 ns) = Nat.min 3 (List.length ns))
    by apply length_firstn.
  destruct s as [ct x y]. cbn [chartType selectedXAxis selectedYAxis].
  destruct ct;
    unfold series, perColumn; cbn [children filter is_series chartData];
    rewrite <- ?L;
    destruct (firstn3_cases ns) as [E | [[a E] | [[a [b E]] | [a [b [c E]]]]]];
    rewrite ?E; cbn;
    repeat split; try reflexivity; try tauto;
    try (repeat constructor; cbn; intuition discriminate);
    try (intros e I; repeat destruct I as [<- | I]; try reflexivity; now destruct I).
Qed.

Lemma cells_seq (data : list Row) (i : nat) :
  ChatInterface.mapi (fun (_ : Row) index => color index) i data
  = map color (seq i (List.length data)).
Proof.
  revert i. induction data as [|r data IH]; intros i; cbn; [reflexivity|].
  now rewrite IH.
Qed.

(** X20: the pie and donut charts draw one slice per row, keyed by the
    selected Y axis and named by the selected X axis; slice number i is
    given the colour COLORS[i % 6], so the colours start again after six
    and the slices have different colours exactly when there are at most
    six rows. *)
Theorem slice_colours_repeat_after_six (data : list Row) (row0 : Row)
    (rest : list Row) (x y : string) :
  List.length (cells data) = List.length data
  /\ (forall i, color (i + 6) = color i)
  /\ (NoDup (cells data) <-> List.length data <= 6)
  /\ (forall i, i < List.length data ->
        nth_error (cells data) i = nth_error COLORS (i mod 6))
  /\ renderChart {| chartType := pie; selectedXAxis := x; selectedYAxis := y |}
       (row0 :: rest)
     = Some {| chartData := None;
               children := [Pie (row0 :: rest) y x false (cells (row0 :: rest))] |}
  /\ renderChart {| chartType := donut; selectedXAxis := x; selectedYAxis := y |}
       (row0 :: rest)
     = Some {| chartData := None;
               children := [Pie (row0 :: rest) y x true (cells (row0 :: rest))] |}.
Proof.
  split; [|split; [|split; [|split; [|split; reflexivity]]]];
    unfold cells; rewrite ?cells_seq.
  all: cycle 1.
  - intros i. unfold color. cbn [List.length COLORS].
    now rewrite Nat.Div0.add_mod, Nat.Div0.mod_same, Nat.add_0_r,
      Nat.Div0.mod_mod.
  - split.
    + intros D. destruct (Nat.le_gt_cases (List.length data) 6) as [L | G];
        [exact L | exfalso].
      assert (E : seq 0 (List.length data)
                  = seq 0 6 ++ [6] ++ seq 7 (List.length data - 7)).
      { replace (List.length data) with (6 + (1 + (List.length data - 7))) at 1
          by lia.
        now rewrite !seq_app. }
      rewrite E, !map_app in D. cbn in D.
      inversion D as [|? ? N _]. apply N. cbn. tauto.
    + intros L. remember (List.length data) as n eqn:E. clear E data.
      do 7 (destruct n as [|n];
            [cbn; repeat constructor; cbn; intuition discriminate|]).
      lia.
  - intros i L. rewrite nth_error_map, nth_error_seq.
    apply Nat.ltb_lt in L. rewrite L. cbn [option_map Nat.add].
    unfold color. cbn [List.length COLORS].
    pose proof (Nat.mod_upper_bound i 6 ltac:(lia)) as B.
    symmetry. apply nth_error_nth'. exact B.
  - now rewrite length_map, length_seq.
Qed.

End Charts.



(* ================================================================== *)
(** * The route and the pool *)
(* ================================================================== *)

Section RouteDiscipline.

Import JS Database ExecuteRoute.

(** X21: POST /execute answers 400 exactly when sql is falsy (absent, null,
    false, zero or the empty string), and then asks nothing of the pool.
    Otherwise it asks for one connection; when that fails it answers 500
    without a query; when it is obtained it runs the one statement of the
    request and releases the connection, whatever the statement did, and
    answers 200 exactly when the statement gave a result set: a statement
    that failed, and one that succeeded without a result set, are both
    answered 500. *)
Theorem post_execute_discipline (pool : Pool) (startTime endTime : Z)
    (sql : Value) :
  (status (response (post_execute pool startTime endTime sql)) = 400%Z
   <-> falsy sql = true)
  /\ (falsy sql = true <->
      sql = VUndefined \/ sql = VNull \/ sql = VBoolean false
      \/ sql = VString ""%string \/ sql = VNumber S754_nan
      \/ exists s, sql = VNumber (S754_zero s))
  /\ (status (response (post_execute pool startTime endTime sql)) = 400%Z ->
      calls (post_execute pool startTime endTime sql) = [])
  /\ (falsy sql = false ->
        match getConnection pool with
        | Rejected _ =>
            calls (post_execute pool startTime endTime sql) = [GetConnection]
            /\ status (response (post_execute pool startTime endTime sql)) = 500%Z
        | Fulfilled _ =>
            calls (post_execute pool startTime endTime sql)
            = [GetConnection; Execute sql; Release]
            /\ status (response (post_execute pool startTime endTime sql))
               = match execute pool sql with
                 | Fulfilled (ResultSet _ _) => 200%Z
                 | _ => 500%Z
                 end
        end)
  /\ (status (response (post_execute pool startTime endTime sql)) = 200%Z <->
      exists rows fields,
        body (response (post_execute pool startTime endTime sql))
        = ResultBody sql rows (map name fields) (endTime - startTime)
            (List.length rows)).
Proof.
  split.
  { unfold post_execute, executeQuery. destruct (falsy sql); [now split|].
    destruct (getConnection pool); [|split; discriminate].
    destruct (execute pool sql) as [[rs fs|n]|]; split; discriminate. }
  split.
  { split.
    - destruct sql as [| |[|]|[s| | |]|[|]| |]; try discriminate; intros _; eauto 8.
    - intros [-> | [-> | [-> | [-> | [-> | [s ->]]]]]]; reflexivity. }
  split.
  { unfold post_execute, executeQuery. destruct (falsy sql); [reflexivity|].
    destruct (getConnection pool); [|discriminate].
    destruct (execute pool sql) as [[rs fs|n]|]; discriminate. }
  split.
  { intros N. unfold post_execute, executeQuery. rewrite N.
    destruct (getConnection pool); [|now split].
    destruct (execute pool sql) as [[rs fs|n]|]; now split. }
  unfold post_execute, executeQuery. destruct (falsy sql).
  { split; [discriminate | intros [rows [fields E]]; discriminate E]. }
  destruct (getConnection pool).
  - destruct (execute pool sql) as [[rs fs|n]|]; cbn.
    + split; [intros _; now exists rs, fs | reflexivity].
    + split; [discriminate | intros [rows [fields E]]; discriminate E].
    + split; [discriminate | intros [rows [fields E]]; discriminate E].
  - split; [discriminate | intros [rows [fields E]]; discriminate E].
Qed.

End RouteDiscipline.

(* ================================================================== *)
(** * The database connection form *)
(* ================================================================== *)

Section Connecting.

Import JS DatabaseConnection.

Lemma shown_present (e : Api.AxiosError) (fallback : string) :
  fallback <> ""%string -> Spec.present (shown e fallback).
Proof.
  intros N. unfold shown, or_else.
  destruct (truthy (Api.detail e)) eqn:E.
  - now apply truthy_spec.
  - now exists fallback.
Qed.

Lemma shown_detail (e : Api.AxiosError) (fallback : string) :
  Spec.present (Api.detail e) -> shown e fallback = Api.detail e.
Proof. intros P. unfold shown. now apply or_else_present. Qed.

Lemma at_key_spread (formData : list (string * string)) (name value k : string) :
  ChatInterface.at_key (spread formData name value) k
  = if (k =? name)%string then Some value else ChatInterface.at_key formData k.
Proof.
  induction formData as [|[k0 v0] rest IH]; cbn [spread ChatInterface.at_key].
  - rewrite (String.eqb_sym name k). reflexivity.
  - destruct (k0 =? name)%string eqn:E0; cbn [ChatInterface.at_key].
    + apply String.eqb_eq in E0. subst k0.
      rewrite (String.eqb_sym name k).
      now destruct (k =? name)%string.
    + rewrite IH. destruct (k0 =? k)%string eqn:E1; [|reflexivity].
      apply String.eqb_eq in E1. subst k0.
      now rewrite E0.
Qed.

Lemma keys_spread (formData : list (string * string)) (name value : string) :
  map fst (spread formData name value)
  = if existsb (fun k => (k =? name)%string) (map fst formData)
    then map fst formData else map fst formData ++ [name].
Proof.
  induction formData as [|[k0 v0] rest IH]; cbn [spread map fst existsb app];
    [reflexivity|].
  destruct (k0 =? name)%string eqn:E0; cbn [map fst orb]; [reflexivity|].
  rewrite IH. now destruct (existsb _ _).
Qed.

Lemma spread_new (formData : list (string * string)) (name value : string) :
  ~ In name (map fst formData) ->
  spread formData name value = formData ++ [(name, value)].
Proof.
  induction formData as [|[k0 v0] rest IH]; cbn [spread map fst In app];
    [reflexivity|].
  intros N. destruct (k0 =? name)%string eqn:E.
  - apply String.eqb_eq in E. tauto.
  - rewrite IH by tauto. reflexivity.
Qed.

Lemma spread_old (formData : list (string * string)) (name value : string) :
  In name (map fst formData) ->
  exists before old after,
    formData = before ++ (name, old) :: after
    /\ ~ In name (map fst before)
    /\ spread formData name value = before ++ (name, value) :: after.
Proof.
  induction formData as [|[k0 v0] rest IH]; cbn [spread map fst In];
    [intros []|].
  intros I. destruct (k0 =? name)%string eqn:E.
  - apply String.eqb_eq in E. subst k0.
    exists [], v0, rest. split; [reflexivity|]. split; [intros []|reflexivity].
  - assert (N : k0 <> name) by (now apply String.eqb_neq).
    destruct IH as [before [old [after [F [B S]]]]]; [tauto|].
    exists ((k0, v0) :: before), old, after.
    split; [now rewrite F|]. split; [cbn; tauto|].
    now rewrite S.
Qed.

(** X22: typing into a field of the connection form replaces the value of
    that field where it stands, or adds the field at the end when the name
    is new; every other field, the order of the fields, the shown error and
    the requests sent so far stay as they were.  The form posted by the
    next Connect is exactly the edited form. *)
Theorem handleInputChange_sets_one_field (srv : Server) (name value : string)
    (s : State) :
  ChatInterface.at_key (formData (handleInputChange name value s)) name = Some value
  /\ (forall k, k <> name ->
        ChatInterface.at_key (formData (handleInputChange name value s)) k
        = ChatInterface.at_key (formData s) k)
  /\ (In name (map fst (formData s)) ->
        map fst (formData (handleInputChange name value s)) = map fst (formData s))
  /\ (error (handleInputChange name value s), calls (handleInputChange name value s))
     = (error s, calls s)
  /\ (exists posted rest,
        calls (handleConnect srv (handleInputChange name value s))
        = calls s ++ PostConnect posted :: rest
        /\ ChatInterface.at_key posted name = Some value)
  /\ (In name (map fst (formData s)) ->
        exists before old after,
          formData s = before ++ (name, old) :: after
          /\ ~ In name (map fst before)
          /\ formData (handleInputChange name value s)
             = before ++ (name, value) :: after)
  /\ (~ In name (map fst (formData s)) ->
        formData (handleInputChange name value s) = formData s ++ [(name, value)])
  /\ (loading (handleInputChange name value s), tables (handleInputChange name value s),
      selectedTable (handleInputChange name value s),
      tableSchema (handleInputChange name value s),
      tablePreview (handleInputChange name value s))
     = (loading s, tables s, selectedTable s, tableSchema s, tablePreview s)
  /\ calls (handleConnect srv (handleInputChange name value s))
     = calls s
       ++ PostConnect (formData (handleInputChange name value s))
          :: match connect srv (formData (handleInputChange name value s)) with
             | Api.Ok (Some t) =>
                 if (t =? "success")%string then [ConnectionSuccess; GetTables]
                 else []
             | _ => []
             end.
Proof.
  cbn [handleInputChange formData error calls loading tables selectedTable
       tableSchema tablePreview].
  split; [now rewrite at_key_spread, String.eqb_refl|].
  split.
  { intros k N. rewrite at_key_spread.
    destruct (k =? name)%string eqn:E; [|reflexivity].
    now apply String.eqb_eq in E. }
  split.
  { intros I. rewrite keys_spread.
    destruct (existsb _ _) eqn:E; [reflexivity|].
    assert (X : existsb (fun k => (k =? name)%string) (map fst (formData s)) = true).
    { apply existsb_exists. exists name. split; [exact I | apply String.eqb_refl]. }
    congruence. }
  split; [reflexivity|].
  assert (C : calls (handleConnect srv (handleInputChange name value s))
              = calls s
                ++ PostConnect (spread (formData s) name value)
                   :: match connect srv (spread (formData s) name value) with
                      | Api.Ok (Some t) =>
                          if (t =? "success")%string
                          then [ConnectionSuccess; GetTables] else []
                      | _ => []
                      end).
  { unfold handleConnect. cbn [handleInputChange formData].
    destruct (connect srv _) as [[t|]|e]; [|reflexivity|reflexivity].
    destruct (t =? "success")%string; [|reflexivity].
    unfold fetchTables. destruct (listTables srv); cbn; now rewrite <- !app_assoc. }
  split.
  { exists (spread (formData s) name value). eexists.
    split; [exact C | now rewrite at_key_spread, String.eqb_refl]. }
  split; [apply spread_old|].
  split; [apply spread_new|].
  split; [reflexivity | exact C].
Qed.

(** X23: Connect always ends with the loading flag down and never changes
    the form or the selected table.  When the service answers with status
    'success' the parent is told and the tables are asked for, in this
    order; if the tables then fail, an error is shown although the parent
    has been told.  With any other outcome only the one request is sent;
    an answer with another status shows no error at all, a failed request
    shows one. *)
Theorem handleConnect_outcomes (srv : Server) (s : State) :
  loading (handleConnect srv s) = false
  /\ formData (handleConnect srv s) = formData s
  /\ selectedTable (handleConnect srv s) = selectedTable s
  /\ (connect srv (formData s) = Api.Ok (Some "success"%string) ->
        calls (handleConnect srv s)
        = calls s ++ [PostConnect (formData s); ConnectionSuccess; GetTables]
        /\ match listTables srv with
           | Api.Ok ts =>
               tables (handleConnect srv s) = ts
               /\ error (handleConnect srv s) = None
           | Api.Err e =>
               tables (handleConnect srv s) = tables s
               /\ Spec.present (error (handleConnect srv s))
           end)
  /\ (connect srv (formData s) <> Api.Ok (Some "success"%string) ->
        calls (handleConnect srv s) = calls s ++ [PostConnect (formData s)]
        /\ tables (handleConnect srv s) = tables s
        /\ (error (handleConnect srv s) = None
            <-> exists st, connect srv (formData s) = Api.Ok st)).
Proof.
  unfold handleConnect.
  destruct (connect srv (formData s)) as [[t|]|e].
  - destruct (t =? "success")%string eqn:E.
    + apply String.eqb_eq in E. subst t.
      unfold fetchTables. destruct (listTables srv) as [ts|e]; cbn.
      * split; [reflexivity|]. split; [reflexivity|]. split; [reflexivity|].
        split.
        -- intros _. split; [now rewrite <- !app_assoc | now split].
        -- intros N. now contradiction N.
      * split; [reflexivity|]. split; [reflexivity|]. split; [reflexivity|].
        split.
        -- intros _. split; [now rewrite <- !app_assoc|].
           split; [reflexivity | now apply shown_present].
        -- intros N. now contradiction N.
    + cbn. split; [reflexivity|]. split; [reflexivity|]. split; [reflexivity|].
      split.
      * intros X. injection X as ->. now rewrite String.eqb_refl in E.
      * intros _. split; [reflexivity|]. split; [reflexivity|].
        split; [intros _; now exists (Some t) | reflexivity].
  - cbn. split; [reflexivity|]. split; [reflexivity|]. split; [reflexivity|].
    split; [discriminate|].
    intros _. split; [reflexivity|]. split; [reflexivity|].
    split; [intros _; now exists None | reflexivity].
  - cbn. split; [reflexivity|]. split; [reflexivity|]. split; [reflexivity|].
    split; [discriminate|].
    intros _. split; [reflexivity|]. split; [reflexivity|].
    split.
    + intros X. exfalso.
      destruct (shown_present e "Failed to connect to database") as [x [P _]];
        [discriminate | congruence].
    + intros [st X]. discriminate X.
Qed.

(** X24: choosing a table always records the choice and asks for its schema
    and its preview.  The details change together or not at all: when both
    requests succeed both are replaced, and an error shown before stays;
    when one fails, an error is shown and the schema and preview of the
    table chosen before remain under the new choice. *)
Theorem handleTableSelect_all_or_nothing (srv : Server) (schemaFirst : bool)
    (tableName : string) (s : State) :
  selectedTable (handleTableSelect srv schemaFirst tableName s) = Some tableName
  /\ calls (handleTableSelect srv schemaFirst tableName s)
     = calls s ++ [GetSchema tableName; GetPreview tableName]
  /\ ((exists sch pre,
         schema srv tableName = Api.Ok sch /\ preview srv tableName = Api.Ok pre
         /\ tableSchema (handleTableSelect srv schemaFirst tableName s) = sch
         /\ tablePreview (handleTableSelect srv schemaFirst tableName s) = pre
         /\ error (handleTableSelect srv schemaFirst tableName s) = error s)
      \/ ((exists e, schema srv tableName = Api.Err e
                     \/ preview srv tableName = Api.Err e)
          /\ tableSchema (handleTableSelect srv schemaFirst tableName s)
             = tableSchema s
          /\ tablePreview (handleTableSelect srv schemaFirst tableName s)
             = tablePreview s
          /\ Spec.present (error (handleTableSelect srv schemaFirst tableName s)))).
Proof.
  unfold handleTableSelect.
  destruct (schema srv tableName) as [sch|e1], (preview srv tableName) as [pre|e2];
    cbn; (split; [reflexivity|]); (split; [reflexivity|]).
  - left. now exists sch, pre.
  - right. split; [exists e2; now right|]. repeat split.
    now apply shown_present.
  - right. split; [exists e1; now left|]. repeat split.
    now apply shown_present.
  - right. split; [exists e1; now left|]. repeat split.
    now apply shown_present.
Qed.

End Connecting.

(* ================================================================== *)
(** * The theorems at sample inputs *)
(* ================================================================== *)

Lemma message_text_blocks_witness :
  Samples.mixed <> ""%string
  /\ exists rs,
       ChatInterface.processMessageContent (Some Samples.mixed)
       = Some (map Observe.block rs)
       /\ concat (map snd rs) = JS.split_lines Samples.mixed
       /\ Forall Observe.run_ok rs
       /\ Observe.alternate rs.
Proof.
  assert (N : Samples.mixed <> ""%string) by (vm_compute; discriminate).
  split; [exact N | exact (message_text_blocks Samples.mixed N)].
Defined.

Lemma plain_text_is_one_paragraph_witness :
  Samples.plain <> ""%string
  /\ ChatInterface.processMessageContent (Some Samples.plain)
     = Some [El "p" "whitespace-pre-wrap" None [Text Samples.plain]].
Proof.
  assert (N : Samples.plain <> ""%string) by (vm_compute; discriminate).
  split; [exact N|].
  apply (plain_text_is_one_paragraph Samples.plain N).
  assert (E : JS.split_lines Samples.plain = ["Revenue grew."; "Costs fell."]%string)
    by (vm_compute; reflexivity).
  rewrite E. repeat constructor.
Defined.

Lemma bullet_text_is_one_list_witness :
  Samples.bullets <> ""%string
  /\ ChatInterface.processMessageContent (Some Samples.bullets)
     = Some [El "ul" "list-disc list-inside space-y-1 pl-4" None
               (map (fun l => El "li" "" None [Text (Observe.item_text l)])
                  (JS.split_lines Samples.bullets))].
Proof.
  assert (N : Samples.bullets <> ""%string) by (vm_compute; discriminate).
  split; [exact N|].
  apply (bullet_text_is_one_list Samples.bullets N).
  assert (E : JS.split_lines Samples.bullets = ["* north"; "  *  south  "]%string)
    by (vm_compute; reflexivity).
  rewrite E. repeat constructor.
Defined.


Lemma late_answer_after_back_witness :
  JS.trim (ChatInterface.input Samples.asking) <> ""%string
  /\ exists s0 request a,
       ChatInterface.handleSubmit_begin 1700000000000 Samples.asking
       = (s0, Some request)
       /\ ChatInterface.messages (ChatInterface.handleBackToHome s0) = []
       /\ ChatInterface.isLoading (ChatInterface.handleBackToHome s0) = true
       /\ ChatInterface.role a = ChatInterface.assistant
       /\ ChatInterface.messages
            (ChatInterface.handleSubmit_resume App.onQueryExecute 1700000000500
               (Examples.answering "total sales?" [])
               (ChatInterface.handleBackToHome s0))
          = [a].
Proof.
  assert (T : JS.trim (ChatInterface.input Samples.asking) <> ""%string)
    by (vm_compute; discriminate).
  split; [exact T|].
  exact (late_answer_after_back 1700000000000 1700000000500 Samples.asking
           (Examples.answering "total sales?" []) T).
Defined.

Lemma history_after_submission_witness :
  JS.trim (ChatInterface.input Samples.asking) <> ""%string
  /\ ChatInterface.history
       (ChatInterface.messages
          (ChatInterface.handleSubmit Examples.answering App.onQueryExecute
             1700000000000 1700000000500 Samples.asking))
     = [ {| ChatInterface.h_user := Some "total sales?"%string;
            ChatInterface.h_assistant := None |};
         {| ChatInterface.h_user := None;
            ChatInterface.h_assistant := Some "Revenue by region."%string |} ].
Proof.
  assert (T : JS.trim (ChatInterface.input Samples.asking) <> ""%string)
    by (vm_compute; discriminate).
  split; [exact T|].
  rewrite (history_after_submission Examples.answering 1700000000000
             1700000000500 Samples.asking T).
  vm_compute. reflexivity.
Defined.

Lemma loadDataset_outcomes_witness :
  Api.dataset Samples.server_empty = Api.Err Samples.not_found
  /\ AppShell.dataset (AppShell.loadDataset Samples.server_empty AppShell.initial)
     = None
  /\ List.length
       (Api.console_lines
          (AppShell.console (AppShell.loadDataset Samples.server_empty AppShell.initial)))
     = 1.
Proof.
  assert (E : Api.dataset Samples.server_empty = Api.Err Samples.not_found)
    by reflexivity.
  split; [exact E|].
  exact (proj2 (proj2 (loadDataset_outcomes Samples.server_empty AppShell.initial))
           Samples.not_found E).
Defined.

Lemma submission_traffic_witness :
  JS.trim (ChatInterface.input Samples.asking) <> ""%string
  /\ Api.requests (Wiring.traffic Samples.server_down 1700000000000 Samples.asking)
     = [Api.PostChat "total sales?" (Some [])]
  /\ Api.console_lines (Wiring.traffic Samples.server_down 1700000000000 Samples.asking)
     = [Api.ConsoleError "Error sending message:" Samples.network_error].
Proof.
  assert (T : JS.trim (ChatInterface.input Samples.asking) <> ""%string)
    by (vm_compute; discriminate).
  split; [exact T|].
  destruct (proj1 (submission_traffic Samples.server_down 1700000000000
                     1700000000500 Samples.asking) T) as [R F].
  split.
  - rewrite R. vm_compute. reflexivity.
  - exact (proj1 (F Samples.network_error eq_refl)).
Defined.

Lemma visualize_opens_panel_witness :
  Spec.data_answer (ChatInterface.type Examples.sales)
  /\ Observe.handlers (@ChatInterface.renderAssistantMessage example_host Examples.sales)
     = [OnVisualizeData Examples.one_row]
  /\ AppShell.panel
       (AppShell.dispatch (OnVisualizeData Examples.one_row) AppShell.initial)
     = Some Examples.one_row.
Proof.
  assert (D : Spec.data_answer (ChatInterface.type Examples.sales))
    by (intros t' E; discriminate E).
  split; [exact D|].
  destruct (@visualize_opens_panel example_host Examples.sales
              [("region", JS.VString "north");
               ("total_revenue", JS.VNumber Spec.n1234_5)]
              [] AppShell.initial D eq_refl) as [H [P _]].
  split; [exact H|].
  apply P. rewrite H. now left.
Defined.

Lemma upload_reaches_page_witness :
  DatasetUpload.file Samples.chosen = Some Examples.table_csv
  /\ AppShell.dataset
       (fold_left (fun st e => AppShell.uploaded e st)
          (UploadFlow.added Samples.chosen
             (DatasetUpload.handleSubmit Samples.accepts Samples.chosen))
          AppShell.initial)
     = Some Samples.info
  /\ AppShell.uploadSuccess
       (fold_left (fun st e => AppShell.uploaded e st)
          (UploadFlow.added Samples.chosen
             (DatasetUpload.handleSubmit Samples.accepts Samples.chosen))
          AppShell.initial)
     = true.
Proof.
  assert (F : DatasetUpload.file Samples.chosen = Some Examples.table_csv)
    by (vm_compute; reflexivity).
  split; [exact F|].
  exact (proj1 (upload_reaches_page Samples.accepts Samples.chosen
                  Examples.table_csv AppShell.initial F)).
Defined.

Lemma refused_file_keeps_choice_witness :
  DatasetUpload.file Samples.chosen = Some Examples.table_csv
  /\ ~ Spec.ends_in (DatasetUpload.file_name Examples.spreadsheet) ".csv"
  /\ DatasetUpload.file (DatasetUpload.handleFile Examples.spreadsheet Samples.chosen)
     = Some Examples.table_csv
  /\ DatasetUpload.uploads
       (DatasetUpload.effects
          (DatasetUpload.handleSubmit Samples.accepts
             (DatasetUpload.handleFile Examples.spreadsheet Samples.chosen)))
     = [Examples.table_csv].
Proof.
  assert (F : DatasetUpload.file Samples.chosen = Some Examples.table_csv)
    by (vm_compute; reflexivity).
  assert (N : ~ Spec.ends_in (DatasetUpload.file_name Examples.spreadsheet) ".csv").
  { intros E. apply endsWith_spec in E. discriminate E. }
  split; [exact F|]. split; [exact N|].
  destruct (refused_file_keeps_choice Samples.accepts Examples.table_csv
              Examples.spreadsheet Samples.chosen F N) as [K [_ U]].
  split; [exact K | exact U].
Defined.

Lemma failed_upload_shows_error_witness :
  DatasetUpload.file Samples.chosen = Some Examples.table_csv
  /\ Spec.present
       (DatasetUpload.error (DatasetUpload.handleSubmit Samples.rejects Samples.chosen))
  /\ DatasetUpload.file (DatasetUpload.handleSubmit Samples.rejects Samples.chosen)
     = Some Examples.table_csv.
Proof.
  assert (F : DatasetUpload.file Samples.chosen = Some Examples.table_csv)
    by (vm_compute; reflexivity).
  split; [exact F|].
  destruct (failed_upload_shows_error Samples.rejects Examples.table_csv
              (Some "Invalid CSV"%string)
              (Some "Request failed with status code 400"%string)
              Samples.chosen F eq_refl) as [P [_ [_ [_ [K _]]]]].
  split; [exact P | exact K].
Defined.

Lemma handleConnect_outcomes_witness :
  DatabaseConnection.connect Samples.db_no_tables
    (DatabaseConnection.formData DatabaseConnection.initial)
  = Api.Ok (Some "success"%string)
  /\ DatabaseConnection.calls
       (DatabaseConnection.handleConnect Samples.db_no_tables
          DatabaseConnection.initial)
     = [DatabaseConnection.PostConnect
          (DatabaseConnection.formData DatabaseConnection.initial);
        DatabaseConnection.ConnectionSuccess; DatabaseConnection.GetTables]
  /\ Spec.present
       (DatabaseConnection.error
          (DatabaseConnection.handleConnect Samples.db_no_tables
             DatabaseConnection.initial)).
Proof.
  assert (E : DatabaseConnection.connect Samples.db_no_tables
                (DatabaseConnection.formData DatabaseConnection.initial)
              = Api.Ok (Some "success"%string)) by reflexivity.
  split; [exact E|].
  destruct (proj1 (proj2 (proj2 (proj2
              (handleConnect_outcomes Samples.db_no_tables
                 DatabaseConnection.initial)))) E) as [C T].
  split; [exact C | exact (proj2 T)].
Defined.
